(** * Krowdly backend: a shallow embedding of the HTTP handlers

    The repository holds three generations of one Express service:
    - [src/server.js]: the REST service (sign-up, sign-in, profile update,
      events, RSVP toggle, messages);
    - [src/unnamed/part_001]: the same REST service twice; its second
      document is [server.js] followed by the routes added later
      (comments, follows, notifications, trending, "enhanced" RSVP);
    - [src/unnamed/part_000]: the older socket.io service.

    Every handler is a sequence of awaited calls to the Supabase query
    builder.  The database is modelled as explicit state ([World]); each
    awaited call may fail, which is modelled by an oracle of injected
    faults consumed one per call. *)

From stdpp Require Import base strings list gmap pretty sorting.
From Stdlib Require Import ZArith Ascii String Sorted Permutation.

Open Scope string_scope.
Open Scope Z_scope.

(** ** JSON scalars and rows *)

(** Scalar JSON values, as they appear in table columns and request
    bodies. *)
Inductive jval : Type :=
| JNull
| JBool (b : bool)
| JNum (n : Z)
| JStr (s : string).

#[global] Instance jval_eq_dec : EqDecision jval.
Proof. solve_decision. Defined.

(** A row of the [users] table, and a JS object with scalar fields, is a
    finite map from column name to value. *)
Abbreviation row := (gmap string jval).

(** JS [!x] on an optional string field: [undefined] and [""] are falsy. *)
Definition falsy (o : option string) : bool :=
  match o with
  | None => true
  | Some s => bool_decide (s = "")
  end.

(** The value of a field already known to be truthy. *)
Definition str (o : option string) : string := default "" o.

(** Interpolation [`${x}`] of an optional string. *)
Definition interp (o : option string) : string := default "undefined" o.

(** The double-quote character, for the titles built by template
    strings. *)
Definition dquote : string := String (ascii_of_nat 34) EmptyString.

(** A JS string is held as its UTF-8 encoding, one [ascii] per byte, which
    is also how the database stores it.  [s.length] counts UTF-16 code
    units: one for a character of one, two or three bytes, two for a
    character of four bytes (a surrogate pair); the bytes [10xxxxxx] that
    continue a character count for nothing. *)
Definition is_continuation (c : ascii) : bool :=
  let n := nat_of_ascii c in ((128 <=? n) && (n <? 192))%nat.

Definition utf16_units (c : ascii) : nat :=
  let n := nat_of_ascii c in
  if is_continuation c then 0%nat
  else if (n <? 240)%nat then 1%nat
  else 2%nat.

Fixpoint js_length (s : string) : nat :=
  match s with
  | EmptyString => 0%nat
  | String c s' => (utf16_units c + js_length s')%nat
  end.

(** ** Table rows with a fixed shape *)

(** One entry of an event's [rsvps] array: [{ userId, username }].  A
    field that was [undefined] when the entry was built is absent from the
    stored JSON. *)
Record Rsvp : Type := mkRsvp {
  r_userId : option string;
  r_username : option string
}.

#[global] Instance Rsvp_eq_dec : EqDecision Rsvp.
Proof. solve_decision. Defined.

(** A row of [events].  [rsvps] is [None] for a SQL NULL (the handlers
    read it as [ev.rsvps || []]); the columns no handler inspects are kept
    together in [ev_other]. *)
Record Event : Type := mkEvent {
  ev_id : string;
  ev_name : string;
  ev_privacy : string;
  rsvps : option (list Rsvp);
  created_by : option string;
  ev_created_at : Z;
  ev_other : row
}.

#[global] Instance Event_eq_dec : EqDecision Event.
Proof. solve_decision. Defined.

(** A row of [messages]. *)
Record Message : Type := mkMessage {
  m_id : string;
  from_user : string;
  to_user : string;
  message : string;
  m_created_at : Z
}.

#[global] Instance Message_eq_dec : EqDecision Message.
Proof. solve_decision. Defined.

(** A row of [follows]. *)
Record Follow : Type := mkFollow {
  f_id : string;
  follower_id : string;
  following_id : string
}.

(** A row of [notifications]. *)
Record Notification : Type := mkNotification {
  n_id : string;
  n_user_id : string;
  n_type : string;
  n_title : string;
  n_body : string;
  n_data : list (string * string);
  n_read : bool;
  n_created_at : Z
}.

(** Events broadcast with [io.emit] by the socket service. *)
Inductive Emit : Type :=
| EventUpdated (e : Event)
| Activity (type : string) (user : option string) (action : string).

(** ** The world: database, its clock and id supply, injected faults *)

Record World : Type := mkWorld {
  users : list row;
  events : list Event;
  messages : list Message;
  follows : list Follow;
  notifications : list Notification;
  (** column defaults the schema gives a new [users] row *)
  user_defaults : row;
  (** next generated primary key *)
  next_id : N;
  (** the database's [now()], in milliseconds *)
  db_now : Z;
  (** outcome of the coming store calls: [Some msg] makes the call fail
      with [error.message = msg] and no effect; an exhausted list means
      no more failures *)
  faults : list (option string);
  (** what [io.emit] has broadcast so far (socket service only) *)
  emitted : list Emit
}.

Definition set_users (us : list row) (w : World) : World :=
  mkWorld us (events w) (messages w) (follows w) (notifications w)
          (user_defaults w) (next_id w) (db_now w) (faults w) (emitted w).

Definition set_events (es : list Event) (w : World) : World :=
  mkWorld (users w) es (messages w) (follows w) (notifications w)
          (user_defaults w) (next_id w) (db_now w) (faults w) (emitted w).

Definition set_follows (fs : list Follow) (w : World) : World :=
  mkWorld (users w) (events w) (messages w) fs (notifications w)
          (user_defaults w) (next_id w) (db_now w) (faults w) (emitted w).

Definition set_notifications (ns : list Notification) (w : World) : World :=
  mkWorld (users w) (events w) (messages w) (follows w) ns
          (user_defaults w) (next_id w) (db_now w) (faults w) (emitted w).

Definition set_faults (fs : list (option string)) (w : World) : World :=
  mkWorld (users w) (events w) (messages w) (follows w) (notifications w)
          (user_defaults w) (next_id w) (db_now w) fs (emitted w).

Definition bump_id (w : World) : World :=
  mkWorld (users w) (events w) (messages w) (follows w) (notifications w)
          (user_defaults w) (N.succ (next_id w)) (db_now w) (faults w)
          (emitted w).

Definition emit (e : Emit) (w : World) : World :=
  mkWorld (users w) (events w) (messages w) (follows w) (notifications w)
          (user_defaults w) (next_id w) (db_now w) (faults w)
          (emitted w ++ [e]).

(** ** Handlers as state-passing computations *)

Definition M (A : Type) : Type := World -> A * World.

Definition ret {A : Type} (a : A) : M A := fun w => (a, w).

Definition bind {A B : Type} (c : M A) (k : A -> M B) : M B :=
  fun w => let (a, w') := c w in k a w'.

Notation "'await' x := c 'in' k" := (bind c (fun x => k))
  (at level 10, x name, c at level 100, k at level 200).

(** What an awaited query resolves to: [{ data, error }]. *)
Record Result (A : Type) : Type := mkResult {
  data : option A;
  error : option string
}.
Arguments mkResult {A} _ _.
Arguments data {A} _.
Arguments error {A} _.

Definition ok {A : Type} (a : A) : Result A := mkResult (Some a) None.
Definition failed {A : Type} (msg : string) : Result A :=
  mkResult None (Some msg).

(** One awaited store call: the fault oracle decides whether the query
    runs at all. *)
Definition store_call {A : Type} (q : World -> Result A * World)
  : M (Result A) :=
  fun w =>
    match faults w with
    | Some msg :: fs => (failed msg, set_faults fs w)
    | None :: fs => q (set_faults fs w)
    | [] => q w
    end.

(** ** The query builder *)

Definition PGRST116 : string :=
  "JSON object requested, multiple (or no) rows returned".

(** [.single()]: exactly one row, otherwise an error. *)
Definition single {A : Type} (rows : list A) : Result A :=
  match rows with
  | [r] => ok r
  | _ => failed PGRST116
  end.

(** [.maybeSingle()]: no row is [data = null] without error; more than one
    row is an error (and [data = null]). *)
Definition maybeSingle {A : Type} (rows : list A) : Result A :=
  match rows with
  | [] => mkResult None None
  | [r] => ok r
  | _ => failed PGRST116
  end.

(** [.eq(col, v)] on a row. *)
Definition col_eq (col : string) (v : jval) (r : row) : bool :=
  bool_decide (r !! col = Some v).

(** [.eq(col, x)] where [x] was read from another object and may be
    [undefined], which matches nothing. *)
Definition col_eq_opt (col : string) (v : option jval) (r : row) : bool :=
  match v with
  | Some x => col_eq col x r
  | None => false
  end.

(** [.select('c1, c2, ...')]: keep the listed columns. *)
Definition project (cols : list string) (r : row) : row :=
  filter (fun kv => kv.1 ∈ cols) r.

(** *** Case-insensitive pattern match: [.ilike(col, pattern)] *)

Definition is_any_seq (c : ascii) : bool :=
  bool_decide (c = "%"%char) || bool_decide (c = "*"%char).
Definition is_any_char (c : ascii) : bool := bool_decide (c = "_"%char).
Definition is_escape (c : ascii) : bool := bool_decide (c = "\"%char).

(** The rest of a string once the bytes that continue its current
    character are passed. *)
Fixpoint drop_continuation (s : string) : string :=
  match s with
  | EmptyString => EmptyString
  | String c s' => if is_continuation c then drop_continuation s' else s
  end.

(** SQL [LIKE]: [%] (written [*] as well in a PostgREST filter) matches any
    sequence, [_] any one character (all of its bytes), a backslash takes
    what follows literally.  A pattern that ends in a lone backslash makes
    the query fail; since the callers read only [data], that is the same
    as matching no row, which is what this function answers. *)
Fixpoint like (p s : string) : bool :=
  match p with
  | EmptyString =>
      match s with EmptyString => true | String _ _ => false end
  | String c p' =>
      if is_any_seq c then
        (fix skip (t : string) : bool :=
           like p' t ||
           match t with
           | EmptyString => false
           | String _ t' => skip t'
           end) s
      else if is_any_char c then
        match s with
        | EmptyString => false
        | String _ s' => like p' (drop_continuation s')
        end
      else if is_escape c then
        match p' with
        | EmptyString => false
        | String d p'' =>
            match s with
            | EmptyString => false
            | String e s' => bool_decide (d = e) && like p'' s'
            end
        end
      else
        match s with
        | EmptyString => false
        | String e s' => bool_decide (c = e) && like p' s'
        end
  end.

(** [ILIKE] is [LIKE] on the pattern and the text both put in lower case
    by the database's [lower()].  Which letters that folds depends on the
    locale of the database (A-Z alone under the C locale, the letters of
    every script under a Unicode one), so the fold is an argument. *)
Definition ilike (db_lower : string -> string) (pattern s : string) : bool :=
  like (db_lower pattern) (db_lower s).

Definition col_ilike (db_lower : string -> string) (col : string)
  (pattern : string) (r : row) : bool :=
  match r !! col with
  | Some (JStr s) => ilike db_lower pattern s
  | _ => false
  end.

(** *** Ordering *)

(** A stable insertion sort driven by a JS comparator: [x] goes before [y]
    when [cmp x y <= 0].  [Array.prototype.sort] is stable; for the
    store's [.order(...)] the ties are resolved in table order. *)
Fixpoint insert_by {A : Type} (cmp : A -> A -> Z) (x : A) (l : list A)
  : list A :=
  match l with
  | [] => [x]
  | y :: l' => if (cmp x y <=? 0) then x :: l else y :: insert_by cmp x l'
  end.

Fixpoint sort_by {A : Type} (cmp : A -> A -> Z) (l : list A) : list A :=
  match l with
  | [] => []
  | x :: l' => insert_by cmp x (sort_by cmp l')
  end.

(** ** HTTP responses *)

(** What [res.json(...)] is given: an error object, the not-configured
    notice of [dbError], a user object, one or several rows,
    [{ following }], [{ success: true }], or [null]. *)

Inductive Body : Type :=
| BError (msg : string)
| BNotConfigured
| BUser (u : row)
| BEvent (e : Event)
| BEvents (es : list Event)
| BMessages (ms : list Message)
| BFollowing (b : bool)
| BSuccess
| BNull.

Record Response : Type := mkResponse {
  status : nat;
  body : Body
}.

Definition json (b : Body) : Response := mkResponse 200 b.
Definition fail (code : nat) (msg : string) : Response :=
  mkResponse code (BError msg).

(** ** Configuration *)

Record Config : Type := mkConfig {
  SUPABASE_URL : option string;
  SUPABASE_SERVICE_KEY : option string;
  PASSWORD_SALT : option string
}.

(** [getSupabase()]: [false] is its [return null], taken when a
    credential is unset or empty; [true] is its call of [createClient],
    which is taken to return a client.  A [Config] whose URL
    [createClient] refuses makes [getSupabase()], and with it every
    handler that calls it, throw before it answers: such a [Config] is
    outside what the handlers below describe. *)
Definition getSupabase (cfg : Config) : bool :=
  negb (falsy (SUPABASE_URL cfg) || falsy (SUPABASE_SERVICE_KEY cfg)).

Definition dbError : Response := mkResponse 500 BNotConfigured.

(** * The REST service: [src/server.js] and the second document of
      [src/unnamed/part_001]

    The first document of [part_001] has the same handlers without the
    [getSupabase()] test, i.e. these with a configured [Config]. *)
Module Server.

Section Handlers.

(** Node's [crypto.createHash('sha256').update(s).digest('hex')], the
    global [encodeURIComponent], and the [lower()] of the database, by
    which its [ILIKE] folds the case of letters. *)
Variable sha256_hex : string -> string.
Variable encodeURIComponent : string -> string.
Variable db_lower : string -> string.

Definition hashPassword (cfg : Config) (pw : string) : string :=
  let salt :=
    if falsy (PASSWORD_SALT cfg) then "krowdly_salt_2026"
    else str (PASSWORD_SALT cfg) in
  sha256_hex (pw ++ salt).

(** [req.body] of the sign-up and sign-in routes.  The fields are taken at
    the JSON type the data model gives them, strings; [None] is an absent
    field. *)
Record Credentials : Type := mkCredentials {
  c_username : option string;
  c_email : option string;
  c_password : option string;
  c_avatar : option string
}.

Definition account_cols : list string :=
  ["id"; "username"; "email"; "avatar"; "online"; "bio"; "profile_color";
   "created_at"].

Definition profile_cols : list string :=
  ["id"; "username"; "avatar"; "online"; "bio"; "profile_color";
   "created_at"].

(** [sb.from('users').select(cols).<filter>.maybeSingle()] *)
Definition users_maybeSingle (cols : list string) (p : row -> bool)
  : M (Result row) :=
  store_call (fun w =>
    (maybeSingle (project cols <$> List.filter p (users w)), w)).

(** [sb.from('users').insert([vals]).select(cols).single()]: the database
    completes the row with its defaults, a fresh [id] and [created_at]. *)
Definition users_insert (vals : row) (cols : list string) : M (Result row) :=
  store_call (fun w =>
    let r := <["id" := JStr (pretty (next_id w))]>
               (<["created_at" := JNum (db_now w)]>
                  (vals ∪ user_defaults w)) in
    (ok (project cols r), bump_id (set_users (users w ++ [r]) w))).

(** [sb.from('users').update(upd).eq('id', id)] *)
Definition users_update (upd : row) (id : option jval)
  : M (Result unit) :=
  store_call (fun w =>
    (ok tt,
     set_users
       ((fun r => if col_eq_opt "id" id r then upd ∪ r else r) <$> users w)
       w)).

(** [sb.from('users').update(upd).eq('id', id).select(cols).single()]: a
    mutation asked for a single object is rolled back unless it touches
    exactly one row. *)
Definition users_update_single (upd : row) (id : string)
  (cols : list string) : M (Result row) :=
  store_call (fun w =>
    match List.filter (col_eq "id" (JStr id)) (users w) with
    | [r] =>
        (ok (project cols (upd ∪ r)),
         set_users
           ((fun r => if col_eq "id" (JStr id) r then upd ∪ r else r)
              <$> users w)
           w)
    | _ => (failed PGRST116, w)
    end).

(** POST /api/users *)
Definition signup (cfg : Config) (req : Credentials) : M Response :=
  if negb (getSupabase cfg) then ret dbError else
  if falsy (c_username req) then ret (fail 400 "Username required") else
  if falsy (c_email req) then ret (fail 400 "Email required") else
  if falsy (c_password req)
     || (js_length (str (c_password req)) <? 6)%nat
  then ret (fail 400 "Password must be at least 6 characters") else
  let username := str (c_username req) in
  let email := str (c_email req) in
  let password := str (c_password req) in
  await byEmail := users_maybeSingle ["id"] (col_eq "email" (JStr email)) in
  if data byEmail is Some _ then
    ret (fail 409 "Email already registered. Please sign in.") else
  await byName := users_maybeSingle ["id"]
                    (col_ilike db_lower "username" username) in
  if data byName is Some _ then
    ret (fail 409 "Username already taken. Try another one.") else
  let avatarUrl :=
    if falsy (c_avatar req)
    then "https://api.dicebear.com/7.x/avataaars/svg?seed="
           ++ encodeURIComponent username
    else str (c_avatar req) in
  await ins := users_insert
      (<["username" := JStr username]>
       (<["email" := JStr email]>
        (<["password_hash" := JStr (hashPassword cfg password)]>
         (<["avatar" := JStr avatarUrl]>
          (<["online" := JBool true]> ∅)))))
      account_cols in
  match error ins, data ins with
  | Some msg, _ => ret (fail 500 msg)
  | None, Some u => ret (json (BUser u))
  | None, None => ret (json BNull)
  end.

(** POST /api/auth/signin *)
Definition signin (cfg : Config) (req : Credentials) : M Response :=
  if negb (getSupabase cfg) then ret dbError else
  if falsy (c_email req) || falsy (c_password req)
  then ret (fail 400 "Email and password required") else
  let email := str (c_email req) in
  let password := str (c_password req) in
  await found := users_maybeSingle account_cols
      (fun r => col_eq "email" (JStr email) r
                && col_eq "password_hash"
                     (JStr (hashPassword cfg password)) r) in
  match error found, data found with
  | Some msg, _ => ret (fail 500 msg)
  | None, None => ret (fail 401 "Invalid email or password")
  | None, Some user =>
      await _u := users_update (<["online" := JBool true]> ∅)
                               (user !! "id") in
      ret (json (BUser (<["online" := JBool true]> user)))
  end.

(** PATCH /api/users/:id; [req.body] is any JSON object. *)
Definition update_user (cfg : Config) (id : string) (body : row)
  : M Response :=
  if negb (getSupabase cfg) then ret dbError else
  let updates : row :=
    project ["username"; "avatar"; "bio"; "profile_color"] body in
  if bool_decide (updates = ∅) then ret (fail 400 "Nothing to update") else
  await upd := users_update_single updates id profile_cols in
  match error upd, data upd with
  | Some msg, _ => ret (fail 500 msg)
  | None, Some u => ret (json (BUser u))
  | None, None => ret (json BNull)
  end.

(** *** Events *)

(** The body of the toggle shared by every RSVP handler:
    [already = rsvps.find(r => r.userId === userId)], then
    [already ? rsvps.filter(r => r.userId !== userId)
             : [...rsvps, { userId, username }]]. *)
Definition already (rs : list Rsvp) (userId : option string) : option Rsvp :=
  List.find (fun r => bool_decide (r_userId r = userId)) rs.

Definition toggle_rsvps (rs : list Rsvp) (userId username : option string)
  : list Rsvp :=
  if already rs userId is Some _
  then List.filter (fun r => negb (bool_decide (r_userId r = userId))) rs
  else rs ++ [mkRsvp userId username].

Definition with_rsvps (rs : list Rsvp) (e : Event) : Event :=
  mkEvent (ev_id e) (ev_name e) (ev_privacy e) (Some rs) (created_by e)
          (ev_created_at e) (ev_other e).

(** [sb.from('events').select('*').eq('id', id).single()] *)
Definition events_single (id : string) : M (Result Event) :=
  store_call (fun w =>
    (single (List.filter (fun e => bool_decide (ev_id e = id)) (events w)),
     w)).

(** [sb.from('events').update({ rsvps }).eq('id', id).select().single()] *)
Definition events_update_rsvps (rs : list Rsvp) (id : string)
  : M (Result Event) :=
  store_call (fun w =>
    match List.filter (fun e => bool_decide (ev_id e = id)) (events w) with
    | [e] =>
        (ok (with_rsvps rs e),
         set_events
           ((fun e => if bool_decide (ev_id e = id)
                      then with_rsvps rs e else e) <$> events w)
           w)
    | _ => (failed PGRST116, w)
    end).

(** [sb.from('notifications').insert([{ user_id, type, title, body,
    data }])]; the caller does not read the result. *)
Definition notifications_insert (user_id type title body : string)
  (payload : list (string * string)) : M (Result unit) :=
  store_call (fun w =>
    (ok tt,
     bump_id
       (set_notifications
          (notifications w ++
           [mkNotification (pretty (next_id w)) user_id type title body
                           payload false (db_now w)])
          w))).

(** POST /api/events/:id/rsvp, as registered first (line 198 of
    [server.js], line 471 of [part_001]). *)
Definition rsvp (cfg : Config) (id : string) (userId username : option string)
  : M Response :=
  if negb (getSupabase cfg) then ret dbError else
  if falsy userId then ret (fail 400 "userId required") else
  await fetched := events_single id in
  match error fetched, data fetched with
  | None, Some ev =>
      let rs := toggle_rsvps (default [] (rsvps ev)) userId username in
      await upd := events_update_rsvps rs id in
      match error upd, data upd with
      | Some msg, _ => ret (fail 500 msg)
      | None, Some e => ret (json (BEvent e))
      | None, None => ret (json BNull)
      end
  | _, _ => ret (fail 404 "Event not found")
  end.

(** POST /api/events/:id/rsvp, "Enhanced RSVP with notification", as
    registered second (line 621 of [part_001]). *)
Definition rsvp_enhanced (cfg : Config) (id : string)
  (userId username : option string) : M Response :=
  if negb (getSupabase cfg) then ret dbError else
  if falsy userId then ret (fail 400 "userId required") else
  await fetched := events_single id in
  match error fetched, data fetched with
  | None, Some ev =>
      let was := already (default [] (rsvps ev)) userId in
      let rs := toggle_rsvps (default [] (rsvps ev)) userId username in
      await upd := events_update_rsvps rs id in
      match error upd with
      | Some msg => ret (fail 500 msg)
      | None =>
          let respond :=
            ret (json (match data upd with
                       | Some e => BEvent e
                       | None => BNull
                       end)) in
          if negb (if was is Some _ then true else false)
             && negb (falsy (created_by ev))
             && negb (bool_decide (created_by ev = userId))
          then
            await _n := notifications_insert
                (str (created_by ev)) "rsvp"
                (interp username ++ " is going to " ++ dquote
                   ++ ev_name ev ++ dquote ++ "! 🎉")
                "Someone new joined your event."
                [("event_id", id); ("user_id", str userId)] in
            respond
          else respond
      end
  | _, _ => ret (fail 404 "Event not found")
  end.

(** GET /api/events/trending.  [now] is [Date.now()] in milliseconds. *)
Definition rsvp_count (e : Event) : Z :=
  Z.of_nat (List.length (default [] (rsvps e))).

Definition trending (cfg : Config) (now : Z) : M Response :=
  if negb (getSupabase cfg) then ret dbError else
  let since := now - 24 * 60 * 60 * 1000 in
  await res := store_call (fun w =>
      (ok (take 10
             (sort_by (fun a b => ev_created_at b - ev_created_at a)
                (List.filter
                   (fun e => bool_decide (ev_privacy e = "public")
                             && (since <=? ev_created_at e))
                   (events w)))),
       w)) in
  match error res with
  | Some msg => ret (fail 500 msg)
  | None =>
      let sorted :=
        sort_by (fun a b => rsvp_count b - rsvp_count a)
                (default [] (data res)) in
      ret (json (BEvents sorted))
  end.

(** *** Messages *)

(** The filter of GET /api/messages/:userId/:otherId:
    [or(and(from_user.eq.U, to_user.eq.O), and(from_user.eq.O,
    to_user.eq.U))], read as the predicate it denotes for ids that hold
    none of the characters the filter syntax reserves. *)
Definition between (userId otherId : string) (m : Message) : bool :=
  (bool_decide (from_user m = userId) && bool_decide (to_user m = otherId))
  || (bool_decide (from_user m = otherId) && bool_decide (to_user m = userId)).

Definition history (cfg : Config) (userId otherId : string) : M Response :=
  if negb (getSupabase cfg) then ret dbError else
  await res := store_call (fun w =>
      (ok (sort_by (fun a b => m_created_at a - m_created_at b)
             (List.filter (between userId otherId) (messages w))),
       w)) in
  match error res with
  | Some msg => ret (fail 500 msg)
  | None => ret (json (BMessages (default [] (data res))))
  end.

(** *** Follows: POST /api/follows *)
Definition follow_toggle (cfg : Config) (follower following : option string)
  : M Response :=
  if negb (getSupabase cfg) then ret dbError else
  if falsy follower || falsy following
  then ret (fail 400 "follower_id and following_id required") else
  let is_edge (f : Follow) : bool :=
    bool_decide (follower_id f = str follower)
    && bool_decide (following_id f = str following) in
  await existing := store_call (fun w =>
      (maybeSingle (List.filter is_edge (follows w)), w)) in
  match data existing with
  | Some edge =>
      await _d := store_call (fun w =>
          (ok tt,
           set_follows
             (List.filter
                (fun f => negb (bool_decide (f_id f = f_id edge)))
                (follows w))
             w)) in
      ret (json (BFollowing false))
  | None =>
      await _i := store_call (fun w =>
          (ok tt,
           bump_id
             (set_follows
                (follows w ++
                 [mkFollow (pretty (next_id w)) (str follower)
                           (str following)])
                w))) in
      await followerUser := store_call (fun w =>
          (single (project ["username"]
                     <$> List.filter (col_eq "id" (JStr (str follower)))
                                     (users w)),
           w)) in
      let name :=
        match data followerUser with
        | Some u =>
            match u !! "username" with
            | Some (JStr s) => if bool_decide (s = "") then "Someone" else s
            | _ => "Someone"
            end
        | None => "Someone"
        end in
      await _n := notifications_insert (str following) "follow"
          (name ++ " followed you!") "Check out their profile."
          [("follower_id", str follower)] in
      ret (json (BFollowing true))
  end.

(** *** The route table

    Express keeps the routes in registration order and hands a request to
    the first one whose method and path match; none of the handlers above
    calls [next()], so a later route with the same method and path is
    never reached. *)
Inductive Method : Type := GET | POST | PATCH | DELETE.

#[global] Instance Method_eq_dec : EqDecision Method.
Proof. solve_decision. Defined.

Inductive Seg : Type :=
| Lit (s : string)
| Param (name : string).

Inductive Handler : Type :=
| H_health | H_signup | H_signin | H_signout | H_users | H_update_user
| H_events | H_create_event | H_delete_event | H_rsvp | H_history
| H_send_message | H_comments | H_add_comment | H_delete_comment
| H_follows | H_follow_toggle | H_notifications | H_notifications_read
| H_trending | H_rsvp_enhanced | H_create_notification.

#[global] Instance Handler_eq_dec : EqDecision Handler.
Proof. solve_decision. Defined.

(** The routes of the second document of [part_001], in the order of
    their [app.METHOD(...)] calls; the first twelve are [server.js]. *)
Definition routes : list (Method * list Seg * Handler) :=
  [ (GET, [], H_health);
    (POST, [Lit "api"; Lit "users"], H_signup);
    (POST, [Lit "api"; Lit "auth"; Lit "signin"], H_signin);
    (POST, [Lit "api"; Lit "auth"; Lit "signout"], H_signout);
    (GET, [Lit "api"; Lit "users"], H_users);
    (PATCH, [Lit "api"; Lit "users"; Param "id"], H_update_user);
    (GET, [Lit "api"; Lit "events"], H_events);
    (POST, [Lit "api"; Lit "events"], H_create_event);
    (DELETE, [Lit "api"; Lit "events"; Param "id"], H_delete_event);
    (POST, [Lit "api"; Lit "events"; Param "id"; Lit "rsvp"], H_rsvp);
    (GET, [Lit "api"; Lit "messages"; Param "userId"; Param "otherId"],
     H_history);
    (POST, [Lit "api"; Lit "messages"], H_send_message);
    (GET, [Lit "api"; Lit "events"; Param "id"; Lit "comments"], H_comments);
    (POST, [Lit "api"; Lit "events"; Param "id"; Lit "comments"],
     H_add_comment);
    (DELETE, [Lit "api"; Lit "comments"; Param "id"], H_delete_comment);
    (GET, [Lit "api"; Lit "users"; Param "id"; Lit "follows"], H_follows);
    (POST, [Lit "api"; Lit "follows"], H_follow_toggle);
    (GET, [Lit "api"; Lit "notifications"; Param "userId"], H_notifications);
    (PATCH, [Lit "api"; Lit "notifications"; Param "userId"; Lit "read"],
     H_notifications_read);
    (GET, [Lit "api"; Lit "events"; Lit "trending"], H_trending);
    (POST, [Lit "api"; Lit "events"; Param "id"; Lit "rsvp"],
     H_rsvp_enhanced);
    (POST, [Lit "api"; Lit "notifications"], H_create_notification) ].

(** A path is its list of segments; a [:name] segment takes any non-empty
    one.  Segments are compared exactly: Express's indifference to letter
    case and to a trailing slash treats the routes alike and is left
    out. *)
Fixpoint match_path (pat : list Seg) (path : list string)
  : option (list (string * string)) :=
  match pat, path with
  | [], [] => Some []
  | Lit s :: pat', x :: path' =>
      if bool_decide (s = x) then match_path pat' path' else None
  | Param n :: pat', x :: path' =>
      if bool_decide (x = "") then None
      else option_map (cons (n, x)) (match_path pat' path')
  | _, _ => None
  end.

Fixpoint dispatch_in (rs : list (Method * list Seg * Handler)) (m : Method)
  (path : list string) : option (Handler * list (string * string)) :=
  match rs with
  | [] => None
  | (m', pat, h) :: rs' =>
      if bool_decide (m' = m) then
        match match_path pat path with
        | Some ps => Some (h, ps)
        | None => dispatch_in rs' m path
        end
      else dispatch_in rs' m path
  end.

Definition dispatch : Method -> list string
  -> option (Handler * list (string * string)) :=
  dispatch_in routes.

Definition param (name : string) (ps : list (string * string)) : string :=
  match List.find (fun kv => bool_decide (kv.1 = name)) ps with
  | Some kv => kv.2
  | None => ""
  end.

(** What the application answers to POST /api/events/<id>/rsvp with body
    [{ userId, username }]. *)
Definition post_rsvp (cfg : Config) (id : string)
  (userId username : option string) : M Response :=
  match dispatch POST ["api"; "events"; id; "rsvp"] with
  | Some (H_rsvp, ps) => rsvp cfg (param "id" ps) userId username
  | Some (H_rsvp_enhanced, ps) =>
      rsvp_enhanced cfg (param "id" ps) userId username
  | _ => ret (fail 404 "Not Found")
  end.

End Handlers.

End Server.

(** * The socket service: [src/unnamed/part_000] *)
Module Socket.

Section Handlers.

(** [bcrypt.hash(pw, 10)] (the salt it draws is outside the model) and
    [bcrypt.compare(pw, hash)]; the [lower()] of the database, by which
    its [ILIKE] folds the case of letters, and JS's
    [String.prototype.toLowerCase]. *)
Variable bcrypt_hash : string -> string.
Variable bcrypt_compare : string -> string -> bool.
Variable encodeURIComponent : string -> string.
Variable db_lower : string -> string.
Variable toLowerCase : string -> string.

Definition dicebear (username : string) : string :=
  "https://api.dicebear.com/7.x/avataaars/svg?seed="
    ++ encodeURIComponent username.

(** JS truthiness of a column read from a row. *)
Definition truthy_col (v : option jval) : bool :=
  match v with
  | None | Some JNull => false
  | Some (JBool b) => b
  | Some (JNum n) => negb (n =? 0)
  | Some (JStr s) => negb (bool_decide (s = ""))
  end.

(** [sb.from('users').select(...).ilike(col, pattern).maybeSingle()] with
    all columns kept. *)
Definition users_ilike_maybeSingle (col pattern : string) : M (Result row) :=
  store_call (fun w =>
    (maybeSingle (List.filter (col_ilike db_lower col pattern) (users w)),
     w)).

(** [supabase.from('users').insert([vals]).select().single()] *)
Definition users_insert (vals : row) : M (Result row) :=
  store_call (fun w =>
    let r := <["id" := JStr (pretty (next_id w))]>
               (<["created_at" := JNum (db_now w)]>
                  (vals ∪ user_defaults w)) in
    (ok r, bump_id (set_users (users w ++ [r]) w))).

Definition users_set_online (id : option jval) : M (Result unit) :=
  store_call (fun w =>
    (ok tt,
     set_users
       ((fun r => if col_eq_opt "id" id r
                  then <["online" := JBool true]> r else r) <$> users w)
       w)).

(** [const { password_hash, ...safe } = data] *)
Definition safe (u : row) : row := delete "password_hash" u.

(** POST /api/users *)
Definition signup (req : Server.Credentials) : M Response :=
  if falsy (Server.c_username req) then ret (fail 400 "Username required")
  else
  let username := str (Server.c_username req) in
  if negb (falsy (Server.c_email req))
     && negb (falsy (Server.c_password req)) then
    let email := str (Server.c_email req) in
    await existingEmail := store_call (fun w =>
        (maybeSingle (project ["id"]
                        <$> List.filter (col_ilike db_lower "email" email)
                                        (users w)),
         w)) in
    if data existingEmail is Some _
    then ret (fail 409 "Email already in use") else
    let hash := bcrypt_hash (str (Server.c_password req)) in
    let userAvatar :=
      if falsy (Server.c_avatar req) then dicebear username
      else str (Server.c_avatar req) in
    await ins := users_insert
        (<["username" := JStr username]>
         (<["email" := JStr (toLowerCase email)]>
          (<["password_hash" := JStr hash]>
           (<["avatar" := JStr userAvatar]>
            (<["online" := JBool true]> ∅))))) in
    match error ins, data ins with
    | Some msg, _ => ret (fail 500 msg)
    | None, Some u => ret (json (BUser (safe u)))
    | None, None => ret (json BNull)
    end
  else
    await existing := users_ilike_maybeSingle "username" username in
    match data existing with
    | Some u =>
        await _o := users_set_online (u !! "id") in
        ret (json (BUser (<["online" := JBool true]> (safe u))))
    | None =>
        await ins := users_insert
            (<["username" := JStr username]>
             (<["avatar" := JStr (dicebear username)]>
              (<["online" := JBool true]> ∅))) in
        match error ins, data ins with
        | Some msg, _ => ret (fail 500 msg)
        | None, Some u => ret (json (BUser (safe u)))
        | None, None => ret (json BNull)
        end
    end.

(** POST /api/auth/signin *)
Definition signin (req : Server.Credentials) : M Response :=
  if falsy (Server.c_email req) || falsy (Server.c_password req)
  then ret (fail 400 "Email and password required") else
  await found := users_ilike_maybeSingle "email" (str (Server.c_email req)) in
  match error found, data found with
  | None, Some user =>
      if negb (truthy_col (user !! "password_hash"))
      then ret (fail 401 "Account uses a different login method") else
      let stored :=
        match user !! "password_hash" with
        | Some (JStr h) => h
        | _ => ""
        end in
      if negb (bcrypt_compare (str (Server.c_password req)) stored)
      then ret (fail 401 "Invalid email or password") else
      await _o := users_set_online (user !! "id") in
      ret (json (BUser (<["online" := JBool true]> (safe user))))
  | _, _ => ret (fail 401 "Invalid email or password")
  end.

(** POST /api/events/:id/rsvp; [rsvps.push(x)] leaves the same array as
    [[...rsvps, x]]. *)
Definition rsvp (id : string) (userId username : option string)
  : M Response :=
  await fetched := Server.events_single id in
  match error fetched, data fetched with
  | None, Some ev =>
      let was := Server.already (default [] (rsvps ev)) userId in
      let rs := Server.toggle_rsvps (default [] (rsvps ev)) userId username in
      await upd := Server.events_update_rsvps rs id in
      match error upd, data upd with
      | Some msg, _ => ret (fail 500 msg)
      | None, Some e =>
          fun w =>
            let w1 := emit (EventUpdated e) w in
            let w2 :=
              if was is Some _ then w1
              else emit (Activity "rsvpAdded" username
                           ("is going to " ++ dquote ++ ev_name ev
                              ++ dquote)) w1 in
            (json (BEvent e), w2)
      | None, None => ret (json BNull)
      end
  | _, _ => ret (fail 404 "Event not found")
  end.

End Handlers.

End Socket.

(** * The other routes of the REST service *)
Module Rest.

(** What [res.json(...)] is given on the routes below, where it is none of
    the shapes of [Body]: the two answers of the health check, an array of
    users, one message, the two id lists of a user's follows, one or
    several notifications, [null]. *)
Inductive Payload : Type :=
| PError (msg : string)
| PNotConfigured
| PLive
| PMissing (missing_env_vars : list string)
| PUsers (us : list row)
| PMessage (m : Message)
| PFollows (following followers : list string)
| PNotifications (ns : list Notification)
| PNotification (n : Notification)
| PNull.

Record Reply : Type := mkReply {
  code : nat;
  payload : Payload
}.

Definition reply (p : Payload) : Reply := mkReply 200 p.
Definition refuse (c : nat) (msg : string) : Reply := mkReply c (PError msg).
Definition notConfigured : Reply := mkReply 500 PNotConfigured.

(** GET / *)
Definition health (cfg : Config) : Reply :=
  let missing :=
    ((if falsy (SUPABASE_URL cfg) then ["SUPABASE_URL"] else [])
     ++ (if falsy (SUPABASE_SERVICE_KEY cfg)
         then ["SUPABASE_SERVICE_KEY"] else []))%list in
  if (0 <? List.length missing)%nat
  then mkReply 500 (PMissing missing)
  else reply PLive.

(** POST /api/auth/signout *)
Definition signout (cfg : Config) (userId : option string) : M Response :=
  if negb (getSupabase cfg) then ret dbError else
  if falsy userId then ret (fail 400 "userId required") else
  await _u := Server.users_update (<["online" := JBool false]> ∅)
                                  (Some (JStr (str userId))) in
  ret (json BSuccess).

(** [created_at] of a user row; [None] is a SQL NULL. *)
Definition created_of (r : row) : option Z :=
  match r !! "created_at" with
  | Some (JNum t) => Some t
  | _ => None
  end.

(** The comparison of [ORDER BY]: NULL counts as larger than every
    value. *)
Definition compare_nulls_last (x y : option Z) : Z :=
  match x, y with
  | None, None => 0
  | None, Some _ => 1
  | Some _, None => -1
  | Some a, Some b => a - b
  end.

(** [.order('created_at', { ascending: false })] on user rows. *)
Definition users_newest_first (us : list row) : list row :=
  sort_by (fun a b => compare_nulls_last (created_of b) (created_of a)) us.

(** GET /api/users *)
Definition list_users (cfg : Config) : M Reply :=
  if negb (getSupabase cfg) then ret notConfigured else
  await res := store_call (fun w =>
      (ok (project Server.profile_cols <$> users_newest_first (users w)),
       w)) in
  match error res with
  | Some msg => ret (refuse 500 msg)
  | None => ret (reply (PUsers (default [] (data res))))
  end.

(** GET /api/events *)
Definition list_events (cfg : Config) : M Response :=
  if negb (getSupabase cfg) then ret dbError else
  await res := store_call (fun w =>
      (ok (sort_by (fun a b => ev_created_at b - ev_created_at a)
                   (events w)),
       w)) in
  match error res with
  | Some msg => ret (fail 500 msg)
  | None => ret (json (BEvents (default [] (data res))))
  end.

(** DELETE /api/events/:id *)
Definition delete_event (cfg : Config) (id : string) : M Response :=
  if negb (getSupabase cfg) then ret dbError else
  await res := store_call (fun w =>
      (ok tt,
       set_events
         (List.filter (fun e => negb (bool_decide (ev_id e = id)))
                      (events w))
         w)) in
  match error res with
  | Some msg => ret (fail 500 msg)
  | None => ret (json BSuccess)
  end.

(** [sb.from('messages').insert([{ from_user, to_user, message }])
    .select().single()] *)
Definition messages_insert (from to text : string) : M (Result Message) :=
  store_call (fun w =>
    let m := mkMessage (pretty (next_id w)) from to text (db_now w) in
    (ok m,
     bump_id
       (mkWorld (users w) (events w) (messages w ++ [m]) (follows w)
                (notifications w) (user_defaults w) (next_id w) (db_now w)
                (faults w) (emitted w)))).

(** POST /api/messages *)
Definition send_message (cfg : Config) (from to text : option string)
  : M Reply :=
  if negb (getSupabase cfg) then ret notConfigured else
  if falsy from || falsy to || falsy text
  then ret (refuse 400 "from_user, to_user and message are required") else
  await res := messages_insert (str from) (str to) (str text) in
  match error res, data res with
  | Some msg, _ => ret (refuse 500 msg)
  | None, Some m => ret (reply (PMessage m))
  | None, None => ret (reply PNull)
  end.

(** GET /api/users/:id/follows: the two queries of [Promise.all], neither
    of which has its error read. *)
Definition get_follows (cfg : Config) (id : string) : M Reply :=
  if negb (getSupabase cfg) then ret notConfigured else
  await following := store_call (fun w =>
      (ok (following_id
             <$> List.filter (fun f => bool_decide (follower_id f = id))
                             (follows w)),
       w)) in
  await followers := store_call (fun w =>
      (ok (follower_id
             <$> List.filter (fun f => bool_decide (following_id f = id))
                             (follows w)),
       w)) in
  ret (reply (PFollows (default [] (data following))
                       (default [] (data followers)))).

(** GET /api/notifications/:userId *)
Definition list_notifications (cfg : Config) (userId : string) : M Reply :=
  if negb (getSupabase cfg) then ret notConfigured else
  await res := store_call (fun w =>
      (ok (take 50
             (sort_by (fun a b => n_created_at b - n_created_at a)
                (List.filter (fun n => bool_decide (n_user_id n = userId))
                             (notifications w)))),
       w)) in
  match error res with
  | Some msg => ret (refuse 500 msg)
  | None => ret (reply (PNotifications (default [] (data res))))
  end.

Definition mark_read (n : Notification) : Notification :=
  mkNotification (n_id n) (n_user_id n) (n_type n) (n_title n) (n_body n)
                 (n_data n) true (n_created_at n).

(** PATCH /api/notifications/:userId/read; the result is not read. *)
Definition read_notifications (cfg : Config) (userId : string)
  : M Response :=
  if negb (getSupabase cfg) then ret dbError else
  await _r := store_call (fun w =>
      (ok tt,
       set_notifications
         ((fun n => if bool_decide (n_user_id n = userId)
                    then mark_read n else n) <$> notifications w)
         w)) in
  ret (json BSuccess).

(** POST /api/notifications.  [data] is a JSON object when present, and
    an object is truthy even when empty. *)
Definition create_notification (cfg : Config)
  (user_id type title body : option string)
  (payload : option (list (string * string))) : M Reply :=
  if negb (getSupabase cfg) then ret notConfigured else
  if falsy user_id || falsy title
  then ret (refuse 400 "user_id and title required") else
  await res := store_call (fun w =>
      let n := mkNotification (pretty (next_id w)) (str user_id)
                 (if falsy type then "event" else str type)
                 (str title)
                 (if falsy body then "" else str body)
                 (default [] payload) false (db_now w) in
      (ok n, bump_id (set_notifications (notifications w ++ [n]) w))) in
  match error res, data res with
  | Some msg, _ => ret (refuse 500 msg)
  | None, Some n => ret (reply (PNotification n))
  | None, None => ret (reply PNull)
  end.

End Rest.

(** * The rest of the socket service: the user list and the socket layer *)
Module Live.

(** GET /api/users of [part_000]: [select('*')], newest first. *)
Definition list_users : M Rest.Reply :=
  await res := store_call (fun w =>
      (ok (Rest.users_newest_first (users w)), w)) in
  match error res with
  | Some msg => ret (Rest.refuse 500 msg)
  | None => ret (Rest.reply (Rest.PUsers (default [] (data res))))
  end.

(** [onlineUsers], a JS [Map] from user id to socket id: its entries in
    insertion order, one per key. *)
Fixpoint map_set (k v : string) (m : list (string * string))
  : list (string * string) :=
  match m with
  | [] => [(k, v)]
  | (k', v') :: m' =>
      if bool_decide (k' = k) then (k, v) :: m'
      else (k', v') :: map_set k v m'
  end.

Definition map_get (k : string) (m : list (string * string))
  : option string :=
  option_map snd (List.find (fun kv => bool_decide (kv.1 = k)) m).

Definition map_delete (k : string) (m : list (string * string))
  : list (string * string) :=
  List.filter (fun kv => negb (bool_decide (kv.1 = k))) m.

(** [getUserIdBySocket], and the loop of the disconnect handler: the first
    entry, in insertion order, whose socket id is [sid]. *)
Definition getUserIdBySocket (sid : string) (m : list (string * string))
  : option string :=
  option_map fst (List.find (fun kv => bool_decide (kv.2 = sid)) m).

(** What the server emits: to every client ([io.emit]) or to one socket
    ([io.to(sid).emit], [socket.emit]). *)
Inductive Signal : Type :=
| UsersOnline (us : list row)
| Joined (username : option string)
| NewMessage (to_socket : string) (m : Message)
| TypingStart (to_socket : string) (from : option string)
| TypingStop (to_socket : string) (from : option string).

(** The process: the database, the presence map, what was emitted. *)
Record Hub : Type := mkHub {
  world : World;
  onlineUsers : list (string * string);
  sent : list Signal
}.

(** The argument of [registerUser]. *)
Record Who : Type := mkWho {
  who__id : option string;
  who_id : option string;
  who_username : option string
}.

(** [supabase.from('users').update({ online }).eq('id', uid)], then
    [supabase.from('users').select('*')] read as [users || []]. *)
Definition set_online_and_list (online : bool) (uid : string)
  : M (list row) :=
  await _u := Server.users_update (<["online" := JBool online]> ∅)
                                  (Some (JStr uid)) in
  await listed := store_call (fun w => (ok (users w), w)) in
  ret (default [] (data listed)).

(** [socket.on('registerUser', ...)] on the socket [sid]. *)
Definition registerUser (sid : string) (user : option Who) (h : Hub) : Hub :=
  match user with
  | None => h
  | Some u =>
      if falsy (who__id u) && falsy (who_id u) then h else
      let uid := if falsy (who__id u) then str (who_id u)
                 else str (who__id u) in
      let m := map_set uid sid (onlineUsers h) in
      let (us, w') := set_online_and_list true uid (world h) in
      mkHub w' m (sent h ++ [UsersOnline us; Joined (who_username u)])
  end.

(** [socket.on('sendMessage', ...)] on the socket [sid]. *)
Definition sendMessage (sid : string) (from to text : string) (h : Hub)
  : Hub :=
  let (res, w') := Rest.messages_insert from to text (world h) in
  match error res, data res with
  | None, Some m =>
      let to_recipient :=
        match map_get to (onlineUsers h) with
        | Some rid => if falsy (Some rid) then [] else [NewMessage rid m]
        | None => []
        end in
      mkHub w' (onlineUsers h) (sent h ++ to_recipient ++ [NewMessage sid m])
  | _, _ => mkHub w' (onlineUsers h) (sent h)
  end.

(** [socket.on('typing', ...)] and [socket.on('stopTyping', ...)]. *)
Definition relay (signal : string -> option string -> Signal)
  (sid : string) (to : option string) (h : Hub) : Hub :=
  match to with
  | None => h
  | Some t =>
      match map_get t (onlineUsers h) with
      | Some rid =>
          if falsy (Some rid) then h
          else mkHub (world h) (onlineUsers h)
                 (sent h ++ [signal rid
                               (getUserIdBySocket sid (onlineUsers h))])
      | None => h
      end
  end.

Definition typing : string -> option string -> Hub -> Hub :=
  relay TypingStart.
Definition stopTyping : string -> option string -> Hub -> Hub :=
  relay TypingStop.

(** [socket.on('disconnect', ...)] on the socket [sid]. *)
Definition disconnect (sid : string) (h : Hub) : Hub :=
  match getUserIdBySocket sid (onlineUsers h) with
  | Some uid =>
      if falsy (Some uid) then h else
      let m := map_delete uid (onlineUsers h) in
      let (us, w') := set_online_and_list false uid (world h) in
      mkHub w' m (sent h ++ [UsersOnline us])
  | None => h
  end.

End Live.

(** * Vocabulary of the properties *)

(** ** Store calls *)

(** The world a store call runs its query in: the fault oracle advanced by
    one. *)
Definition popped (w : World) : World :=
  match faults w with
  | _ :: fs => set_faults fs w
  | [] => w
  end.

(** The fault, if any, that the next store call will meet. *)
Definition next_fault (w : World) : option string :=
  match faults w with
  | Some msg :: _ => Some msg
  | _ => None
  end.

(** ** RSVP lists *)

(** The user ids of an RSVP list, in order, with repetitions. *)
Definition ids (rs : list Rsvp) : list (option string) := r_userId <$> rs.

(** The entries of the users other than [u]:
    [rsvps.filter(r => r.userId !== u)]. *)
Definition others (u : option string) (rs : list Rsvp) : list Rsvp :=
  List.filter (fun r => negb (bool_decide (r_userId r = u))) rs.

(** The filter [.eq('id', id)] on [events]. *)
Definition has_id (id : string) (e : Event) : bool :=
  bool_decide (ev_id e = id).

(** The RSVP list of the event with a given id (empty when no single row
    has it). *)
Definition event_rsvps (id : string) (w : World) : list Rsvp :=
  match List.filter (has_id id) (events w) with
  | [e] => default [] (rsvps e)
  | _ => []
  end.

(** The events table once [.update({ rsvps }).eq('id', id)] has run. *)
Definition put_rsvps (id : string) (rs : list Rsvp) (es : list Event)
  : list Event :=
  (fun e => if bool_decide (ev_id e = id) then Server.with_rsvps rs e else e)
    <$> es.

(** The events table after any of the three RSVP handlers: untouched, or
    the one event with that id has had its list toggled. *)
Definition toggled_or_same (id : string) (u n : option string)
  (es es' : list Event) : Prop :=
  es' = es
  \/ exists e, List.filter (has_id id) es = [e]
               /\ es' = put_rsvps id
                          (Server.toggle_rsvps (default [] (rsvps e)) u n) es.


(** The world after two consecutive toggles by the same user. *)
Definition toggled_twice (cfg : Config) (id : string)
  (u n1 n2 : option string) (w : World) : World :=
  (Server.rsvp cfg id u n2 (Server.rsvp cfg id u n1 w).2).2.

(** ** Orders *)

(** The order a JS comparator induces: [x] may stand before [y]. *)
Definition before {A : Type} (cmp : A -> A -> Z) (x y : A) : Prop :=
  cmp x y <= 0.

(** The store-side filter of the trending query:
    [.eq('privacy', 'public').gte('created_at', since)]. *)
Definition qualifies (now : Z) (e : Event) : bool :=
  bool_decide (ev_privacy e = "public")
  && (now - 24 * 60 * 60 * 1000 <=? ev_created_at e).

(** [.order('created_at', { ascending: false })] *)
Definition newest_first (es : list Event) : list Event :=
  sort_by (fun a b => ev_created_at b - ev_created_at a) es.

(** The handler's [.sort((a, b) => (b.rsvps?.length || 0)
    - (a.rsvps?.length || 0))]. *)
Definition by_rsvps (es : list Event) : list Event :=
  sort_by (fun a b => Server.rsvp_count b - Server.rsvp_count a) es.

(** ** Users *)

(** The columns a profile update may set. *)
Definition editable : list string :=
  ["username"; "avatar"; "bio"; "profile_color"].

(** The columns outside the editable four agree in two rows. *)
Definition same_outside_editable (r r' : row) : Prop :=
  forall col, col ∉ editable -> r' !! col = r !! col.

(** A response that carries no user object, or one without the
    [password_hash] key. *)
Definition hides_hash (r : Response) : Prop :=
  forall u : row, body r = BUser u -> u !! "password_hash" = None.

(** A sign-up request that passes the three validation tests; the
    password is measured as [password.length] measures it. *)
Definition valid_signup (req : Server.Credentials) : Prop :=
  falsy (Server.c_username req) = false
  /\ falsy (Server.c_email req) = false
  /\ falsy (Server.c_password req) = false
  /\ (6 <= js_length (str (Server.c_password req)))%nat.

(** The row a successful sign-up stores. *)
Definition signup_row (sha enc : string -> string) (cfg : Config)
  (req : Server.Credentials) (w : World) : row :=
  <["id" := JStr (pretty (next_id w))]>
    (<["created_at" := JNum (db_now w)]>
       ((<["username" := JStr (str (Server.c_username req))]>
         (<["email" := JStr (str (Server.c_email req))]>
          (<["password_hash" :=
               JStr (Server.hashPassword sha cfg
                       (str (Server.c_password req)))]>
           (<["avatar" :=
                JStr (if falsy (Server.c_avatar req)
                      then "https://api.dicebear.com/7.x/avataaars/svg?seed="
                             ++ enc (str (Server.c_username req))
                      else str (Server.c_avatar req))]>
            (<["online" := JBool true]> ∅)))))
        ∪ user_defaults w)).

(** The stored username equals [name] up to the case of the letters, as
    the database folds it. *)
Definition same_name_ci (db_lower : string -> string) (name : string)
  (r : row) : bool :=
  match r !! "username" with
  | Some (JStr s) => bool_decide (db_lower name = db_lower s)
  | _ => false
  end.

(** A pattern character that [LIKE] reads literally. *)
Definition plain_char (c : ascii) : bool :=
  negb (is_any_seq c || is_any_char c || is_escape c).

(** A pattern without [%], [*], [_] and backslash. *)
Fixpoint plain (p : string) : bool :=
  match p with
  | EmptyString => true
  | String c p' => plain_char c && plain p'
  end.

(** * Worlds and requests the handlers are run on *)

(** Both credentials set, no salt configured. *)
Definition cfg0 : Config :=
  mkConfig (Some "https://krowdly.supabase.co") (Some "service-role-key") None.

(** The picnic of "u0", with Bob ("u1") attending. *)
Definition picnic : Event :=
  mkEvent "e1" "Picnic" "public" (Some [mkRsvp (Some "u1") (Some "Bob")])
          (Some "u0") 1000 ∅.

(** A store holding the picnic and nothing else, answering every call. *)
Definition world0 : World :=
  mkWorld [] [picnic] [] [] [] ∅ 1%N 5000 [] [].

(** The same store, rejecting the third call made to it. *)
Definition world_insert_fails : World :=
  set_faults [None; None; Some "insert into notifications failed"] world0.

(** The entry of Ann ("u2"). *)
Definition ann : Rsvp := mkRsvp (Some "u2") (Some "Ann").

(** A public event created at time [i], without RSVPs. *)
Definition party (i : N) : Event :=
  mkEvent (pretty i) "Party" "public" (Some []) None (Z.of_N i) ∅.

(** Eleven public events, created at times 1 to 11. *)
Definition crowd : World :=
  mkWorld [] (party <$> [1; 2; 3; 4; 5; 6; 7; 8; 9; 10; 11]%N) [] [] [] ∅
          12%N 5000 [] [].

(** Four messages, three of them between "u1" and "u2". *)
Definition chat : World :=
  mkWorld []
    [picnic]
    [mkMessage "m1" "u1" "u2" "hi" 30;
     mkMessage "m2" "u2" "u1" "hello" 10;
     mkMessage "m3" "u1" "u3" "elsewhere" 20;
     mkMessage "m4" "u1" "u2" "bye" 20]
    [] [] ∅ 5%N 5000 [] [].

(** An event of the trending runs: its id, privacy and creation time, and
    how many RSVPs it holds. *)
Definition gig (id privacy : string) (t : Z) (n : nat) : Event :=
  mkEvent id "Gig" privacy
          (Some ((fun i => mkRsvp (Some (pretty (N.of_nat i))) None)
                   <$> seq 1 n))
          None t ∅.

(** The time of the trending runs; the last 24 hours start at 13600000. *)
Definition today : Z := 100000000.

(** Four public events of the last 24 hours, with 0, 3, 1 and 3 RSVPs,
    next to a private one and a public one created long before. *)
Definition fair : World :=
  mkWorld []
    [gig "a" "public" 99000001 0;
     gig "b" "public" 99000002 3;
     gig "secret" "private" 99000003 9;
     gig "c" "public" 99000004 1;
     gig "old" "public" 1000 7;
     gig "d" "public" 99000005 3]
    [] [] [] ∅ 1%N today [] [].

(** Twelve public events of the last 24 hours, created in the order of
    their ids; the oldest holds the most RSVPs.  A private event and an
    old one stand next to them. *)
Definition festival : World :=
  mkWorld []
    ([gig "1" "public" 99000001 9; gig "2" "public" 99000002 0]
     ++ ((fun i => gig (pretty i) "public" (99000000 + Z.of_N i)
                       (N.to_nat (i mod 3)))
           <$> [3; 4; 5; 6; 7; 8; 9; 10; 11; 12]%N)
     ++ [gig "secret" "private" 99000020 5; gig "old" "public" 1000 7])
    [] [] [] ∅ 1%N today [] [].

(** Stand-ins for the hash and the URI encoder, to run the handlers. *)
Definition toy_sha (s : string) : string := "sha256(" ++ s ++ ")".
Definition toy_enc (s : string) : string := s.

(** Stand-ins for the case folds.  [lower] is the fold of a database under
    the C locale, which is [toLowerCase] on ASCII text as well: A-Z
    alone. *)
Definition lower_ascii (c : ascii) : ascii :=
  let n := nat_of_ascii c in
  if ((65 <=? n) && (n <=? 90))%nat then ascii_of_nat (n + 32) else c.

Fixpoint lower (s : string) : string :=
  match s with
  | EmptyString => EmptyString
  | String c s' => String (lower_ascii c) (lower s')
  end.

(** [lower_latin1] folds the accented capitals of Latin-1 too (U+00C0 to
    U+00DE, the sign U+00D7 apart): in UTF-8 the byte 195 and a byte from
    128 to 158, which gains 32. *)
Definition latin1_capital (c d : ascii) : bool :=
  ((nat_of_ascii c =? 195) && (128 <=? nat_of_ascii d)
   && (nat_of_ascii d <=? 158) && negb (nat_of_ascii d =? 151))%nat.

Fixpoint lower_latin1 (s : string) : string :=
  match s with
  | EmptyString => EmptyString
  | String c s' =>
      match s' with
      | String d s'' =>
          if latin1_capital c d
          then String c (String (ascii_of_nat (nat_of_ascii d + 32))
                                (lower_latin1 s''))
          else String (lower_ascii c) (lower_latin1 s')
      | EmptyString => String (lower_ascii c) EmptyString
      end
  end.

(** The letters e-acute and E-acute (U+00E9, U+00C9) in UTF-8. *)
Definition e_acute : string :=
  String (ascii_of_nat 195) (String (ascii_of_nat 169) EmptyString).
Definition E_acute : string :=
  String (ascii_of_nat 195) (String (ascii_of_nat 137) EmptyString).

(** Two accounts whose usernames differ by the case of an accented
    letter. *)
Definition elodies : World :=
  set_users
    [<["username" := JStr (e_acute ++ "lodie")]>
       (<["email" := JStr "e1@x.com"]> ∅);
     <["username" := JStr (E_acute ++ "LODIE")]>
       (<["email" := JStr "e2@x.com"]> ∅)]
    world0.

(** alice's sign-up request, and her row once stored. *)
Definition alice : Server.Credentials :=
  Server.mkCredentials (Some "alice") (Some "a@x.com") (Some "secret1") None.

Definition alice_row : row :=
  <["id" := JStr "1"]>
    (<["username" := JStr "alice"]>
       (<["email" := JStr "a@x.com"]>
          (<["password_hash" := JStr (toy_sha "secret1krowdly_salt_2026")]>
             (<["online" := JBool true]> ∅)))).

(** A store whose only user is alice. *)
Definition members : World := set_users [alice_row] (bump_id world0).

(** * Vocabulary of the further properties *)

(** The routes as they would be without the second registration of
    POST /api/events/:id/rsvp. *)
Definition routes_without_enhanced
  : list (Server.Method * list Server.Seg * Server.Handler) :=
  (take 20 Server.routes ++ drop 21 Server.routes)%list.

(** A configuration without the service key. *)
Definition cfg_no_key : Config :=
  mkConfig (Some "https://krowdly.supabase.co") None None.

(** The users table once [.update({ online: b }).eq('id', id)] has run. *)
Definition set_online (id : jval) (b : bool) (us : list row) : list row :=
  (fun r => if col_eq "id" id r then <["online" := JBool b]> r else r) <$> us.

(** [a] may stand before [b] in a list ordered by [created_at],
    newest first. *)
Definition newer_or_same (a b : row) : Prop :=
  Rest.compare_nulls_last (Rest.created_of b) (Rest.created_of a) <= 0.

(** [.order('created_at', { ascending: true })] on the messages between
    two users. *)
Definition conversation (a b : string) (ms : list Message) : list Message :=
  sort_by (fun x y => m_created_at x - m_created_at y)
          (List.filter (Server.between a b) ms).

(** The filter [.eq('follower_id', a).eq('following_id', b)]. *)
Definition edge_of (a b : string) (f : Follow) : bool :=
  bool_decide (follower_id f = a) && bool_decide (following_id f = b).

(** [followerUser.data?.username || 'Someone'] *)
Definition follower_name (a : string) (w : World) : string :=
  match data (single (project ["username"]
                        <$> List.filter (col_eq "id" (JStr a)) (users w))) with
  | Some u =>
      match u !! "username" with
      | Some (JStr s) => if bool_decide (s = "") then "Someone" else s
      | _ => "Someone"
      end
  | None => "Someone"
  end.

(** The notification a new follower causes. *)
Definition follow_notification (a b : string) (w : World) : Notification :=
  mkNotification (pretty (N.succ (next_id w))) b "follow"
                 (follower_name a w ++ " followed you!")
                 "Check out their profile." [("follower_id", a)] false
                 (db_now w).

(** The notifications of a recipient, as stored. *)
Definition inbox (userId : string) (w : World) : list Notification :=
  List.filter (fun n => bool_decide (n_user_id n = userId)) (notifications w).

(** [.order('created_at', { ascending: false })] on notifications. *)
Definition latest_first (ns : list Notification) : list Notification :=
  sort_by (fun a b => n_created_at b - n_created_at a) ns.

(** The picnic world after "u1" has followed "u2": one notification, for
    "u2". *)
Definition world_followed : World :=
  (Server.follow_toggle cfg0 (Some "u1") (Some "u2") world0).2.

(** The notifications table once [.update({ read: true })
    .eq('user_id', userId)] has run. *)
Definition all_read (userId : string) (ns : list Notification)
  : list Notification :=
  (fun n => if bool_decide (n_user_id n = userId) then Rest.mark_read n
            else n) <$> ns.

(** The user ids and the socket ids of a presence map, in order. *)
Definition keys (m : list (string * string)) : list string := fst <$> m.

Definition sockets (m : list (string * string)) : list string := snd <$> m.

(** What makes a list of entries a [Map] as the handlers fill it: one
    entry per user id, and no empty user id. *)
Definition presence_ok (h : Live.Hub) : Prop :=
  NoDup (keys (Live.onlineUsers h))
  /\ Forall (fun kv => kv.1 <> "") (Live.onlineUsers h).

(** The user id [registerUser] takes from its argument, if it takes
    one. *)
Definition uid_of (user : option Live.Who) : option string :=
  match user with
  | None => None
  | Some u =>
      if falsy (Live.who__id u) && falsy (Live.who_id u) then None
      else Some (if falsy (Live.who__id u) then str (Live.who_id u)
                 else str (Live.who__id u))
  end.

(** A process that has just started, on the picnic world. *)
Definition hub0 : Live.Hub := Live.mkHub world0 [] [].

(** Bob's and Ann's registration messages. *)
Definition bob_who : Live.Who := Live.mkWho None (Some "u1") (Some "Bob").

Definition ann_who : Live.Who := Live.mkWho (Some "u2") None (Some "Ann").

(** A hub where Bob is registered on "s1". *)
Definition hub_bob : Live.Hub := Live.registerUser "s1" (Some bob_who) hub0.

(** * Properties *)

(** ** Store calls *)

Lemma store_call_cases {A : Type} (q : World -> Result A * World) (w : World) :
  (exists msg, store_call q w = (failed msg, popped w))
  \/ store_call q w = q (popped w).
Proof.
  unfold store_call, popped.
  destruct (faults w) as [|[msg|] fs]; eauto.
Qed.

Lemma store_call_no_fault {A : Type} (q : World -> Result A * World)
  (w : World) :
  faults w = [] -> store_call q w = q w.
Proof. intros H. unfold store_call. by rewrite H. Qed.

Lemma popped_users w : users (popped w) = users w.
Proof. unfold popped. by destruct (faults w). Qed.

Lemma popped_events w : events (popped w) = events w.
Proof. unfold popped. by destruct (faults w). Qed.

Lemma popped_notifications w : notifications (popped w) = notifications w.
Proof. unfold popped. by destruct (faults w). Qed.

Lemma popped_messages w : messages (popped w) = messages w.
Proof. unfold popped. by destruct (faults w). Qed.

Lemma popped_next_id w : next_id (popped w) = next_id w.
Proof. unfold popped. by destruct (faults w). Qed.

Lemma popped_db_now w : db_now (popped w) = db_now w.
Proof. unfold popped. by destruct (faults w). Qed.

Lemma popped_emitted w : emitted (popped w) = emitted w.
Proof. unfold popped. by destruct (faults w). Qed.

Lemma store_call_run {A : Type} (q : World -> Result A * World) w :
  next_fault w = None -> store_call q w = q (popped w).
Proof.
  unfold next_fault, store_call, popped.
  by destruct (faults w) as [|[msg|] fs].
Qed.

Lemma store_call_fault {A : Type} (q : World -> Result A * World) w msg :
  next_fault w = Some msg -> store_call q w = (failed msg, popped w).
Proof.
  unfold next_fault, store_call, popped.
  destruct (faults w) as [|[msg'|] fs]; intros H; by inversion H.
Qed.

Lemma popped_set_events es w :
  popped (set_events es w) = set_events es (popped w).
Proof. unfold popped. simpl. by destruct (faults w). Qed.

Lemma next_fault_set_events es w :
  next_fault (set_events es w) = next_fault w.
Proof. done. Qed.

(** ** The toggle on an RSVP list *)

Lemma already_Some_iff rs u :
  is_Some (Server.already rs u) <-> u ∈ ids rs.
Proof.
  unfold Server.already, ids. induction rs as [|r rs IH]; simpl.
  - split; [intros [? ?]; discriminate | intros H; inversion H].
  - rewrite elem_of_cons. case_bool_decide as E.
    + split; [auto | eauto].
    + rewrite IH. split; [auto | intros [->|]; [congruence | done]].
Qed.

Lemma already_None_iff rs u :
  Server.already rs u = None <-> u ∉ ids rs.
Proof.
  rewrite <- already_Some_iff, eq_None_not_Some. done.
Qed.

Lemma elem_of_others u rs r :
  r ∈ others u rs <-> r ∈ rs /\ r_userId r <> u.
Proof.
  unfold others. rewrite !list_elem_of_In, filter_In.
  rewrite negb_true_iff, bool_decide_eq_false. done.
Qed.

Lemma others_ids_absent u rs : u ∉ ids (others u rs).
Proof.
  unfold ids. rewrite list_elem_of_fmap. intros (r & -> & Hr).
  apply elem_of_others in Hr. tauto.
Qed.

Lemma others_id rs u : u ∉ ids rs -> others u rs = rs.
Proof.
  unfold others, ids. induction rs as [|r rs IH]; simpl; [done|].
  rewrite not_elem_of_cons. intros [Hne Hrs].
  rewrite bool_decide_false by congruence. simpl. by rewrite IH.
Qed.

Lemma toggle_present rs u n :
  u ∈ ids rs -> Server.toggle_rsvps rs u n = others u rs.
Proof.
  intros H. apply already_Some_iff in H as [r Hr].
  unfold Server.toggle_rsvps. by rewrite Hr.
Qed.

Lemma toggle_absent rs u n :
  u ∉ ids rs -> Server.toggle_rsvps rs u n = (rs ++ [mkRsvp u n])%list.
Proof.
  intros H. apply already_None_iff in H.
  unfold Server.toggle_rsvps. by rewrite H.
Qed.

Lemma others_app u rs1 rs2 :
  others u (rs1 ++ rs2)%list = (others u rs1 ++ others u rs2)%list.
Proof. unfold others. apply List.filter_app. Qed.

Lemma others_new u n : others u [mkRsvp u n] = [].
Proof. unfold others. simpl. by rewrite bool_decide_true. Qed.

(** Toggling twice, the user absent at first: the list is back as it was,
    order included. *)
Lemma toggle_twice_absent rs u n1 n2 :
  u ∉ ids rs ->
  Server.toggle_rsvps (Server.toggle_rsvps rs u n1) u n2 = rs.
Proof.
  intros H. rewrite (toggle_absent rs u n1 H).
  rewrite toggle_present.
  - rewrite others_app, others_new, app_nil_r. by apply others_id.
  - unfold ids. rewrite fmap_app. simpl. set_solver.
Qed.

(** Toggling twice, the user present at first: the user's entries are
    replaced by one entry, with the second request's username, at the
    end. *)
Lemma toggle_twice_present rs u n1 n2 :
  u ∈ ids rs ->
  Server.toggle_rsvps (Server.toggle_rsvps rs u n1) u n2
  = (others u rs ++ [mkRsvp u n2])%list.
Proof.
  intros H. rewrite (toggle_present rs u n1 H).
  apply toggle_absent, others_ids_absent.
Qed.



(** ** The RSVP handlers on the store *)

Lemma events_single_run id w r w' :
  Server.events_single id w = (r, w') ->
  w' = popped w /\
  ((exists e, r = ok e /\ List.filter (has_id id) (events w) = [e])
   \/ (exists msg, r = failed msg)).
Proof.
  unfold Server.events_single. intros H.
  destruct (store_call_cases
    (fun w => (single (List.filter (fun e => bool_decide (ev_id e = id))
                                   (events w)), w)) w) as [[msg E]|E];
    rewrite E in H; inversion H; subst; clear H E.
  - split; [done|]. right. eauto.
  - split; [done|]. rewrite popped_events. fold (has_id id).
    destruct (List.filter (has_id id) (events w)) as [|e [|e' l]]; simpl;
      [right | left | right]; eauto.
Qed.

Lemma events_update_rsvps_run rs id w r w' :
  Server.events_update_rsvps rs id w = (r, w') ->
  (exists e, List.filter (has_id id) (events w) = [e]
             /\ r = ok (Server.with_rsvps rs e)
             /\ w' = set_events (put_rsvps id rs (events w)) (popped w))
  \/ (exists msg, r = failed msg /\ w' = popped w).
Proof.
  unfold Server.events_update_rsvps. intros H.
  match type of H with
  | store_call ?q _ = _ =>
      destruct (store_call_cases q w) as [[msg E]|E]; rewrite E in H;
        clear E
  end.
  - inversion H; subst. right. eauto.
  - rewrite popped_events in H. fold (has_id id) in H.
    destruct (List.filter (has_id id) (events w)) as [|e [|e' l]];
      inversion H; subst; [right | left | right]; eauto.
Qed.

Lemma put_rsvps_filter id rs es :
  List.filter (has_id id) (put_rsvps id rs es)
  = Server.with_rsvps rs <$> List.filter (has_id id) es.
Proof.
  unfold put_rsvps, has_id. induction es as [|e es IH]; [done|].
  rewrite fmap_cons. cbn [List.filter].
  destruct (bool_decide (ev_id e = id)) eqn:E.
  - cbn [Server.with_rsvps ev_id]. rewrite E, fmap_cons. by f_equal.
  - rewrite E. apply IH.
Qed.


Lemma filter_single_elem {A : Type} (p : A -> bool) (l : list A) (x : A) :
  List.filter p l = [x] -> x ∈ l.
Proof.
  intros H. apply list_elem_of_In.
  apply (proj1 (filter_In p x l)). rewrite H. by left.
Qed.

(** What one run of the first-registered RSVP handler does: either it
    answers 200 with the updated row, having replaced the event's list by
    its toggle, or it answers an error and no event changed.  In both
    cases no notification is written. *)
Lemma rsvp_run cfg id u n w :
  let r := (Server.rsvp cfg id u n w).1 in
  let w' := (Server.rsvp cfg id u n w).2 in
  notifications w' = notifications w /\
  ((exists e,
      List.filter (has_id id) (events w) = [e]
      /\ r = json (BEvent (Server.with_rsvps
                 (Server.toggle_rsvps (default [] (rsvps e)) u n) e))
      /\ events w'
         = put_rsvps id (Server.toggle_rsvps (default [] (rsvps e)) u n)
                     (events w))
   \/ (status r <> 200%nat /\ events w' = events w)).
Proof.
  unfold Server.rsvp.
  destruct (negb (getSupabase cfg)); [simpl; split; [done | right; done]|].
  destruct (falsy u); [simpl; split; [done | right; done]|].
  unfold bind.
  destruct (Server.events_single id w) as [f w1] eqn:E1.
  apply events_single_run in E1 as [-> [(e & -> & He)|(msg & ->)]]; simpl.
  2:{ rewrite popped_notifications, popped_events. split; [done|right; done]. }
  destruct (Server.events_update_rsvps _ id (popped w)) as [r2 w2] eqn:E2.
  apply events_update_rsvps_run in E2
    as [(e' & He' & -> & ->)|(msg & -> & ->)]; simpl.
  - rewrite !popped_notifications, !popped_events in *.
    split; [done|]. left. exists e. rewrite He in He'.
    inversion He'; subst e'. done.
  - rewrite !popped_notifications, !popped_events.
    split; [done | right; done].
Qed.

Lemma rsvp_200 cfg id u n w :
  status (Server.rsvp cfg id u n w).1 = 200%nat ->
  event_rsvps id (Server.rsvp cfg id u n w).2
  = Server.toggle_rsvps (event_rsvps id w) u n.
Proof.
  intros H200.
  destruct (rsvp_run cfg id u n w) as [_ [(e & He & _ & Hev)|[Hne _]]];
    [|done].
  unfold event_rsvps. rewrite Hev, put_rsvps_filter, He. done.
Qed.




Lemma socket_rsvp_events id u n w :
  toggled_or_same id u n (events w) (events (Socket.rsvp id u n w).2).
Proof.
  unfold Socket.rsvp, bind.
  destruct (Server.events_single id w) as [f w1] eqn:E1.
  apply events_single_run in E1 as [-> [(e & -> & He)|(msg & ->)]]; simpl.
  2:{ rewrite popped_events. by left. }
  destruct (Server.events_update_rsvps _ id (popped w)) as [r2 w2] eqn:E2.
  apply events_update_rsvps_run in E2
    as [(e' & He' & -> & ->)|(msg & -> & ->)]; simpl.
  - rewrite popped_events in He'. rewrite He in He'.
    inversion He'; subst e'.
    destruct (Server.already _ u); simpl; rewrite !popped_events;
      right; eauto.
  - rewrite !popped_events. by left.
Qed.


(** ** C1: toggling twice *)

(** C1, as stated, fails: the event "e1" holds the entry
    [{userId: "u1", username: "Bob"}]; user "u1" toggles twice sending the
    username "Robert".  Both requests answer 200, and the list ends as
    [[{userId: "u1", username: "Robert"}]], which is not the original set
    of entries. *)
Lemma C1_toggle_twice_changes_entries :
  status (Server.rsvp cfg0 "e1" (Some "u1") (Some "Robert") world0).1
    = 200%nat
  /\ event_rsvps "e1" world0 = [mkRsvp (Some "u1") (Some "Bob")]
  /\ event_rsvps "e1"
       (toggled_twice cfg0 "e1" (Some "u1") (Some "Robert") (Some "Robert")
                      world0)
     = [mkRsvp (Some "u1") (Some "Robert")]
  /\ ~ (forall r,
          r ∈ event_rsvps "e1"
                (toggled_twice cfg0 "e1" (Some "u1") (Some "Robert")
                               (Some "Robert") world0)
          <-> r ∈ event_rsvps "e1" world0).
Proof.
  assert (E0 : event_rsvps "e1" world0 = [mkRsvp (Some "u1") (Some "Bob")])
    by (vm_compute; reflexivity).
  assert (E2 : event_rsvps "e1"
                 (toggled_twice cfg0 "e1" (Some "u1") (Some "Robert")
                                (Some "Robert") world0)
               = [mkRsvp (Some "u1") (Some "Robert")])
    by (vm_compute; reflexivity).
  split; [vm_compute; reflexivity|].
  split; [exact E0|]. split; [exact E2|].
  rewrite E0, E2. intros H.
  specialize (H (mkRsvp (Some "u1") (Some "Bob"))).
  rewrite !list_elem_of_singleton in H.
  destruct H as [_ H]. specialize (H eq_refl). discriminate H.
Qed.

(** C1, amended: when both toggles of user [u] on event [id] are applied
    (answer 200), the RSVP list is back to its original membership as a
    set of user ids, the entries of the other users are unchanged, and it is
    the original set of entries whenever every original entry of [u]
    carries the username sent with the second toggle (in particular when
    [u] had no entry). *)
Theorem C1_rsvp_toggle_twice cfg id u n1 n2 w :
  status (Server.rsvp cfg id u n1 w).1 = 200%nat ->
  status (Server.rsvp cfg id u n2 (Server.rsvp cfg id u n1 w).2).1
    = 200%nat ->
  (forall x, x ∈ ids (event_rsvps id (toggled_twice cfg id u n1 n2 w))
             <-> x ∈ ids (event_rsvps id w))
  /\ others u (event_rsvps id (toggled_twice cfg id u n1 n2 w))
     = others u (event_rsvps id w)
  /\ ((forall r, r ∈ event_rsvps id w -> r_userId r = u -> r = mkRsvp u n2)
      -> forall r, r ∈ event_rsvps id (toggled_twice cfg id u n1 n2 w)
                   <-> r ∈ event_rsvps id w).
Proof.
  intros H1 H2. unfold toggled_twice.
  rewrite (rsvp_200 _ _ _ _ _ H2), (rsvp_200 _ _ _ _ _ H1).
  generalize (event_rsvps id w). intros rs.
  destruct (decide (u ∈ ids rs)) as [Hin|Hout].
  - rewrite toggle_twice_present by done.
    split; [|split].
    + intros x. unfold ids. rewrite fmap_app, elem_of_app. simpl.
      rewrite list_elem_of_singleton. fold (ids (others u rs)) (ids rs).
      split.
      * intros [Hx| ->]; [|done].
        unfold ids in *. apply list_elem_of_fmap in Hx as (r & -> & Hr).
        apply elem_of_others in Hr as [Hr _].
        by apply list_elem_of_fmap_2.
      * intros Hx. destruct (decide (x = u)) as [->|Hne]; [by right|].
        left. unfold ids in *. apply list_elem_of_fmap in Hx as (r & -> & Hr).
        apply list_elem_of_fmap_2. apply elem_of_others. done.
    + rewrite others_app, others_new, app_nil_r.
      apply others_id, others_ids_absent.
    + intros Hsame r. rewrite elem_of_app, list_elem_of_singleton,
        elem_of_others.
      split.
      * intros [[Hr _]| ->]; [done|].
        unfold ids in Hin. apply list_elem_of_fmap in Hin as (r & Hu & Hr).
        rewrite <- (Hsame r Hr (eq_sym Hu)). done.
      * intros Hr. destruct (decide (r_userId r = u)) as [E|E].
        -- right. by apply Hsame.
        -- left. done.
  - rewrite toggle_twice_absent by done. done.
Qed.

(** A run of C1's theorem: user "u2", absent from "e1", toggles twice. *)
Lemma C1_rsvp_toggle_twice_witness :
  (forall x,
     x ∈ ids (event_rsvps "e1"
                (toggled_twice cfg0 "e1" (Some "u2") (Some "Ann") (Some "Ann")
                               world0))
     <-> x ∈ ids (event_rsvps "e1" world0))
  /\ others (Some "u2")
       (event_rsvps "e1"
          (toggled_twice cfg0 "e1" (Some "u2") (Some "Ann") (Some "Ann")
                         world0))
     = others (Some "u2") (event_rsvps "e1" world0)
  /\ ((forall r, r ∈ event_rsvps "e1" world0 -> r_userId r = Some "u2"
                 -> r = mkRsvp (Some "u2") (Some "Ann"))
      -> forall r,
           r ∈ event_rsvps "e1"
                 (toggled_twice cfg0 "e1" (Some "u2") (Some "Ann")
                                (Some "Ann") world0)
           <-> r ∈ event_rsvps "e1" world0).
Proof.
  apply (C1_rsvp_toggle_twice cfg0 "e1" (Some "u2") (Some "Ann") (Some "Ann")
           world0); vm_compute; reflexivity.
Defined.

(** ** C2: at most one entry per user id *)




(** ** C5 and C6: the notification of the event's creator *)

(** The enhanced handler up to its notification: the request is an add by
    someone other than the creator, and neither the fetch nor the update is
    faulted.  What is left is the insert into [notifications], run in the
    world holding the updated event. *)
Lemma rsvp_enhanced_add_run cfg id u n w e :
  getSupabase cfg = true ->
  falsy u = false ->
  List.filter (has_id id) (events w) = [e] ->
  u ∉ ids (default [] (rsvps e)) ->
  falsy (created_by e) = false ->
  created_by e <> u ->
  next_fault w = None ->
  next_fault (popped w) = None ->
  Server.rsvp_enhanced cfg id u n w
  = (let (_, w3) :=
       Server.notifications_insert (str (created_by e)) "rsvp"
         (interp n ++ " is going to " ++ dquote ++ ev_name e ++ dquote
            ++ "! 🎉")
         "Someone new joined your event."
         [("event_id", id); ("user_id", str u)]
         (set_events
            (put_rsvps id ((default [] (rsvps e)) ++ [mkRsvp u n])
                       (events w))
            (popped (popped w))) in
     (json (BEvent (Server.with_rsvps
                      ((default [] (rsvps e)) ++ [mkRsvp u n]) e)), w3)).
Proof.
  intros Hcfg Hu He Habs Hcb Hne Hf1 Hf2.
  apply already_None_iff in Habs.
  unfold Server.rsvp_enhanced. rewrite Hcfg, Hu. cbn [negb].
  unfold bind, Server.events_single.
  rewrite (store_call_run _ _ Hf1).
  rewrite popped_events. fold (has_id id). rewrite He. cbn [single ok error data].
  unfold Server.events_update_rsvps.
  rewrite (store_call_run _ _ Hf2).
  rewrite !popped_events. fold (has_id id). rewrite He.
  unfold Server.toggle_rsvps. rewrite Habs. rewrite Hcb.
  rewrite (bool_decide_false _ Hne). cbn [negb andb error data ok].
  unfold bind. reflexivity.
Qed.

(** The enhanced handler taken alone: an add by someone other than the
    creator, with no store call faulted, writes one notification addressed
    to the creator. *)
Lemma rsvp_enhanced_add_notifies cfg id u n w e :
  getSupabase cfg = true ->
  falsy u = false ->
  List.filter (has_id id) (events w) = [e] ->
  u ∉ ids (default [] (rsvps e)) ->
  falsy (created_by e) = false ->
  created_by e <> u ->
  next_fault w = None ->
  next_fault (popped w) = None ->
  next_fault (popped (popped w)) = None ->
  notifications (Server.rsvp_enhanced cfg id u n w).2
  = (notifications w ++
     [mkNotification (pretty (next_id w)) (str (created_by e)) "rsvp"
        (interp n ++ " is going to " ++ dquote ++ ev_name e ++ dquote
           ++ "! 🎉")
        "Someone new joined your event."
        [("event_id", id); ("user_id", str u)] false (db_now w)])%list.
Proof.
  intros Hcfg Hu He Habs Hcb Hne Hf1 Hf2 Hf3.
  rewrite (rsvp_enhanced_add_run cfg id u n w e) by done.
  unfold Server.notifications_insert.
  rewrite store_call_run by (by rewrite next_fault_set_events).
  cbn -[popped pretty]. rewrite !popped_set_events. cbn -[popped pretty].
  by rewrite !popped_notifications, !popped_next_id, !popped_db_now.
Qed.

(** The enhanced handler taken alone: a toggle that removes writes no
    notification, whatever the store does. *)
Lemma rsvp_enhanced_remove_silent cfg id u n w e :
  List.filter (has_id id) (events w) = [e] ->
  u ∈ ids (default [] (rsvps e)) ->
  notifications (Server.rsvp_enhanced cfg id u n w).2 = notifications w.
Proof.
  intros He Hin. apply already_Some_iff in Hin as [r Hr].
  unfold Server.rsvp_enhanced.
  destruct (negb (getSupabase cfg)); [done|].
  destruct (falsy u); [done|].
  unfold bind.
  destruct (Server.events_single id w) as [f w1] eqn:E1.
  apply events_single_run in E1 as [-> [(e' & -> & He')|(msg & ->)]]; simpl.
  2:{ by rewrite popped_notifications. }
  rewrite He in He'. inversion He'; subst e'.
  destruct (Server.events_update_rsvps _ id (popped w)) as [r2 w2] eqn:E2.
  apply events_update_rsvps_run in E2
    as [(e' & _ & -> & ->)|(msg & -> & ->)]; simpl.
  - rewrite Hr. simpl. by rewrite !popped_notifications.
  - by rewrite !popped_notifications.
Qed.

(** The socket service broadcasts the "rsvpAdded" activity on an add and
    only [eventUpdated] on a removal. *)
Lemma socket_rsvp_activity id u n w e :
  List.filter (has_id id) (events w) = [e] ->
  next_fault w = None ->
  next_fault (popped w) = None ->
  emitted (Socket.rsvp id u n w).2
  = (emitted w
     ++ [EventUpdated
           (Server.with_rsvps
              (Server.toggle_rsvps (default [] (rsvps e)) u n) e)]
     ++ (if decide (u ∈ ids (default [] (rsvps e))) then []
         else [Activity "rsvpAdded" n
                 ("is going to " ++ dquote ++ ev_name e ++ dquote)]))%list.
Proof.
  intros He Hf1 Hf2.
  unfold Socket.rsvp, bind, Server.events_single.
  rewrite (store_call_run _ _ Hf1).
  rewrite popped_events. fold (has_id id). rewrite He.
  cbn [single ok error data].
  unfold Server.events_update_rsvps.
  rewrite (store_call_run _ _ Hf2).
  rewrite !popped_events. fold (has_id id). rewrite He.
  cbn [error data ok].
  destruct (decide (u ∈ ids (default [] (rsvps e)))) as [Hin|Hout].
  - apply already_Some_iff in Hin as [r Hr]. rewrite Hr.
    cbn -[popped]. by rewrite !popped_emitted.
  - apply already_None_iff in Hout. rewrite Hout.
    cbn -[popped]. by rewrite !popped_emitted, <- ?app_assoc.
Qed.

(** Trending and the follow toggle are reached; so is the first RSVP
    handler, and never the second. *)
Example dispatch_reached :
  Server.dispatch Server.GET ["api"; "events"; "trending"]
    = Some (Server.H_trending, [])
  /\ Server.dispatch Server.POST ["api"; "follows"]
     = Some (Server.H_follow_toggle, [])
  /\ Server.dispatch Server.POST ["api"; "events"; "e1"; "rsvp"]
     = Some (Server.H_rsvp, [("id", "e1")]).
Proof. repeat split; vm_compute; reflexivity. Qed.

(** Every non-empty event id sends POST /api/events/<id>/rsvp to the
    handler registered first. *)
Lemma dispatch_rsvp id :
  id <> "" ->
  Server.dispatch Server.POST ["api"; "events"; id; "rsvp"]
  = Some (Server.H_rsvp, [("id", id)]).
Proof.
  intros Hid. destruct id as [|c id']; [done|].
  vm_compute. reflexivity.
Qed.

Lemma post_rsvp_is_first_handler cfg id u n :
  id <> "" -> Server.post_rsvp cfg id u n = Server.rsvp cfg id u n.
Proof.
  intros Hid. unfold Server.post_rsvp. rewrite dispatch_rsvp by done.
  reflexivity.
Qed.

(** As deployed, an RSVP request never writes a notification. *)
Lemma post_rsvp_notifications cfg id u n w :
  notifications (Server.post_rsvp cfg id u n w).2 = notifications w.
Proof.
  destruct (decide (id = "")) as [->|Hid].
  - reflexivity.
  - rewrite post_rsvp_is_first_handler by done.
    apply (rsvp_run cfg id u n w).
Qed.

(** C5, on the deployed route table: "u2" RSVPs to the picnic created by
    "u0".  The request is served by the handler registered first: it
    answers 200 with "u2" added and writes no notification; the enhanced
    handler, run on the same request, would have written one for "u0". *)
Theorem C5_post_rsvp_add_notifies_nobody :
  Server.dispatch Server.POST ["api"; "events"; "e1"; "rsvp"]
    = Some (Server.H_rsvp, [("id", "e1")])
  /\ (Server.post_rsvp cfg0 "e1" (Some "u2") (Some "Ann") world0).1
     = json (BEvent (Server.with_rsvps
                       [mkRsvp (Some "u1") (Some "Bob"); ann] picnic))
  /\ notifications
       (Server.post_rsvp cfg0 "e1" (Some "u2") (Some "Ann") world0).2 = []
  /\ notifications
       (Server.rsvp_enhanced cfg0 "e1" (Some "u2") (Some "Ann") world0).2
     = [mkNotification "1" "u0" "rsvp"
          ("Ann is going to " ++ dquote ++ "Picnic" ++ dquote ++ "! 🎉")
          "Someone new joined your event."
          [("event_id", "e1"); ("user_id", "u2")] false 5000].
Proof.
  repeat split; vm_compute; reflexivity.
Qed.

(** C6: in the enhanced RSVP handler, when the toggle is an add by someone
    other than the creator, the fetch and the update of the event go
    through and the insert into [notifications] fails, the answer is still
    200 with the updated event, no notification is stored, and nothing of
    the failure reaches the caller. *)
Theorem C6_failed_notification_is_swallowed cfg id u n w e msg :
  getSupabase cfg = true ->
  falsy u = false ->
  List.filter (has_id id) (events w) = [e] ->
  u ∉ ids (default [] (rsvps e)) ->
  falsy (created_by e) = false ->
  created_by e <> u ->
  next_fault w = None ->
  next_fault (popped w) = None ->
  next_fault (popped (popped w)) = Some msg ->
  Server.rsvp_enhanced cfg id u n w
  = (json (BEvent (Server.with_rsvps
                     ((default [] (rsvps e)) ++ [mkRsvp u n]) e)),
     set_events
       (put_rsvps id ((default [] (rsvps e)) ++ [mkRsvp u n]) (events w))
       (popped (popped (popped w))))
  /\ notifications (Server.rsvp_enhanced cfg id u n w).2 = notifications w.
Proof.
  intros Hcfg Hu He Habs Hcb Hne Hf1 Hf2 Hf3.
  rewrite (rsvp_enhanced_add_run cfg id u n w e) by done.
  unfold Server.notifications_insert.
  rewrite (store_call_fault _ _ msg)
    by (by rewrite next_fault_set_events).
  rewrite popped_set_events. split; [done|].
  cbn -[popped]. by rewrite !popped_notifications.
Qed.

(** A run of C6's theorem: "u2" joins the picnic while the notifications
    table rejects the insert. *)
Lemma C6_failed_notification_is_swallowed_witness :
  Server.rsvp_enhanced cfg0 "e1" (Some "u2") (Some "Ann") world_insert_fails
  = (json (BEvent (Server.with_rsvps
                     [mkRsvp (Some "u1") (Some "Bob"); ann] picnic)),
     set_events
       (put_rsvps "e1" [mkRsvp (Some "u1") (Some "Bob"); ann] [picnic])
       (popped (popped (popped world_insert_fails))))
  /\ notifications
       (Server.rsvp_enhanced cfg0 "e1" (Some "u2") (Some "Ann")
          world_insert_fails).2
     = notifications world_insert_fails.
Proof.
  apply (C6_failed_notification_is_swallowed cfg0 "e1" (Some "u2")
           (Some "Ann") world_insert_fails picnic
           "insert into notifications failed");
    try (vm_compute; reflexivity).
  - intros H. apply list_elem_of_singleton in H. discriminate H.
  - discriminate.
Defined.

(** The same swallowing on a route that is reached: POST /api/follows
    answers [{ following: true }] and stores the edge although the insert
    of the notification failed. *)
Lemma follow_toggle_swallows_failed_notification :
  (Server.follow_toggle cfg0 (Some "u1") (Some "u2")
     (set_faults [None; None; None; Some "insert failed"] world0)).1
  = json (BFollowing true)
  /\ notifications
       (Server.follow_toggle cfg0 (Some "u1") (Some "u2")
          (set_faults [None; None; None; Some "insert failed"] world0)).2
     = []
  /\ follows
       (Server.follow_toggle cfg0 (Some "u1") (Some "u2")
          (set_faults [None; None; None; Some "insert failed"] world0)).2
     = [mkFollow "1" "u1" "u2"].
Proof. repeat split; vm_compute; reflexivity. Qed.

(** ** Sorting *)

Section SortBy.

Context {A : Type} (cmp : A -> A -> Z).

(** What a comparator must satisfy for [sort_by] to sort: whenever it
    refuses to put [x] first, it accepts to put [y] first. *)
Hypothesis cmp_total : forall x y, 0 < cmp x y -> cmp y x <= 0.

Lemma insert_by_perm x l : insert_by cmp x l ≡ₚ x :: l.
Proof.
  induction l as [|y l IH]; simpl; [done|].
  destruct (cmp x y <=? 0); [done|].
  rewrite IH. apply Permutation_swap.
Qed.

Lemma sort_by_perm l : sort_by cmp l ≡ₚ l.
Proof.
  induction l as [|x l IH]; simpl; [done|].
  by rewrite insert_by_perm, IH.
Qed.

Lemma insert_by_HdRel a x l :
  before cmp a x -> HdRel (before cmp) a l ->
  HdRel (before cmp) a (insert_by cmp x l).
Proof.
  intros Hax Hl. destruct l as [|y l]; simpl.
  - by constructor.
  - destruct (cmp x y <=? 0); constructor; [done|].
    by inversion Hl.
Qed.

Lemma insert_by_sorted x l :
  Sorted (before cmp) l -> Sorted (before cmp) (insert_by cmp x l).
Proof.
  induction l as [|y l IH]; simpl; intros Hs.
  - repeat constructor.
  - destruct (Z.leb_spec (cmp x y) 0) as [Hle|Hgt].
    + constructor; [done|]. by constructor.
    + inversion Hs; subst. constructor; [by apply IH|].
      apply insert_by_HdRel; [|done]. by apply cmp_total.
Qed.

Lemma sort_by_sorted l : Sorted (before cmp) (sort_by cmp l).
Proof.
  induction l as [|x l IH]; simpl; [constructor|].
  by apply insert_by_sorted.
Qed.

End SortBy.

Lemma Sorted_weaken {A : Type} (R R' : A -> A -> Prop) (l : list A) :
  (forall a b, R a b -> R' a b) -> Sorted R l -> Sorted R' l.
Proof.
  intros HR. induction 1 as [|a l Hs IH Hd]; constructor; [done|].
  destruct Hd; constructor. by apply HR.
Qed.

(** Descending order on an integer key: the comparator
    [(a, b) => key(b) - key(a)]. *)
Lemma sort_desc_sorted {A : Type} (key : A -> Z) (l : list A) :
  Sorted (fun a b => key b <= key a) (sort_by (fun a b => key b - key a) l).
Proof.
  eapply Sorted_weaken;
    [|apply (sort_by_sorted (fun a b => key b - key a))].
  - intros a b. unfold before. lia.
  - intros x y. lia.
Qed.

(** Ascending order on an integer key: [(a, b) => key(a) - key(b)]. *)
Lemma sort_asc_sorted {A : Type} (key : A -> Z) (l : list A) :
  Sorted (fun a b => key a <= key b) (sort_by (fun a b => key a - key b) l).
Proof.
  eapply Sorted_weaken;
    [|apply (sort_by_sorted (fun a b => key a - key b))].
  - intros a b. unfold before. lia.
  - intros x y. lia.
Qed.

(** ** C4 and C10: trending *)

Lemma qualifies_spec now e :
  qualifies now e = true
  <-> ev_privacy e = "public" /\ now - 86400000 <= ev_created_at e.
Proof.
  unfold qualifies. rewrite andb_true_iff, bool_decide_eq_true, Z.leb_le.
  split; intros [H1 H2]; split; try done; lia.
Qed.

Lemma trending_run cfg now w :
  getSupabase cfg = true ->
  next_fault w = None ->
  Server.trending cfg now w
  = (json (BEvents
             (by_rsvps
                (take 10 (newest_first
                            (List.filter (qualifies now) (events w)))))),
     popped w).
Proof.
  intros Hcfg Hf. unfold Server.trending. rewrite Hcfg. cbn [negb].
  unfold bind. rewrite (store_call_run _ _ Hf).
  by rewrite popped_events.
Qed.

Lemma newest_first_strongly_sorted es :
  StronglySorted (fun a b => ev_created_at b <= ev_created_at a)
                 (newest_first es).
Proof.
  apply Sorted_StronglySorted.
  - intros x y z. lia.
  - apply (sort_desc_sorted ev_created_at).
Qed.

(** C10: with the store configured and answering, trending returns at
    most 10 events (10, or all the qualifying ones when fewer), and they
    are the newest by creation time among the qualifying events: a
    qualifying event left out was created no later than any returned one.
    The selection precedes the ranking by RSVP count, which only permutes
    it. *)
Theorem C10_trending_ten_newest cfg now w :
  getSupabase cfg = true ->
  next_fault w = None ->
  exists es,
    (Server.trending cfg now w).1 = json (BEvents es)
    /\ (List.length es <= 10)%nat
    /\ List.length es
       = Nat.min 10 (List.length (List.filter (qualifies now) (events w)))
    /\ es ≡ₚ take 10 (newest_first (List.filter (qualifies now) (events w)))
    /\ es = by_rsvps
              (take 10 (newest_first (List.filter (qualifies now) (events w))))
    /\ forall a b,
         a ∈ es -> b ∈ List.filter (qualifies now) (events w) -> b ∉ es ->
         ev_created_at b <= ev_created_at a.
Proof.
  intros Hcfg Hf. rewrite trending_run by done.
  set (Q := List.filter (qualifies now) (events w)).
  assert (Hperm : by_rsvps (take 10 (newest_first Q))
                  ≡ₚ take 10 (newest_first Q)) by apply sort_by_perm.
  assert (Hlen : List.length (by_rsvps (take 10 (newest_first Q)))
                 = Nat.min 10 (List.length Q)).
  { rewrite Hperm, length_take.
    unfold newest_first. by rewrite sort_by_perm. }
  eexists. split; [reflexivity|].
  split; [rewrite Hlen; lia|]. split; [exact Hlen|].
  split; [exact Hperm|]. split; [reflexivity|].
  intros a b Ha Hb Hnb. rewrite Hperm in Ha, Hnb.
  assert (Hb' : b ∈ newest_first Q)
    by (unfold newest_first; by rewrite sort_by_perm).
  rewrite <- (take_drop 10 (newest_first Q)) in Hb'.
  apply elem_of_app in Hb' as [Hb'|Hb']; [done|].
  pose proof (newest_first_strongly_sorted Q) as Hs.
  rewrite <- (take_drop 10 (newest_first Q)) in Hs.
  apply (StronglySorted_app_1_elem_of _ _ _ a b Hs Ha Hb').
Qed.

(** A run of C10's theorem on the festival: twelve events qualify, the
    ten newest are returned, ranked by their RSVPs; the two left out are
    the oldest, of which one holds more RSVPs than any event returned. *)
Lemma C10_trending_ten_newest_witness :
  List.length (List.filter (qualifies today) (events festival)) = 12%nat
  /\ exists es,
       (Server.trending cfg0 today festival).1 = json (BEvents es)
       /\ ev_id <$> es = ["11"; "8"; "5"; "10"; "7"; "4"; "12"; "9"; "6"; "3"]
       /\ List.length es = 10%nat
       /\ es ≡ₚ take 10 (newest_first
                           (List.filter (qualifies today) (events festival)))
       /\ (forall a b,
             a ∈ es -> b ∈ List.filter (qualifies today) (events festival) ->
             b ∉ es -> ev_created_at b <= ev_created_at a)
       /\ (gig "1" "public" 99000001 9
            ∈ List.filter (qualifies today) (events festival))
       /\ (gig "1" "public" 99000001 9 ∉ es)
       /\ Forall (fun e => Server.rsvp_count e < 9) es.
Proof.
  split; [vm_compute; reflexivity|].
  destruct (C10_trending_ten_newest cfg0 today festival eq_refl eq_refl)
    as (es & H1 & _ & H3 & H4 & H5 & H6).
  exists es. split; [exact H1|].
  split; [rewrite H5; vm_compute; reflexivity|].
  split; [rewrite H3; vm_compute; reflexivity|].
  split; [exact H4|]. split; [exact H6|].
  split; [apply list_elem_of_In; vm_compute; left; reflexivity|].
  split.
  - rewrite H5, list_elem_of_In. vm_compute. intuition discriminate.
  - rewrite H5. vm_compute. repeat constructor.
Defined.

(** C4, as stated, fails: with eleven public events created in the last 24
    hours, trending answers the ten newest; the oldest one qualifies and is
    not returned. *)
Lemma C4_trending_leaves_out_eleventh :
  party 1 ∈ events crowd
  /\ ev_privacy (party 1) = "public"
  /\ 5000 - 24 * 60 * 60 * 1000 <= ev_created_at (party 1)
  /\ (Server.trending cfg0 5000 crowd).1
     = json (BEvents (party <$> [11; 10; 9; 8; 7; 6; 5; 4; 3; 2]%N))
  /\ party 1 ∉ party <$> [11; 10; 9; 8; 7; 6; 5; 4; 3; 2]%N.
Proof.
  split; [apply list_elem_of_In; vm_compute; auto|].
  split; [reflexivity|]. split; [vm_compute; discriminate|].
  split; [vm_compute; reflexivity|].
  rewrite list_elem_of_In. vm_compute. intuition discriminate.
Qed.

(** C4, amended: with the store configured and answering, trending returns
    only public events created within the last 24 hours, ranked in
    descending order of RSVP-list length by the handler; it returns exactly
    the qualifying events when at most 10 of them exist. *)
Theorem C4_trending_public_recent_ranked cfg now w :
  getSupabase cfg = true ->
  next_fault w = None ->
  exists es,
    (Server.trending cfg now w).1 = json (BEvents es)
    /\ (forall e, e ∈ es ->
          e ∈ events w /\ ev_privacy e = "public"
          /\ now - 24 * 60 * 60 * 1000 <= ev_created_at e)
    /\ Sorted (fun a b => Server.rsvp_count b <= Server.rsvp_count a) es
    /\ ((List.length (List.filter (qualifies now) (events w)) <= 10)%nat ->
        es ≡ₚ List.filter (qualifies now) (events w)).
Proof.
  intros Hcfg Hf. rewrite trending_run by done.
  set (Q := List.filter (qualifies now) (events w)).
  assert (Hperm : by_rsvps (take 10 (newest_first Q))
                  ≡ₚ take 10 (newest_first Q)) by apply sort_by_perm.
  eexists. split; [reflexivity|]. split; [|split].
  - intros e He. rewrite Hperm in He.
    apply (subseteq_take 10) in He. unfold newest_first in He.
    rewrite sort_by_perm in He. subst Q.
    apply list_elem_of_In, filter_In in He as [Hin Hq].
    apply qualifies_spec in Hq as [Hp Ht].
    split; [by apply list_elem_of_In|]. split; [done|]. lia.
  - apply (sort_desc_sorted Server.rsvp_count).
  - intros Hle. rewrite Hperm. rewrite take_ge.
    + apply sort_by_perm.
    + unfold newest_first. by rewrite sort_by_perm.
Qed.

(** A run of C4's theorem on the fair: of six events the private one and
    the old one are left out, and the four others are returned by falling
    number of RSVPs, the newer first among equals. *)
Lemma C4_trending_public_recent_ranked_witness :
  exists es,
    (Server.trending cfg0 today fair).1 = json (BEvents es)
    /\ ev_id <$> es = ["d"; "b"; "c"; "a"]
    /\ Server.rsvp_count <$> es = [3; 3; 1; 0]
    /\ ev_id <$> events fair = ["a"; "b"; "secret"; "c"; "old"; "d"]
    /\ (forall e, e ∈ es ->
          e ∈ events fair /\ ev_privacy e = "public"
          /\ today - 24 * 60 * 60 * 1000 <= ev_created_at e)
    /\ Sorted (fun a b => Server.rsvp_count b <= Server.rsvp_count a) es
    /\ es ≡ₚ List.filter (qualifies today) (events fair).
Proof.
  destruct (C4_trending_public_recent_ranked cfg0 today fair eq_refl eq_refl)
    as (es & H1 & H2 & H3 & H4).
  exists es. split; [exact H1|].
  assert (Hes : es = [gig "d" "public" 99000005 3; gig "b" "public" 99000002 3;
                      gig "c" "public" 99000004 1; gig "a" "public" 99000001 0]).
  { assert (H : body (Server.trending cfg0 today fair).1 = BEvents es)
      by (by rewrite H1).
    vm_compute in H. injection H as <-. vm_compute. reflexivity. }
  split; [rewrite Hes; vm_compute; reflexivity|].
  split; [rewrite Hes; vm_compute; reflexivity|].
  split; [vm_compute; reflexivity|].
  split; [exact H2|]. split; [exact H3|].
  apply H4. vm_compute. lia.
Defined.

(** ** C8: message history *)

Lemma between_sym a b m : Server.between a b m = Server.between b a m.
Proof. unfold Server.between. apply orb_comm. Qed.

Lemma between_spec a b m :
  Server.between a b m = true
  <-> (from_user m = a /\ to_user m = b) \/ (from_user m = b /\ to_user m = a).
Proof.
  unfold Server.between.
  by rewrite orb_true_iff, !andb_true_iff, !bool_decide_eq_true.
Qed.

Lemma filter_ext_bool {A : Type} (p q : A -> bool) (l : list A) :
  (forall x, p x = q x) -> List.filter p l = List.filter q l.
Proof.
  intros H. induction l as [|x l IH]; simpl; [done|].
  by rewrite H, IH.
Qed.

(** The history for (a, b) is the history for (b, a): same answer, same
    effect on the world, whatever the store does. *)
Lemma history_sym cfg a b w : Server.history cfg a b w = Server.history cfg b a w.
Proof.
  unfold Server.history. destruct (negb (getSupabase cfg)); [done|].
  unfold bind, store_call.
  destruct (faults w) as [|[msg|] fs]; cbn beta; [|done|];
    by rewrite (filter_ext_bool (Server.between a b) (Server.between b a)
                  _ (between_sym a b)).
Qed.

(** C8: with the store configured and answering, the history for (a, b)
    is the history for (b, a); it holds exactly the stored messages sent
    from a to b or from b to a, oldest first by creation time. *)
Theorem C8_history_symmetric_oldest_first cfg a b w :
  getSupabase cfg = true ->
  next_fault w = None ->
  exists ms,
    (Server.history cfg a b w).1 = json (BMessages ms)
    /\ (Server.history cfg b a w).1 = json (BMessages ms)
    /\ (forall m, m ∈ ms <->
          m ∈ messages w
          /\ ((from_user m = a /\ to_user m = b)
              \/ (from_user m = b /\ to_user m = a)))
    /\ ms ≡ₚ List.filter (Server.between a b) (messages w)
    /\ Sorted (fun x y => m_created_at x <= m_created_at y) ms.
Proof.
  intros Hcfg Hf.
  exists (sort_by (fun x y => m_created_at x - m_created_at y)
            (List.filter (Server.between a b) (messages w))).
  assert (Hrun : (Server.history cfg a b w).1
                 = json (BMessages
                     (sort_by (fun x y => m_created_at x - m_created_at y)
                        (List.filter (Server.between a b) (messages w))))).
  { unfold Server.history. rewrite Hcfg. cbn [negb]. unfold bind.
    rewrite (store_call_run _ _ Hf). by rewrite popped_messages. }
  split; [exact Hrun|]. split; [by rewrite <- history_sym|].
  split; [|split].
  - intros m. rewrite sort_by_perm.
    rewrite list_elem_of_In, filter_In, between_spec, <- list_elem_of_In.
    done.
  - apply sort_by_perm.
  - apply (sort_asc_sorted m_created_at).
Qed.

(** A run of C8's theorem: the conversation of "u1" and "u2". *)
Lemma C8_history_symmetric_oldest_first_witness :
  getSupabase cfg0 = true /\ next_fault chat = None
  /\ exists ms,
       (Server.history cfg0 "u1" "u2" chat).1 = json (BMessages ms)
       /\ (Server.history cfg0 "u2" "u1" chat).1 = json (BMessages ms)
       /\ (forall m, m ∈ ms <->
             m ∈ messages chat
             /\ ((from_user m = "u1" /\ to_user m = "u2")
                 \/ (from_user m = "u2" /\ to_user m = "u1")))
       /\ ms ≡ₚ List.filter (Server.between "u1" "u2") (messages chat)
       /\ Sorted (fun x y => m_created_at x <= m_created_at y) ms.
Proof.
  split; [reflexivity|]. split; [reflexivity|].
  apply (C8_history_symmetric_oldest_first cfg0 "u1" "u2" chat); reflexivity.
Defined.

Example history_chat :
  (Server.history cfg0 "u2" "u1" chat).1
  = json (BMessages [mkMessage "m2" "u2" "u1" "hello" 10;
                     mkMessage "m4" "u1" "u2" "bye" 20;
                     mkMessage "m1" "u1" "u2" "hi" 30]).
Proof. vm_compute. reflexivity. Qed.

(** ** Rows and projections *)

Lemma project_lookup_in cols (r : row) k :
  k ∈ cols -> project cols r !! k = r !! k.
Proof.
  intros Hk. unfold project. destruct (r !! k) as [v|] eqn:E.
  - apply map_lookup_filter_Some. done.
  - apply map_lookup_filter_None. left. done.
Qed.

Lemma project_lookup_out cols (r : row) k :
  k ∉ cols -> project cols r !! k = None.
Proof.
  intros Hk. unfold project. apply map_lookup_filter_None.
  right. intros v _. simpl. done.
Qed.

Lemma password_hash_not_account_col : "password_hash" ∉ Server.account_cols.
Proof.
  unfold Server.account_cols. rewrite list_elem_of_In. simpl.
  intuition discriminate.
Qed.

(** ** C9: what a profile update can touch *)

Lemma update_keeps_outside (body r : row) :
  same_outside_editable r (project editable body ∪ r).
Proof.
  intros col Hcol. apply lookup_union_r. by apply project_lookup_out.
Qed.

(** C9: a profile update, whatever JSON object it is sent and whatever the
    store answers, leaves every column other than [username], [avatar],
    [bio] and [profile_color] of every stored user as it was; in
    particular [email], [password_hash] and [online]. *)
Theorem C9_update_user_frame cfg id (body : row) w :
  Forall2 same_outside_editable
          (users w) (users (Server.update_user cfg id body w).2)
  /\ Forall2 (fun r r' : row =>
                r' !! "email" = r !! "email"
                /\ r' !! "password_hash" = r !! "password_hash"
                /\ r' !! "online" = r !! "online")
             (users w) (users (Server.update_user cfg id body w).2).
Proof.
  assert (H : Forall2 same_outside_editable
                (users w) (users (Server.update_user cfg id body w).2)).
  { assert (Hrefl : Forall2 same_outside_editable (users w) (users w)).
    { apply Forall_Forall2_diag, Forall_forall. by intros r _ col _. }
    unfold Server.update_user.
    destruct (negb (getSupabase cfg)); [exact Hrefl|].
    fold editable. case_bool_decide as Hempty; [exact Hrefl|].
    unfold bind, Server.users_update_single.
    match goal with
    | |- context [store_call ?q w] =>
        destruct (store_call_cases q w) as [[msg E]|E]; rewrite E; clear E
    end.
    - simpl. by rewrite popped_users.
    - rewrite popped_users.
      destruct (List.filter (col_eq "id" (JStr id)) (users w))
        as [|r0 [|r1 l]]; simpl; rewrite ?popped_users; try exact Hrefl.
      apply Forall2_fmap_r, Forall_Forall2_diag, Forall_forall.
      intros r _. simpl. destruct (col_eq "id" (JStr id) r).
      + apply update_keeps_outside.
      + by intros col _. }
  split; [exact H|].
  eapply Forall2_impl; [exact H|].
  intros r r' Hrr. unfold same_outside_editable, editable in Hrr.
  repeat split; apply Hrr; rewrite list_elem_of_In; simpl;
    intuition discriminate.
Qed.

(** A profile update that tries to overwrite the email, the hash and the
    online flag along with the bio: only the bio changes. *)
Example update_user_ignores_email :
  users
    (Server.update_user cfg0 "7"
       (<["bio" := JStr "hello"]>
        (<["email" := JStr "evil@x.com"]>
         (<["password_hash" := JStr "0000"]>
          (<["online" := JBool false]> ∅))))
       (set_users
          [<["id" := JStr "7"]>
           (<["username" := JStr "alice"]>
            (<["email" := JStr "a@x.com"]>
             (<["password_hash" := JStr "abcd"]>
              (<["online" := JBool true]> ∅))))]
          world0)).2
  = [<["id" := JStr "7"]>
     (<["username" := JStr "alice"]>
      (<["email" := JStr "a@x.com"]>
       (<["password_hash" := JStr "abcd"]>
        (<["online" := JBool true]>
         (<["bio" := JStr "hello"]> ∅)))))].
Proof. vm_compute. reflexivity. Qed.

(** ** C7: sign-up and sign-in *)

Lemma hides_hash_fail code msg : hides_hash (fail code msg).
Proof. intros u H. discriminate H. Qed.

Lemma hides_hash_dbError : hides_hash dbError.
Proof. intros u H. discriminate H. Qed.

Lemma hides_hash_project (r : row) :
  hides_hash (json (BUser (project Server.account_cols r))).
Proof.
  intros u H. inversion H; subst.
  apply project_lookup_out, password_hash_not_account_col.
Qed.

Lemma hides_hash_online (u : row) :
  u !! "password_hash" = None ->
  hides_hash (json (BUser (<["online" := JBool true]> u))).
Proof.
  intros Hu v H. inversion H; subst. by rewrite lookup_insert_ne.
Qed.

Lemma hides_hash_safe (u : row) : hides_hash (json (BUser (Socket.safe u))).
Proof. intros v H. inversion H; subst. apply lookup_delete_eq. Qed.

Lemma safe_lookup (u : row) : Socket.safe u !! "password_hash" = None.
Proof. apply lookup_delete_eq. Qed.

Lemma maybeSingle_fmap_data {A B : Type} (f : A -> B) (l : list A) (b : B) :
  data (maybeSingle (f <$> l)) = Some b -> exists a, b = f a /\ l = [a].
Proof.
  destruct l as [|a [|a' l]]; simpl; intros H; inversion H; eauto.
Qed.

Create HintDb hides.

#[local] Hint Resolve hides_hash_fail hides_hash_dbError hides_hash_project
  hides_hash_safe : hides.

(** Run the next store call of the goal, in both of its outcomes. *)
Ltac run_store_call :=
  cbn beta iota delta [fst snd data error failed ok];
  match goal with
  | |- context [store_call ?q ?w] =>
      let E := fresh "E" in
      destruct (store_call_cases q w) as [[? E]|E]; rewrite E; clear E;
      cbn beta iota delta [fst snd data error failed ok]
  end.

Lemma server_signup_hides_hash sha enc fold cfg req w :
  hides_hash (Server.signup sha enc fold cfg req w).1.
Proof.
  unfold Server.signup.
  destruct (negb (getSupabase cfg)); [simpl; auto with hides|].
  destruct (falsy (Server.c_username req)); [simpl; auto with hides|].
  destruct (falsy (Server.c_email req)); [simpl; auto with hides|].
  destruct (_ || _); [simpl; auto with hides|].
  unfold bind, Server.users_maybeSingle, Server.users_insert.
  run_store_call.
  - run_store_call; [run_store_call; simpl; auto with hides|].
    destruct (maybeSingle _) as [[?|] ?]; [simpl; auto with hides|].
    run_store_call; simpl; auto with hides.
  - destruct (maybeSingle _) as [[?|] ?]; [simpl; auto with hides|].
    run_store_call.
    + run_store_call; simpl; auto with hides.
    + destruct (maybeSingle _) as [[?|] ?]; [simpl; auto with hides|].
      run_store_call; simpl; auto with hides.
Qed.

Lemma server_signin_hides_hash sha cfg req w :
  hides_hash (Server.signin sha cfg req w).1.
Proof.
  unfold Server.signin.
  destruct (negb (getSupabase cfg)); [simpl; auto with hides|].
  destruct (_ || _); [simpl; auto with hides|].
  unfold bind, Server.users_maybeSingle, Server.users_update.
  run_store_call; [simpl; auto with hides|].
  destruct (maybeSingle _) as [[u|] [msg|]] eqn:E;
    cbn beta iota delta [fst snd data error]; try (simpl; auto with hides).
  assert (Hu : u !! "password_hash" = None).
  { apply (f_equal data) in E. cbn [data] in E.
    apply maybeSingle_fmap_data in E as (r & -> & _).
    apply project_lookup_out, password_hash_not_account_col. }
  run_store_call; simpl; by apply hides_hash_online.
Qed.

Lemma socket_signup_hides_hash bh enc fold lc req w :
  hides_hash (Socket.signup bh enc fold lc req w).1.
Proof.
  unfold Socket.signup.
  destruct (falsy (Server.c_username req)); [simpl; auto with hides|].
  destruct (_ && _).
  - unfold bind, Socket.users_insert.
    run_store_call.
    + run_store_call; simpl; auto with hides.
    + destruct (maybeSingle _) as [[?|] ?]; [simpl; auto with hides|].
      run_store_call; simpl; auto with hides.
  - unfold bind, Socket.users_ilike_maybeSingle, Socket.users_insert,
      Socket.users_set_online.
    run_store_call.
    + run_store_call; simpl; auto with hides.
    + destruct (maybeSingle _) as [[u|] ?];
        cbn beta iota delta [fst snd data error].
      * run_store_call; simpl; apply hides_hash_online, safe_lookup.
      * run_store_call; simpl; auto with hides.
Qed.

Lemma socket_signin_hides_hash bc fold req w :
  hides_hash (Socket.signin bc fold req w).1.
Proof.
  unfold Socket.signin.
  destruct (_ || _); [simpl; auto with hides|].
  unfold bind, Socket.users_ilike_maybeSingle, Socket.users_set_online.
  run_store_call; [simpl; auto with hides|].
  destruct (maybeSingle _) as [[u|] [msg|]];
    cbn beta iota delta [fst snd data error]; try (simpl; auto with hides).
  destruct (negb (Socket.truthy_col _)); [simpl; auto with hides|].
  destruct (negb (bc _ _)); [simpl; auto with hides|].
  run_store_call; simpl; apply hides_hash_online, safe_lookup.
Qed.

Lemma signup_row_email sha enc cfg req w :
  signup_row sha enc cfg req w !! "email"
  = Some (JStr (str (Server.c_email req))).
Proof.
  unfold signup_row. rewrite !lookup_insert_ne by done.
  apply lookup_union_Some_l. by simplify_map_eq.
Qed.

Lemma signup_row_username sha enc cfg req w :
  signup_row sha enc cfg req w !! "username"
  = Some (JStr (str (Server.c_username req))).
Proof.
  unfold signup_row. rewrite !lookup_insert_ne by done.
  apply lookup_union_Some_l. by simplify_map_eq.
Qed.

Lemma signup_row_hash sha enc cfg req w :
  signup_row sha enc cfg req w !! "password_hash"
  = Some (JStr (Server.hashPassword sha cfg (str (Server.c_password req)))).
Proof.
  unfold signup_row. rewrite !lookup_insert_ne by done.
  apply lookup_union_Some_l. by simplify_map_eq.
Qed.

Lemma valid_signup_password req :
  valid_signup req ->
  falsy (Server.c_password req)
  || (js_length (str (Server.c_password req)) <? 6)%nat = false.
Proof.
  intros (_ & _ & Hp & Hlen). rewrite Hp. simpl.
  apply Nat.ltb_ge. exact Hlen.
Qed.

(** A valid sign-up with an unused email and username, the store
    answering: the row is stored and its account columns are answered. *)
Lemma signup_run sha enc fold cfg req w :
  getSupabase cfg = true ->
  valid_signup req ->
  faults w = [] ->
  List.filter (col_eq "email" (JStr (str (Server.c_email req)))) (users w)
    = [] ->
  List.filter (col_ilike fold "username" (str (Server.c_username req))) (users w)
    = [] ->
  Server.signup sha enc fold cfg req w
  = (json (BUser (project Server.account_cols
                          (signup_row sha enc cfg req w))),
     bump_id (set_users (users w ++ [signup_row sha enc cfg req w]) w)).
Proof.
  intros Hcfg Hv Hf He Hn.
  pose proof (valid_signup_password req Hv) as Hpw.
  destruct Hv as (Hu & Hem & _ & _).
  unfold Server.signup. rewrite Hcfg, Hu, Hem, Hpw. cbn [negb].
  unfold bind, Server.users_maybeSingle, Server.users_insert.
  rewrite (store_call_no_fault _ w Hf). rewrite He.
  cbn [fmap list_fmap maybeSingle data].
  rewrite (store_call_no_fault _ w Hf). rewrite Hn.
  cbn [fmap list_fmap maybeSingle data].
  rewrite (store_call_no_fault _ w Hf).
  reflexivity.
Qed.

Lemma filter_and_nil {A : Type} (p q : A -> bool) (l : list A) :
  List.filter p l = [] -> List.filter (fun x => p x && q x) l = [].
Proof.
  induction l as [|x l IH]; simpl; [done|].
  destruct (p x); simpl; [discriminate|]. exact IH.
Qed.

(** Signing in right after that sign-up, with the same email and
    password. *)
Lemma signin_after_signup sha enc cfg req w :
  getSupabase cfg = true ->
  valid_signup req ->
  faults w = [] ->
  List.filter (col_eq "email" (JStr (str (Server.c_email req)))) (users w)
    = [] ->
  (Server.signin sha cfg req
     (bump_id (set_users (users w ++ [signup_row sha enc cfg req w]) w))).1
  = json (BUser (<["online" := JBool true]>
                   (project Server.account_cols
                            (signup_row sha enc cfg req w)))).
Proof.
  intros Hcfg (Hu & Hem & Hp & Hlen) Hf He.
  unfold Server.signin. rewrite Hcfg, Hem, Hp. cbn [negb orb].
  unfold bind, Server.users_maybeSingle, Server.users_update.
  rewrite store_call_no_fault by exact Hf.
  cbn [users set_users bump_id].
  rewrite List.filter_app, (filter_and_nil _ _ _ He).
  cbn [List.filter app].
  unfold col_eq.
  rewrite signup_row_email, signup_row_hash, !bool_decide_true by done.
  cbn [andb fmap list_fmap maybeSingle data error ok].
  rewrite store_call_no_fault by exact Hf.
  reflexivity.
Qed.

(** C7: a valid registration (the password of at least 6 UTF-16 units, as
    [password.length] counts) with an email and a username that no stored
    user has, the store answering, is answered with the new user without
    the [password_hash] field although the stored row holds the hash;
    signing in right after with the same email and password succeeds and
    its answer has no [password_hash] field either; and no later sign-in
    with these credentials, in whatever state and in either service, ever
    answers a user object with that field. *)
Theorem C7_registration_and_signin_hide_hash sha enc fold cfg req w :
  getSupabase cfg = true ->
  valid_signup req ->
  faults w = [] ->
  List.filter (col_eq "email" (JStr (str (Server.c_email req)))) (users w)
    = [] ->
  List.filter (col_ilike fold "username" (str (Server.c_username req))) (users w)
    = [] ->
  (exists u : row,
     (Server.signup sha enc fold cfg req w).1 = json (BUser u)
     /\ u !! "password_hash" = None
     /\ u !! "email" = Some (JStr (str (Server.c_email req)))
     /\ u !! "username" = Some (JStr (str (Server.c_username req))))
  /\ (exists stored : row,
        users (Server.signup sha enc fold cfg req w).2
          = (users w ++ [stored])%list
        /\ stored !! "password_hash"
           = Some (JStr (Server.hashPassword sha cfg
                           (str (Server.c_password req)))))
  /\ (exists u' : row,
        (Server.signin sha cfg req (Server.signup sha enc fold cfg req w).2).1
          = json (BUser u')
        /\ u' !! "password_hash" = None
        /\ u' !! "online" = Some (JBool true))
  /\ (forall w', hides_hash (Server.signin sha cfg req w').1)
  /\ (forall bcrypt_hash bcrypt_compare lc w',
        hides_hash (Socket.signup bcrypt_hash enc fold lc req w').1
        /\ hides_hash (Socket.signin bcrypt_compare fold req w').1).
Proof.
  intros Hcfg Hv Hf He Hn.
  rewrite (signup_run sha enc fold cfg req w) by done.
  cbn [fst snd]. repeat split.
  - eexists. split; [reflexivity|].
    split; [apply project_lookup_out, password_hash_not_account_col|].
    split.
    + rewrite project_lookup_in; [apply signup_row_email|].
      unfold Server.account_cols. set_solver.
    + rewrite project_lookup_in; [apply signup_row_username|].
      unfold Server.account_cols. set_solver.
  - eexists. split; [reflexivity|]. apply signup_row_hash.
  - eexists. split; [by apply signin_after_signup|].
    split; [|apply lookup_insert_eq].
    rewrite lookup_insert_ne by done.
    apply project_lookup_out, password_hash_not_account_col.
  - intros w'. apply server_signin_hides_hash.
  - apply socket_signup_hides_hash.
  - apply socket_signin_hides_hash.
Qed.

(** A run of C7's theorem: alice registers in a store without users, then
    signs in. *)
Lemma C7_registration_and_signin_hide_hash_witness :
  (exists u : row,
     (Server.signup toy_sha toy_enc lower cfg0 alice world0).1 = json (BUser u)
     /\ u !! "password_hash" = None
     /\ u !! "email" = Some (JStr "a@x.com")
     /\ u !! "username" = Some (JStr "alice"))
  /\ (exists stored : row,
        users (Server.signup toy_sha toy_enc lower cfg0 alice world0).2
          = (users world0 ++ [stored])%list
        /\ stored !! "password_hash"
           = Some (JStr (Server.hashPassword toy_sha cfg0 "secret1")))
  /\ (exists u' : row,
        (Server.signin toy_sha cfg0 alice
           (Server.signup toy_sha toy_enc lower cfg0 alice world0).2).1
          = json (BUser u')
        /\ u' !! "password_hash" = None
        /\ u' !! "online" = Some (JBool true))
  /\ (forall w', hides_hash (Server.signin toy_sha cfg0 alice w').1)
  /\ (forall bcrypt_hash bcrypt_compare lc w',
        hides_hash (Socket.signup bcrypt_hash toy_enc lower lc alice w').1
        /\ hides_hash (Socket.signin bcrypt_compare lower alice w').1).
Proof.
  apply (C7_registration_and_signin_hide_hash toy_sha toy_enc lower cfg0
           alice world0); try reflexivity.
  unfold valid_signup. simpl. repeat split; lia.
Defined.

(** The scenario of the specification: alice registers, signs in, then
    signs in with a wrong password. *)
Example alice_scenario :
  status (Server.signup toy_sha toy_enc lower cfg0 alice world0).1 = 200%nat
  /\ status (Server.signin toy_sha cfg0 alice
               (Server.signup toy_sha toy_enc lower cfg0 alice world0).2).1
     = 200%nat
  /\ (Server.signin toy_sha cfg0
        (Server.mkCredentials None (Some "a@x.com") (Some "wrong") None)
        (Server.signup toy_sha toy_enc lower cfg0 alice world0).2).1
     = fail 401 "Invalid email or password".
Proof. repeat split; vm_compute; reflexivity. Qed.

(** ** C3: conflicts *)

(** [LIKE] on a pattern without [%], [*], [_] and backslash is equality. *)
Lemma like_plain p s : plain p = true -> (like p s = true <-> p = s).
Proof.
  revert s. induction p as [|c p IH]; intros s Hp.
  - destruct s; simpl; split; intros H; done.
  - simpl in Hp. apply andb_true_iff in Hp as [Hc Hp].
    unfold plain_char in Hc. apply negb_true_iff in Hc.
    apply orb_false_iff in Hc as [Hc He].
    apply orb_false_iff in Hc as [Hs Ha].
    simpl. rewrite Hs, Ha, He.
    destruct s as [|e s]; [split; intros H; done|].
    rewrite andb_true_iff, bool_decide_eq_true, (IH s Hp).
    split; [intros [-> ->]; done | intros H; by inversion H].
Qed.

Lemma lower_ascii_plain c :
  plain_char c = true -> plain_char (lower_ascii c) = true.
Proof.
  destruct c as [[] [] [] [] [] [] [] []]; vm_compute; intros H;
    first [reflexivity | discriminate H].
Qed.

Lemma lower_plain p : plain p = true -> plain (lower p) = true.
Proof.
  induction p as [|c p IH]; simpl; [done|].
  rewrite !andb_true_iff. intros [Hc Hp].
  split; [by apply lower_ascii_plain | by apply IH].
Qed.

(** [ILIKE] on such a pattern is equality up to the case of the
    letters. *)
Lemma ilike_plain fold p s :
  plain (fold p) = true -> (ilike fold p s = true <-> fold p = fold s).
Proof. intros Hp. unfold ilike. by apply like_plain. Qed.

Lemma col_ilike_plain fold name (r : row) :
  plain (fold name) = true ->
  col_ilike fold "username" name r = same_name_ci fold name r.
Proof.
  intros Hp. unfold col_ilike, same_name_ci.
  destruct (r !! "username") as [[| | |s]|]; try done.
  destruct (ilike fold name s) eqn:E.
  - symmetry. apply bool_decide_eq_true. by apply ilike_plain.
  - symmetry. apply bool_decide_eq_false. intros H.
    apply (ilike_plain fold name s Hp) in H. congruence.
Qed.

(** The pattern characters do make a difference. *)
Example ilike_underscore :
  ilike lower "john_doe" "johnXdoe" = true
  /\ ilike lower "JOHN_DOE" "john_doe" = true
  /\ ilike lower "a\_b" "a_b" = true
  /\ ilike lower "a\_b" "axb" = false
  /\ ilike lower "al%" "alice" = true
  /\ ilike lower "alice" "alicia" = false.
Proof. repeat split; vm_compute; reflexivity. Qed.

(** C3, as stated, fails.  alice (a@x.com) is registered.  A request with
    her email in upper case and a new username is answered 200 and stored
    as a second account: the email is compared with [.eq], exactly.  A
    request with her very email and username and a password of three
    characters is answered 400: validation comes before the look-ups. *)
Lemma C3_existing_account_not_always_conflict :
  lower "A@X.COM" = lower "a@x.com"
  /\ status (Server.signup toy_sha toy_enc lower cfg0
               (Server.mkCredentials (Some "bob") (Some "A@X.COM")
                                     (Some "secret1") None)
               members).1 = 200%nat
  /\ List.length
       (users (Server.signup toy_sha toy_enc lower cfg0
                 (Server.mkCredentials (Some "bob") (Some "A@X.COM")
                                       (Some "secret1") None)
                 members).2) = 2%nat
  /\ (Server.signup toy_sha toy_enc lower cfg0
        (Server.mkCredentials (Some "alice") (Some "a@x.com")
                              (Some "abc") None)
        members).1
     = fail 400 "Password must be at least 6 characters".
Proof. repeat split; vm_compute; reflexivity. Qed.

(** The sign-up of the socket service, the store answering: 409 exactly
    when the request carries a username, an email and a password and one
    stored email matches the request's under [ILIKE]; nothing is written
    then. *)
Lemma socket_signup_conflict bh enc fold lc req w :
  faults w = [] ->
  (status (Socket.signup bh enc fold lc req w).1 = 409%nat
   <-> falsy (Server.c_username req) = false
       /\ falsy (Server.c_email req) = false
       /\ falsy (Server.c_password req) = false
       /\ exists r,
            List.filter (col_ilike fold "email" (str (Server.c_email req)))
                        (users w) = [r])
  /\ (status (Socket.signup bh enc fold lc req w).1 = 409%nat ->
      (Socket.signup bh enc fold lc req w).2 = w).
Proof.
  intros Hf. unfold Socket.signup.
  destruct (falsy (Server.c_username req)) eqn:Hu.
  { simpl. split; [split|]; [discriminate| |discriminate].
    intros (H & _). discriminate H. }
  destruct (negb (falsy (Server.c_email req))
            && negb (falsy (Server.c_password req))) eqn:Hboth.
  - apply andb_true_iff in Hboth as [Hem Hp].
    apply negb_true_iff in Hem, Hp.
    unfold bind, Socket.users_insert.
    rewrite (store_call_no_fault _ w Hf).
    destruct (List.filter _ (users w)) as [|r [|r' l]] eqn:E;
      cbn [fmap list_fmap maybeSingle data ok failed fst snd].
    + rewrite (store_call_no_fault _ w Hf). simpl.
      split; [split|]; [discriminate| |discriminate].
      intros (_ & _ & _ & r & Hr). discriminate Hr.
    + simpl. split; [split|]; [|done|done].
      intros _. repeat split; try done. by exists r.
    + rewrite (store_call_no_fault _ w Hf). simpl.
      split; [split|]; [discriminate| |discriminate].
      intros (_ & _ & _ & r0 & Hr). discriminate Hr.
  - assert (Hno : ~ (falsy (Server.c_email req) = false
                     /\ falsy (Server.c_password req) = false)).
    { intros [H1 H2]. by rewrite H1, H2 in Hboth. }
    unfold bind, Socket.users_ilike_maybeSingle, Socket.users_set_online,
      Socket.users_insert.
    rewrite (store_call_no_fault _ w Hf).
    destruct (maybeSingle _) as [[u|] e];
      cbn [data error fst snd]; rewrite (store_call_no_fault _ w Hf); simpl;
      (split; [split|]; [discriminate| |discriminate]);
      intros (_ & H1 & H2 & _); by destruct Hno.
Qed.

(** C3, amended.  A sign-up request on a store that answers is refused
    with 409, and nothing is stored, in these cases.  In the REST service:
    the request passes validation and exactly one stored user has exactly
    the request's email, or exactly one stored user's username matches the
    request's under [ILIKE]; in particular when the request's username,
    folded, holds no pattern character and equals exactly one stored
    username up to case.  In the socket service: the request carries a
    username, an email and a password and exactly one stored email matches
    the request's under [ILIKE]; there nothing else is a conflict, a taken
    username never.  The avatar and the value of the password play no
    part. *)
Theorem C3_signup_conflict sha enc bh fold lc cfg req w :
  faults w = [] ->
  (getSupabase cfg = true ->
   valid_signup req ->
   (exists r,
      List.filter (col_eq "email" (JStr (str (Server.c_email req)))) (users w)
      = [r])
   \/ (exists r,
         List.filter (col_ilike fold "username" (str (Server.c_username req)))
                     (users w)
         = [r])
   \/ (plain (fold (str (Server.c_username req))) = true
       /\ exists r,
            List.filter (same_name_ci fold (str (Server.c_username req)))
                        (users w)
            = [r]) ->
   status (Server.signup sha enc fold cfg req w).1 = 409%nat
   /\ (Server.signup sha enc fold cfg req w).2 = w)
  /\ (falsy (Server.c_username req) = false ->
      falsy (Server.c_email req) = false ->
      falsy (Server.c_password req) = false ->
      (exists r,
         List.filter (col_ilike fold "email" (str (Server.c_email req)))
                     (users w)
         = [r]) ->
      status (Socket.signup bh enc fold lc req w).1 = 409%nat
      /\ (Socket.signup bh enc fold lc req w).2 = w)
  /\ (status (Socket.signup bh enc fold lc req w).1 = 409%nat ->
      falsy (Server.c_email req) = false
      /\ falsy (Server.c_password req) = false
      /\ exists r,
           List.filter (col_ilike fold "email" (str (Server.c_email req)))
                       (users w)
           = [r]).
Proof.
  intros Hf. split; [|split].
  - intros Hcfg Hv Hex.
    assert (Hex' :
      (exists r,
         List.filter (col_eq "email" (JStr (str (Server.c_email req))))
                     (users w) = [r])
      \/ (exists r,
            List.filter
              (col_ilike fold "username" (str (Server.c_username req)))
              (users w) = [r])).
    { destruct Hex as [H|[H|[Hp [r Hr]]]]; [by left | by right|].
      right. exists r.
      rewrite (filter_ext_bool _
                 (same_name_ci fold (str (Server.c_username req))));
        [done|].
      intros x. by apply col_ilike_plain. }
    clear Hex.
    pose proof (valid_signup_password req Hv) as Hpw.
    destruct Hv as (Hu & Hem & _ & _).
    unfold Server.signup. rewrite Hcfg, Hu, Hem, Hpw. cbn [negb].
    unfold bind, Server.users_maybeSingle.
    rewrite (store_call_no_fault _ w Hf).
    destruct (List.filter (col_eq "email" _) (users w)) as [|r0 [|r1 l]]
      eqn:E; cbn [fmap list_fmap maybeSingle data ok failed]; [|done|].
    + destruct Hex' as [[r Hr]|[r Hr]]; [discriminate Hr|].
      rewrite (store_call_no_fault _ w Hf). rewrite Hr.
      cbn [fmap list_fmap maybeSingle data ok]. done.
    + destruct Hex' as [[r Hr]|[r Hr]]; [discriminate Hr|].
      rewrite (store_call_no_fault _ w Hf). rewrite Hr.
      cbn [fmap list_fmap maybeSingle data ok]. done.
  - intros Hu Hem Hp Hr.
    destruct (socket_signup_conflict bh enc fold lc req w Hf) as [H1 H2].
    assert (H409 : status (Socket.signup bh enc fold lc req w).1 = 409%nat)
      by (apply H1; done).
    split; [exact H409 | by apply H2].
  - intros H409.
    destruct (socket_signup_conflict bh enc fold lc req w Hf) as [H1 _].
    apply H1 in H409 as (_ & Hem & Hp & Hr). done.
Qed.

(** A run of C3's theorem, alice having an account: "ALICE" asks the REST
    service for one, and the socket service is asked for one with alice's
    email in capitals. *)
Lemma C3_signup_conflict_witness :
  (status (Server.signup toy_sha toy_enc lower cfg0
             (Server.mkCredentials (Some "ALICE") (Some "other@x.com")
                                   (Some "hunter22") (Some "pic.png"))
             members).1 = 409%nat
   /\ (Server.signup toy_sha toy_enc lower cfg0
         (Server.mkCredentials (Some "ALICE") (Some "other@x.com")
                               (Some "hunter22") (Some "pic.png"))
         members).2 = members)
  /\ (status (Socket.signup toy_sha toy_enc lower lower
                (Server.mkCredentials (Some "bob") (Some "A@X.COM")
                                      (Some "secret1") None)
                members).1 = 409%nat
      /\ (Socket.signup toy_sha toy_enc lower lower
            (Server.mkCredentials (Some "bob") (Some "A@X.COM")
                                  (Some "secret1") None)
            members).2 = members).
Proof.
  split.
  - apply (C3_signup_conflict toy_sha toy_enc toy_sha lower lower cfg0
             (Server.mkCredentials (Some "ALICE") (Some "other@x.com")
                                   (Some "hunter22") (Some "pic.png"))
             members eq_refl).
    + reflexivity.
    + unfold valid_signup. vm_compute. repeat split; lia.
    + right. right. split; [reflexivity|].
      exists alice_row. vm_compute. reflexivity.
  - apply (C3_signup_conflict toy_sha toy_enc toy_sha lower lower cfg0
             (Server.mkCredentials (Some "bob") (Some "A@X.COM")
                                   (Some "secret1") None)
             members eq_refl); try reflexivity.
    exists alice_row. vm_compute. reflexivity.
Defined.

(** The password is measured in UTF-16 units, not in bytes: five times
    e-acute is ten bytes and too short, six times passes. *)
Example signup_counts_utf16_units :
  (Server.signup toy_sha toy_enc lower cfg0
     (Server.mkCredentials
        (Some "zoe") (Some "z@x.com")
        (Some (e_acute ++ e_acute ++ e_acute ++ e_acute ++ e_acute)) None)
     world0).1
  = fail 400 "Password must be at least 6 characters"
  /\ status
       (Server.signup toy_sha toy_enc lower cfg0
          (Server.mkCredentials
             (Some "zoe") (Some "z@x.com")
             (Some (e_acute ++ e_acute ++ e_acute ++ e_acute ++ e_acute
                      ++ e_acute)) None)
          world0).1 = 200%nat.
Proof. split; vm_compute; reflexivity. Qed.

(** What [ILIKE] matches follows the fold of the database.  Two accounts
    differ by the case of an accented letter.  Under a fold that knows the
    letter, a request for that username matches both, [.maybeSingle()]
    yields no data and a third account is stored; under the fold of the C
    locale it matches one and is refused. *)
Example signup_follows_database_fold :
  status (Server.signup toy_sha toy_enc lower_latin1 cfg0
            (Server.mkCredentials (Some (e_acute ++ "lodie"))
                                  (Some "e3@x.com") (Some "secret1") None)
            elodies).1 = 200%nat
  /\ List.length
       (users (Server.signup toy_sha toy_enc lower_latin1 cfg0
                 (Server.mkCredentials (Some (e_acute ++ "lodie"))
                                       (Some "e3@x.com") (Some "secret1")
                                       None)
                 elodies).2) = 3%nat
  /\ status (Server.signup toy_sha toy_enc lower cfg0
               (Server.mkCredentials (Some (e_acute ++ "lodie"))
                                     (Some "e3@x.com") (Some "secret1") None)
               elodies).1 = 409%nat.
Proof. repeat split; vm_compute; reflexivity. Qed.

(** [_] stands for one character, whatever the number of its bytes. *)
Example like_underscore_is_one_character :
  like "_lodie" (e_acute ++ "lodie") = true
  /\ like "__lodie" (e_acute ++ "lodie") = false
  /\ like "%_" e_acute = true
  /\ like "%__" e_acute = false.
Proof. repeat split; vm_compute; reflexivity. Qed.

(** Two stored usernames that the request's username matches as a pattern
    leave [.maybeSingle()] without data: "john_doe" registers a second
    time next to "johnxdoe". *)
Example signup_two_matches :
  status (Server.signup toy_sha toy_enc lower cfg0
            (Server.mkCredentials (Some "john_doe") (Some "j@x.com")
                                  (Some "secret1") None)
            (set_users
               [<["username" := JStr "john_doe"]>
                  (<["email" := JStr "jd@x.com"]> ∅);
                <["username" := JStr "johnxdoe"]>
                  (<["email" := JStr "jx@x.com"]> ∅)]
               world0)).1 = 200%nat.
Proof. vm_compute. reflexivity. Qed.

(** In the socket service a taken username is never a conflict: with an
    email and a password the username is not looked up, and without them
    the request is answered with the existing account; a taken email is
    one, whatever its case, when a password comes with it. *)
Example socket_signup_taken_username :
  status (Socket.signup toy_sha toy_enc lower lower
            (Server.mkCredentials (Some "alice") (Some "new@x.com")
                                  (Some "secret1") None)
            members).1 = 200%nat
  /\ status (Socket.signup toy_sha toy_enc lower lower
               (Server.mkCredentials (Some "Alice") None None None)
               members).1 = 200%nat
  /\ status (Socket.signup toy_sha toy_enc lower lower
               (Server.mkCredentials (Some "bob") (Some "A@X.COM")
                                     (Some "secret1") None)
               members).1 = 409%nat.
Proof. repeat split; vm_compute; reflexivity. Qed.

(** * Further properties *)

(** ** The route table *)

Lemma dispatch_in_app rs1 rs2 m path :
  Server.dispatch_in (rs1 ++ rs2) m path
  = match Server.dispatch_in rs1 m path with
    | Some x => Some x
    | None => Server.dispatch_in rs2 m path
    end.
Proof.
  induction rs1 as [|[[m' pat] h] rs1 IH]; simpl; [done|].
  destruct (bool_decide (m' = m)); [|exact IH].
  destruct (Server.match_path pat path); [done | exact IH].
Qed.

(** A route registered after another one with the same method and the
    same pattern can be taken out of the table without changing where any
    request goes. *)
Lemma dispatch_in_shadowed rs1 rs2 rs3 m0 pat h1 h2 m path :
  Server.dispatch_in (rs1 ++ (m0, pat, h1) :: rs2 ++ (m0, pat, h2) :: rs3)
                     m path
  = Server.dispatch_in (rs1 ++ (m0, pat, h1) :: rs2 ++ rs3) m path.
Proof.
  rewrite !dispatch_in_app.
  destruct (Server.dispatch_in rs1 m path); [done|].
  cbn [Server.dispatch_in].
  destruct (bool_decide (m0 = m)) eqn:Em.
  - destruct (Server.match_path pat path) eqn:Ep; [done|].
    rewrite !dispatch_in_app.
    destruct (Server.dispatch_in rs2 m path); [done|].
    cbn [Server.dispatch_in]. by rewrite Em, Ep.
  - rewrite !dispatch_in_app.
    destruct (Server.dispatch_in rs2 m path); [done|].
    cbn [Server.dispatch_in]. by rewrite Em.
Qed.

Lemma dispatch_in_handler rs m path h ps :
  Server.dispatch_in rs m path = Some (h, ps) ->
  h ∈ (fun r => r.2) <$> rs.
Proof.
  induction rs as [|[[m' pat] h'] rs IH]; simpl; [done|].
  intros H. rewrite elem_of_cons.
  destruct (bool_decide (m' = m)); [|right; by apply IH].
  destruct (Server.match_path pat path); [|right; by apply IH].
  left. by inversion H.
Qed.

(** X1.  The second registration of POST /api/events/:id/rsvp is dead:
    every request, whatever its method and path, is dispatched as if that
    route were not in the table, and so never to the enhanced handler. *)
Theorem enhanced_rsvp_route_is_dead m path :
  Server.dispatch m path = Server.dispatch_in routes_without_enhanced m path
  /\ forall ps,
       Server.dispatch m path <> Some (Server.H_rsvp_enhanced, ps).
Proof.
  assert (E : Server.dispatch m path
              = Server.dispatch_in routes_without_enhanced m path).
  { unfold Server.dispatch.
    change Server.routes with
      (take 9 Server.routes
       ++ (Server.POST,
           [Server.Lit "api"; Server.Lit "events"; Server.Param "id";
            Server.Lit "rsvp"], Server.H_rsvp)
       :: take 10 (drop 10 Server.routes)
       ++ (Server.POST,
           [Server.Lit "api"; Server.Lit "events"; Server.Param "id";
            Server.Lit "rsvp"], Server.H_rsvp_enhanced)
       :: drop 21 Server.routes)%list.
    rewrite dispatch_in_shadowed. reflexivity. }
  split; [exact E|].
  intros ps H. rewrite E in H. apply dispatch_in_handler in H.
  apply list_elem_of_In in H. vm_compute in H.
  repeat (destruct H as [H|H]; [discriminate H|]). exact H.
Qed.

(** ** Configuration *)

(** X2.  The health check answers 500 exactly when the data routes answer
    the not-configured error, that is when [SUPABASE_URL] or
    [SUPABASE_SERVICE_KEY] is unset or empty; it then lists the variables
    that are unset or empty, and only them, the URL first.  Otherwise it
    answers 200 "live".  It never calls [createClient]: its 200 says that
    both variables are set, not that a client can be made of them. *)
Theorem health_500_iff_routes_unconfigured cfg :
  (Rest.code (Rest.health cfg) = 500%nat
   <-> forall w, Rest.list_events cfg w = (dbError, w))
  /\ (Rest.code (Rest.health cfg) = 500%nat
      <-> forall id u n w, Server.rsvp cfg id u n w = (dbError, w))
  /\ (Rest.code (Rest.health cfg) = 500%nat
      <-> falsy (SUPABASE_URL cfg) = true
          \/ falsy (SUPABASE_SERVICE_KEY cfg) = true)
  /\ (Rest.code (Rest.health cfg) = 500%nat ->
      Rest.health cfg
      = Rest.mkReply 500
          (Rest.PMissing
             ((if falsy (SUPABASE_URL cfg) then ["SUPABASE_URL"] else [])
              ++ (if falsy (SUPABASE_SERVICE_KEY cfg)
                  then ["SUPABASE_SERVICE_KEY"] else []))%list))
  /\ (Rest.code (Rest.health cfg) <> 500%nat ->
      Rest.health cfg = Rest.reply Rest.PLive).
Proof.
  unfold Rest.health, Rest.list_events, Server.rsvp, getSupabase.
  destruct (falsy (SUPABASE_URL cfg)), (falsy (SUPABASE_SERVICE_KEY cfg));
    cbn [app List.length Nat.ltb Nat.leb Rest.code Rest.reply orb negb];
    (split; [|split; [|split; [|split]]]);
    try (split; intros H; try done);
    try (intros H; done); try (by left); try (by right).
  - specialize (H world0). vm_compute in H. discriminate H.
  - specialize (H "e1" None None world0). vm_compute in H. discriminate H.
  - destruct H as [H|H]; discriminate H.
Qed.

(** X3.  When [getSupabase()] returns [null], each of these seventeen
    routes of the REST service answers the same not-configured 500 and
    leaves the world as it was, no store call being made and no fault
    consumed: sign-up, sign-in, profile update, RSVP (both registrations),
    trending, message history, follow toggle, sign-out, user list, event
    list, event deletion, message sending, follows, notification list,
    mark-read and notification creation. *)
Theorem unconfigured_routes_refuse sha enc fold cfg w :
  getSupabase cfg = false ->
  (forall req, Server.signup sha enc fold cfg req w = (dbError, w))
  /\ (forall req, Server.signin sha cfg req w = (dbError, w))
  /\ (forall id body, Server.update_user cfg id body w = (dbError, w))
  /\ (forall id u n, Server.rsvp cfg id u n w = (dbError, w))
  /\ (forall id u n, Server.rsvp_enhanced cfg id u n w = (dbError, w))
  /\ (forall now, Server.trending cfg now w = (dbError, w))
  /\ (forall a b, Server.history cfg a b w = (dbError, w))
  /\ (forall a b, Server.follow_toggle cfg a b w = (dbError, w))
  /\ (forall u, Rest.signout cfg u w = (dbError, w))
  /\ Rest.list_users cfg w = (Rest.notConfigured, w)
  /\ Rest.list_events cfg w = (dbError, w)
  /\ (forall id, Rest.delete_event cfg id w = (dbError, w))
  /\ (forall a b t, Rest.send_message cfg a b t w = (Rest.notConfigured, w))
  /\ (forall id, Rest.get_follows cfg id w = (Rest.notConfigured, w))
  /\ (forall u, Rest.list_notifications cfg u w = (Rest.notConfigured, w))
  /\ (forall u, Rest.read_notifications cfg u w = (dbError, w))
  /\ (forall u t ti b d,
        Rest.create_notification cfg u t ti b d w = (Rest.notConfigured, w)).
Proof.
  intros H.
  unfold Server.signup, Server.signin, Server.update_user, Server.rsvp,
    Server.rsvp_enhanced, Server.trending, Server.history,
    Server.follow_toggle, Rest.signout, Rest.list_users, Rest.list_events,
    Rest.delete_event, Rest.send_message, Rest.get_follows,
    Rest.list_notifications, Rest.read_notifications,
    Rest.create_notification.
  rewrite H. cbn [negb]. repeat split.
Qed.

(** A run of X3 on the picnic world, the key missing. *)
Lemma unconfigured_routes_refuse_witness :
  getSupabase cfg_no_key = false
  /\ Server.rsvp cfg_no_key "e1" (Some "u2") (Some "Ann") world0
     = (dbError, world0).
Proof.
  split; [reflexivity|].
  apply (unconfigured_routes_refuse toy_sha toy_enc lower cfg_no_key world0
           eq_refl).
Defined.

(** ** The online flag *)

Lemma online_update (b : bool) (r : row) :
  <["online" := JBool b]> ∅ ∪ r = <["online" := JBool b]> r.
Proof. by rewrite insert_empty, <- insert_union_singleton_l. Qed.

Lemma users_update_run b id w :
  next_fault w = None ->
  Server.users_update (<["online" := JBool b]> ∅) (Some id) w
  = (ok tt, set_users (set_online id b (users w)) (popped w)).
Proof.
  intros Hf. unfold Server.users_update.
  rewrite (store_call_run _ _ Hf). rewrite popped_users.
  f_equal. f_equal. unfold set_online. apply list_fmap_ext.
  intros _ r _. cbn [col_eq_opt].
  destruct (col_eq "id" id r); [apply online_update | done].
Qed.

Lemma col_eq_id_online id b (r : row) :
  col_eq "id" id (<["online" := JBool b]> r) = col_eq "id" id r.
Proof. unfold col_eq. by rewrite lookup_insert_ne. Qed.

(** The last write of the flag wins; in particular writing it twice is
    writing it once. *)
Lemma set_online_twice id b1 b2 us :
  set_online id b2 (set_online id b1 us) = set_online id b2 us.
Proof.
  unfold set_online. rewrite <- list_fmap_compose.
  apply list_fmap_ext. intros _ r _. simpl.
  destruct (col_eq "id" id r) eqn:E.
  - rewrite col_eq_id_online, E. apply insert_insert_eq.
  - by rewrite E.
Qed.

Lemma set_online_frame id b us :
  Forall2 (fun r r' : row =>
             (forall col, col <> "online" -> r' !! col = r !! col)
             /\ (r !! "id" <> Some id -> r' = r))
          us (set_online id b us).
Proof.
  unfold set_online. apply Forall2_fmap_r, Forall_Forall2_diag, Forall_forall.
  intros r _. simpl. unfold col_eq. case_bool_decide as E.
  - split; [|done]. intros col Hc. by rewrite lookup_insert_ne.
  - done.
Qed.

Lemma signout_run cfg userId w :
  getSupabase cfg = true ->
  falsy userId = false ->
  next_fault w = None ->
  Rest.signout cfg userId w
  = (json BSuccess,
     set_users (set_online (JStr (str userId)) false (users w)) (popped w)).
Proof.
  intros Hcfg Hu Hf. unfold Rest.signout. rewrite Hcfg, Hu. cbn [negb].
  unfold bind. by rewrite users_update_run.
Qed.

(** X4.  Signing out with a user id always answers success, also when
    the store rejects the update.  When the update runs, it sets the
    online flag of the rows with that id to false and nothing else: every
    other column of every row, and every row with another id, is as it
    was.  Signing out twice leaves the users as signing out once. *)
Theorem signout_clears_only_online_flag cfg userId w :
  getSupabase cfg = true ->
  falsy userId = false ->
  (Rest.signout cfg userId w).1 = json BSuccess
  /\ (next_fault w = None ->
      users (Rest.signout cfg userId w).2
      = set_online (JStr (str userId)) false (users w))
  /\ (next_fault w <> None ->
      users (Rest.signout cfg userId w).2 = users w)
  /\ Forall2 (fun r r' : row =>
                (forall col, col <> "online" -> r' !! col = r !! col)
                /\ (r !! "id" <> Some (JStr (str userId)) -> r' = r))
             (users w) (users (Rest.signout cfg userId w).2)
  /\ (next_fault w = None -> next_fault (popped w) = None ->
      users (Rest.signout cfg userId (Rest.signout cfg userId w).2).2
      = users (Rest.signout cfg userId w).2).
Proof.
  intros Hcfg Hu.
  pose proof (signout_run cfg userId w Hcfg Hu) as Hrun.
  assert (Hfail : next_fault w <> None ->
            Rest.signout cfg userId w = (json BSuccess, popped w)).
  { intros Hf. unfold Rest.signout. rewrite Hcfg, Hu. cbn [negb].
    unfold bind, Server.users_update.
    destruct (next_fault w) as [msg|] eqn:E; [|done].
    by rewrite (store_call_fault _ _ msg E). }
  split; [|split; [|split; [|split]]].
  - destruct (next_fault w) eqn:E; [by rewrite Hfail | by rewrite Hrun].
  - intros Hf. by rewrite Hrun.
  - intros Hf. rewrite Hfail by done. apply popped_users.
  - destruct (next_fault w) eqn:E.
    + rewrite Hfail by done. cbn [snd]. rewrite popped_users.
      apply Forall_Forall2_diag, Forall_forall. by intros r _.
    + rewrite Hrun by done. apply set_online_frame.
  - intros Hf1 Hf2. rewrite (Hrun Hf1). cbn [snd].
    unfold Rest.signout. rewrite Hcfg, Hu. cbn [negb]. unfold bind.
    rewrite users_update_run by done.
    cbn [snd users set_users]. apply set_online_twice.
Qed.

(** A run of X4: alice signs out. *)
Lemma signout_clears_only_online_flag_witness :
  (Rest.signout cfg0 (Some "1") members).1 = json BSuccess
  /\ (next_fault members = None ->
      users (Rest.signout cfg0 (Some "1") members).2
      = set_online (JStr "1") false (users members)).
Proof.
  pose proof (signout_clears_only_online_flag cfg0 (Some "1") members
                eq_refl eq_refl) as (H1 & H2 & _).
  exact (conj H1 H2).
Defined.

Lemma signin_run sha cfg req w r :
  getSupabase cfg = true ->
  falsy (Server.c_email req) = false ->
  falsy (Server.c_password req) = false ->
  faults w = [] ->
  List.filter
    (fun r => col_eq "email" (JStr (str (Server.c_email req))) r
              && col_eq "password_hash"
                   (JStr (Server.hashPassword sha cfg
                            (str (Server.c_password req)))) r)
    (users w) = [r] ->
  Server.signin sha cfg req w
  = (json (BUser (<["online" := JBool true]>
                    (project Server.account_cols r))),
     set_users
       (match r !! "id" with
        | Some v => set_online v true (users w)
        | None => users w
        end) w).
Proof.
  intros Hcfg Hem Hp Hf Hr.
  unfold Server.signin. rewrite Hcfg, Hem, Hp. cbn [negb orb].
  unfold bind, Server.users_maybeSingle.
  rewrite (store_call_no_fault _ w Hf). rewrite Hr.
  cbn [fmap list_fmap maybeSingle data error ok].
  rewrite project_lookup_in by (unfold Server.account_cols; set_solver).
  destruct (r !! "id") as [v|] eqn:Ev.
  - rewrite users_update_run by (unfold next_fault; by rewrite Hf).
    unfold popped. rewrite Hf. reflexivity.
  - unfold Server.users_update. rewrite (store_call_no_fault _ w Hf).
    cbn [col_eq_opt]. by rewrite list_fmap_id.
Qed.

(** X5.  A sign-in that finds exactly one account with the email and the
    hash of the password, the store answering, answers that account with
    [online: true] and sets the stored online flag of the rows with its
    id, and only that; signing out with that id afterwards leaves the
    flag false. *)
Theorem signin_marks_online sha cfg req w r v :
  getSupabase cfg = true ->
  falsy (Server.c_email req) = false ->
  falsy (Server.c_password req) = false ->
  faults w = [] ->
  List.filter
    (fun r => col_eq "email" (JStr (str (Server.c_email req))) r
              && col_eq "password_hash"
                   (JStr (Server.hashPassword sha cfg
                            (str (Server.c_password req)))) r)
    (users w) = [r] ->
  r !! "id" = Some v ->
  (Server.signin sha cfg req w).1
  = json (BUser (<["online" := JBool true]>
                   (project Server.account_cols r)))
  /\ users (Server.signin sha cfg req w).2 = set_online v true (users w)
  /\ <["online" := JBool true]> r ∈ users (Server.signin sha cfg req w).2
  /\ forall i, v = JStr i -> i <> "" ->
       users (Rest.signout cfg (Some i) (Server.signin sha cfg req w).2).2
       = set_online v false (users w).
Proof.
  intros Hcfg Hem Hp Hf Hr Hv.
  rewrite (signin_run sha cfg req w r) by done. rewrite Hv. cbn [fst snd].
  split; [done|]. split; [done|]. split.
  - unfold set_online. apply list_elem_of_fmap.
    exists r. split.
    + unfold col_eq. by rewrite Hv, bool_decide_true.
    + cbn [users set_users]. eapply filter_single_elem, Hr.
  - intros i -> Hi.
    rewrite signout_run;
      [|done|simpl; by apply bool_decide_false
       |unfold next_fault; simpl; by rewrite Hf].
    cbn [snd users set_users str default]. apply set_online_twice.
Qed.

(** A run of X5: alice signs in, then out. *)
Lemma signin_marks_online_witness :
  (Server.signin toy_sha cfg0 alice members).1
  = json (BUser (<["online" := JBool true]>
                   (project Server.account_cols alice_row)))
  /\ users (Server.signin toy_sha cfg0 alice members).2
     = set_online (JStr "1") true (users members)
  /\ <["online" := JBool true]> alice_row
     ∈ users (Server.signin toy_sha cfg0 alice members).2
  /\ forall i, JStr "1" = JStr i -> i <> "" ->
       users (Rest.signout cfg0 (Some i)
                (Server.signin toy_sha cfg0 alice members).2).2
       = set_online (JStr "1") false (users members).
Proof.
  apply (signin_marks_online toy_sha cfg0 alice members alice_row (JStr "1"));
    vm_compute; reflexivity.
Defined.

(** X6.  A sign-in that is not answered 200 changes no stored user, in
    the REST service and in the socket service alike: the online flag is
    written only after the credentials have been found good. *)
Theorem failed_signin_changes_no_user sha bcrypt_compare fold cfg req w :
  (status (Server.signin sha cfg req w).1 <> 200%nat ->
   users (Server.signin sha cfg req w).2 = users w)
  /\ (status (Socket.signin bcrypt_compare fold req w).1 <> 200%nat ->
      users (Socket.signin bcrypt_compare fold req w).2 = users w).
Proof.
  split.
  - unfold Server.signin.
    destruct (negb (getSupabase cfg)); [done|].
    destruct (_ || _); [done|].
    unfold bind, Server.users_maybeSingle, Server.users_update.
    run_store_call; [intros _; simpl; apply popped_users|].
    destruct (maybeSingle _) as [[u|] [msg|]];
      cbn beta iota delta [fst snd data error];
      try (intros _; simpl; apply popped_users).
    run_store_call; simpl; intros H; done.
  - unfold Socket.signin.
    destruct (_ || _); [done|].
    unfold bind, Socket.users_ilike_maybeSingle, Socket.users_set_online.
    run_store_call; [intros _; simpl; apply popped_users|].
    destruct (maybeSingle _) as [[u|] [msg|]];
      cbn beta iota delta [fst snd data error];
      try (intros _; simpl; apply popped_users).
    destruct (negb (Socket.truthy_col _));
      [intros _; simpl; apply popped_users|].
    destruct (negb (bcrypt_compare _ _));
      [intros _; simpl; apply popped_users|].
    run_store_call; simpl; intros H; done.
Qed.

(** ** Listing the users *)

Lemma users_newest_first_sorted us :
  Sorted newer_or_same (Rest.users_newest_first us).
Proof.
  unfold Rest.users_newest_first.
  apply (sort_by_sorted
           (fun a b => Rest.compare_nulls_last (Rest.created_of b)
                                               (Rest.created_of a))).
  intros x y. unfold Rest.compare_nulls_last.
  destruct (Rest.created_of x), (Rest.created_of y); lia.
Qed.

Lemma created_of_profile (r : row) :
  Rest.created_of (project Server.profile_cols r) = Rest.created_of r.
Proof.
  unfold Rest.created_of. rewrite project_lookup_in; [done|].
  unfold Server.profile_cols. set_solver.
Qed.

(** X7.  The user list of the REST service, the store answering: one
    object per stored user, newest first, each the stored row cut down to
    the seven profile columns, so that neither the password hash nor the
    email of anyone is in the answer. *)
Theorem list_users_shows_profiles_only cfg w :
  getSupabase cfg = true ->
  next_fault w = None ->
  exists us,
    (Rest.list_users cfg w).1 = Rest.reply (Rest.PUsers us)
    /\ us ≡ₚ project Server.profile_cols <$> users w
    /\ Sorted newer_or_same us
    /\ Forall (fun u : row =>
                 u !! "password_hash" = None /\ u !! "email" = None
                 /\ forall col, col ∉ Server.profile_cols -> u !! col = None)
              us.
Proof.
  intros Hcfg Hf.
  exists (project Server.profile_cols <$> Rest.users_newest_first (users w)).
  split; [|split; [|split]].
  - unfold Rest.list_users. rewrite Hcfg. cbn [negb]. unfold bind.
    rewrite (store_call_run _ _ Hf). by rewrite popped_users.
  - apply fmap_Permutation. unfold Rest.users_newest_first.
    apply sort_by_perm.
  - eapply Sorted_fmap; [|apply users_newest_first_sorted].
    intros x y. unfold newer_or_same. by rewrite !created_of_profile.
  - apply Forall_fmap, Forall_forall. intros r _. simpl.
    assert (H : forall col, col ∉ Server.profile_cols ->
                  project Server.profile_cols r !! col = None)
      by (intros col; apply project_lookup_out).
    split; [|split; [|exact H]]; apply H; unfold Server.profile_cols;
      rewrite list_elem_of_In; simpl; intuition discriminate.
Qed.

(** A run of X7 on the store holding alice. *)
Lemma list_users_shows_profiles_only_witness :
  exists us,
    (Rest.list_users cfg0 members).1 = Rest.reply (Rest.PUsers us)
    /\ us ≡ₚ project Server.profile_cols <$> users members
    /\ Sorted newer_or_same us
    /\ Forall (fun u : row =>
                 u !! "password_hash" = None /\ u !! "email" = None
                 /\ forall col, col ∉ Server.profile_cols -> u !! col = None)
              us.
Proof.
  apply (list_users_shows_profiles_only cfg0 members); reflexivity.
Defined.

Lemma socket_signup_run bh enc fold lc req w :
  falsy (Server.c_username req) = false ->
  falsy (Server.c_email req) = false ->
  falsy (Server.c_password req) = false ->
  faults w = [] ->
  List.filter (col_ilike fold "email" (str (Server.c_email req))) (users w) = [] ->
  exists stored : row,
    users (Socket.signup bh enc fold lc req w).2 = (users w ++ [stored])%list
    /\ faults (Socket.signup bh enc fold lc req w).2 = []
    /\ stored !! "password_hash"
       = Some (JStr (bh (str (Server.c_password req))))
    /\ (Socket.signup bh enc fold lc req w).1 = json (BUser (Socket.safe stored)).
Proof.
  intros Hu Hem Hp Hf He.
  unfold Socket.signup. rewrite Hu, Hem, Hp. cbn [negb andb].
  unfold bind, Socket.users_insert.
  rewrite (store_call_no_fault _ w Hf). rewrite He.
  cbn [fmap list_fmap maybeSingle data].
  rewrite (store_call_no_fault _ w Hf).
  cbn [fst snd error data ok ret users bump_id set_users faults].
  eexists. split; [reflexivity|]. split; [exact Hf|]. split; [|reflexivity].
  rewrite !lookup_insert_ne by done.
  apply lookup_union_Some_l. by simplify_map_eq.
Qed.

(** X8.  The user list of the socket service selects every column: the
    answer is the stored rows, whole, newest first.  So the password hash
    stored by a sign-up is handed to whoever lists the users next. *)
Theorem socket_list_users_returns_hashes bh enc fold lc req w :
  falsy (Server.c_username req) = false ->
  falsy (Server.c_email req) = false ->
  falsy (Server.c_password req) = false ->
  faults w = [] ->
  List.filter (col_ilike fold "email" (str (Server.c_email req))) (users w) = [] ->
  exists us,
    (Live.list_users (Socket.signup bh enc fold lc req w).2).1
    = Rest.reply (Rest.PUsers us)
    /\ us ≡ₚ users (Socket.signup bh enc fold lc req w).2
    /\ Sorted newer_or_same us
    /\ exists u : row,
         u ∈ us
         /\ u !! "password_hash"
            = Some (JStr (bh (str (Server.c_password req)))).
Proof.
  intros Hu Hem Hp Hf He.
  destruct (socket_signup_run bh enc fold lc req w Hu Hem Hp Hf He)
    as (stored & Hus & Hf' & Hh & _).
  exists (Rest.users_newest_first (users (Socket.signup bh enc fold lc req w).2)).
  assert (Hperm : Rest.users_newest_first
                    (users (Socket.signup bh enc fold lc req w).2)
                  ≡ₚ users (Socket.signup bh enc fold lc req w).2)
    by apply sort_by_perm.
  split; [|split; [|split]].
  - unfold Live.list_users, bind.
    by rewrite (store_call_no_fault _ _ Hf').
  - exact Hperm.
  - apply users_newest_first_sorted.
  - exists stored. split; [|exact Hh].
    rewrite Hperm, Hus. apply elem_of_app. right. by left.
Qed.

(** A run of X8: alice signs up with the socket service, then the users
    are listed. *)
Lemma socket_list_users_returns_hashes_witness :
  exists us,
    (Live.list_users (Socket.signup toy_sha toy_enc lower lower alice world0).2).1
    = Rest.reply (Rest.PUsers us)
    /\ us ≡ₚ users (Socket.signup toy_sha toy_enc lower lower alice world0).2
    /\ Sorted newer_or_same us
    /\ exists u : row,
         u ∈ us /\ u !! "password_hash" = Some (JStr (toy_sha "secret1")).
Proof.
  apply (socket_list_users_returns_hashes toy_sha toy_enc lower lower alice
           world0);
    reflexivity.
Defined.

(** ** Messages *)

Lemma history_run cfg a b w :
  getSupabase cfg = true ->
  next_fault w = None ->
  Server.history cfg a b w = (json (BMessages (conversation a b (messages w))),
                             popped w).
Proof.
  intros Hcfg Hf. unfold Server.history. rewrite Hcfg. cbn [negb].
  unfold bind. rewrite (store_call_run _ _ Hf). by rewrite popped_messages.
Qed.

Lemma send_message_run cfg from to text w :
  getSupabase cfg = true ->
  falsy from = false -> falsy to = false -> falsy text = false ->
  next_fault w = None ->
  (Rest.send_message cfg from to text w).1
  = Rest.reply (Rest.PMessage
      (mkMessage (pretty (next_id w)) (str from) (str to) (str text)
                 (db_now w)))
  /\ messages (Rest.send_message cfg from to text w).2
     = (messages w
        ++ [mkMessage (pretty (next_id w)) (str from) (str to) (str text)
                      (db_now w)])%list
  /\ faults (Rest.send_message cfg from to text w).2 = faults (popped w).
Proof.
  intros Hcfg H1 H2 H3 Hf.
  unfold Rest.send_message. rewrite Hcfg, H1, H2, H3. cbn [negb orb].
  unfold bind, Rest.messages_insert. rewrite (store_call_run _ _ Hf).
  cbn -[popped pretty].
  by rewrite popped_messages, popped_next_id, popped_db_now.
Qed.

(** X9.  A message sent through POST /api/messages, the store answering,
    is stored with the sender, the recipient and the text of the request,
    and from then on it is in the history of the pair asked in either
    order, next to the messages that were there; the history of a pair is
    otherwise untouched by what other pairs send. *)
Theorem sent_message_is_in_both_histories cfg from to text w :
  getSupabase cfg = true ->
  falsy from = false -> falsy to = false -> falsy text = false ->
  next_fault w = None ->
  next_fault (popped w) = None ->
  exists m,
    (Rest.send_message cfg from to text w).1 = Rest.reply (Rest.PMessage m)
    /\ from_user m = str from /\ to_user m = str to
    /\ message m = str text
    /\ forall a b,
         exists ms,
           (Server.history cfg a b
              (Rest.send_message cfg from to text w).2).1
           = json (BMessages ms)
           /\ (forall x, x ∈ ms <->
                 x ∈ conversation a b (messages w)
                 \/ (x = m /\ Server.between a b m = true))
           /\ ((a = str from /\ b = str to) \/ (a = str to /\ b = str from)
               -> m ∈ ms).
Proof.
  intros Hcfg H1 H2 H3 Hf Hf2.
  destruct (send_message_run cfg from to text w Hcfg H1 H2 H3 Hf)
    as (Hr & Hm & Hfs).
  eexists. split; [exact Hr|]. repeat split.
  intros a b. eexists. split.
  - rewrite history_run; [reflexivity | done |].
    unfold next_fault in *. by rewrite Hfs.
  - rewrite Hm.
    assert (Hin : forall x,
      x ∈ conversation a b
            (messages w ++
             [mkMessage (pretty (next_id w)) (str from) (str to) (str text)
                        (db_now w)])
      <-> x ∈ conversation a b (messages w)
          \/ (x = mkMessage (pretty (next_id w)) (str from) (str to)
                            (str text) (db_now w)
              /\ Server.between a b
                   (mkMessage (pretty (next_id w)) (str from) (str to)
                              (str text) (db_now w)) = true)).
    { intros x. unfold conversation. rewrite !sort_by_perm.
      rewrite !list_elem_of_In, !filter_In, in_app_iff. simpl.
      split.
      - intros [[H|[<-|[]]] Hb]; [left | right]; done.
      - intros [[H Hb]|[-> Hb]]; split; auto. }
    split; [exact Hin|].
    intros Hab. apply Hin. right. split; [done|].
    apply between_spec. simpl. destruct Hab as [[-> ->]|[-> ->]]; auto.
Qed.

(** A run of X9: "u3" writes to "u1" in the chat. *)
Lemma sent_message_is_in_both_histories_witness :
  exists m,
    (Rest.send_message cfg0 (Some "u3") (Some "u1") (Some "hey") chat).1
    = Rest.reply (Rest.PMessage m)
    /\ from_user m = "u3" /\ to_user m = "u1" /\ message m = "hey"
    /\ forall a b,
         exists ms,
           (Server.history cfg0 a b
              (Rest.send_message cfg0 (Some "u3") (Some "u1") (Some "hey")
                                 chat).2).1
           = json (BMessages ms)
           /\ (forall x, x ∈ ms <->
                 x ∈ conversation a b (messages chat)
                 \/ (x = m /\ Server.between a b m = true))
           /\ ((a = "u3" /\ b = "u1") \/ (a = "u1" /\ b = "u3") -> m ∈ ms).
Proof.
  apply (sent_message_is_in_both_histories cfg0 (Some "u3") (Some "u1")
           (Some "hey") chat); reflexivity.
Defined.

(** ** Deleting an event *)

Lemma delete_event_run cfg id w :
  getSupabase cfg = true ->
  next_fault w = None ->
  Rest.delete_event cfg id w
  = (json BSuccess,
     set_events
       (List.filter (fun e => negb (has_id id e)) (events w)) (popped w)).
Proof.
  intros Hcfg Hf. unfold Rest.delete_event. rewrite Hcfg. cbn [negb].
  unfold bind. rewrite (store_call_run _ _ Hf). by rewrite popped_events.
Qed.

Lemma filter_idem {A : Type} (p : A -> bool) (l : list A) :
  List.filter p (List.filter p l) = List.filter p l.
Proof.
  induction l as [|x l IH]; simpl; [done|].
  destruct (p x) eqn:E; simpl; [by rewrite E, IH | done].
Qed.

(** X10.  Deleting an event by id, the store answering, answers success
    whether or not an event had that id; afterwards no stored event has
    the id and the others are there in their order; deleting again changes
    nothing; and an RSVP on the deleted id is answered 404, whoever asks
    and whatever the store does. *)
Theorem delete_event_is_idempotent cfg id w :
  getSupabase cfg = true ->
  next_fault w = None ->
  (Rest.delete_event cfg id w).1 = json BSuccess
  /\ events (Rest.delete_event cfg id w).2
     = List.filter (fun e => negb (has_id id e)) (events w)
  /\ (forall e, e ∈ events (Rest.delete_event cfg id w).2
                <-> e ∈ events w /\ ev_id e <> id)
  /\ (next_fault (popped w) = None ->
      (Rest.delete_event cfg id (Rest.delete_event cfg id w).2).1
        = json BSuccess
      /\ events (Rest.delete_event cfg id (Rest.delete_event cfg id w).2).2
         = events (Rest.delete_event cfg id w).2)
  /\ forall u n,
       falsy u = false ->
       (Server.rsvp cfg id u n (Rest.delete_event cfg id w).2).1
       = fail 404 "Event not found".
Proof.
  intros Hcfg Hf. rewrite (delete_event_run cfg id w Hcfg Hf).
  cbn [fst snd events set_events].
  split; [done|]. split; [done|]. split; [|split].
  - intros e. rewrite list_elem_of_In, filter_In, <- list_elem_of_In.
    unfold has_id. rewrite negb_true_iff, bool_decide_eq_false. done.
  - intros Hf2. rewrite delete_event_run by done.
    cbn [fst snd events set_events]. split; [done|]. apply filter_idem.
  - intros u n Hu. unfold Server.rsvp. rewrite Hcfg, Hu. cbn [negb].
    unfold bind.
    destruct (Server.events_single id _) as [f w1] eqn:E1.
    apply events_single_run in E1 as [-> [(e & -> & He)|(msg & ->)]];
      [|done].
    exfalso. cbn [events set_events] in He.
    assert (Hin : In e (List.filter (has_id id)
                    (List.filter (fun e => negb (has_id id e)) (events w))))
      by (rewrite He; by left).
    apply filter_In in Hin as [Hin Hyes].
    apply filter_In in Hin as [_ Hno].
    rewrite Hyes in Hno. discriminate Hno.
Qed.

(** A run of X10: the picnic is deleted. *)
Lemma delete_event_is_idempotent_witness :
  (Rest.delete_event cfg0 "e1" world0).1 = json BSuccess
  /\ events (Rest.delete_event cfg0 "e1" world0).2
     = List.filter (fun e => negb (has_id "e1" e)) (events world0).
Proof.
  pose proof (delete_event_is_idempotent cfg0 "e1" world0 eq_refl eq_refl)
    as (H1 & H2 & _).
  exact (conj H1 H2).
Defined.

(** ** Follows *)

Lemma follow_toggle_on cfg a b w :
  getSupabase cfg = true ->
  falsy a = false -> falsy b = false ->
  faults w = [] ->
  List.filter (edge_of (str a) (str b)) (follows w) = [] ->
  Server.follow_toggle cfg a b w
  = (json (BFollowing true),
     bump_id
       (set_notifications
          (notifications w ++ [follow_notification (str a) (str b) w])
          (bump_id
             (set_follows
                (follows w ++ [mkFollow (pretty (next_id w)) (str a) (str b)])
                w)))).
Proof.
  intros Hcfg Ha Hb Hf He.
  unfold Server.follow_toggle. rewrite Hcfg, Ha, Hb. cbn [negb orb].
  unfold bind. rewrite (store_call_no_fault _ w Hf).
  fold (edge_of (str a) (str b)). rewrite He. cbn [maybeSingle data].
  rewrite (store_call_no_fault _ w Hf).
  rewrite store_call_no_fault by exact Hf.
  unfold Server.notifications_insert.
  rewrite store_call_no_fault by exact Hf.
  reflexivity.
Qed.

Lemma follow_toggle_off cfg a b w edge :
  getSupabase cfg = true ->
  falsy a = false -> falsy b = false ->
  faults w = [] ->
  List.filter (edge_of (str a) (str b)) (follows w) = [edge] ->
  Server.follow_toggle cfg a b w
  = (json (BFollowing false),
     set_follows
       (List.filter (fun f => negb (bool_decide (f_id f = f_id edge)))
                    (follows w))
       w).
Proof.
  intros Hcfg Ha Hb Hf He.
  unfold Server.follow_toggle. rewrite Hcfg, Ha, Hb. cbn [negb orb].
  unfold bind. rewrite (store_call_no_fault _ w Hf).
  fold (edge_of (str a) (str b)). rewrite He. cbn [maybeSingle data ok].
  rewrite (store_call_no_fault _ w Hf).
  reflexivity.
Qed.

Lemma filter_fresh_id (fs : list Follow) (i : string) :
  Forall (fun f => f_id f <> i) fs ->
  List.filter (fun f => negb (bool_decide (f_id f = i))) fs = fs.
Proof.
  induction 1 as [|f fs Hf _ IH]; simpl; [done|].
  rewrite bool_decide_false by done. simpl. by rewrite IH.
Qed.

(** X11.  The follow toggle undoes itself.  From a state without the
    edge (a, b), the store answering and its next key unused in [follows]:
    the first toggle answers [following: true], stores the edge and writes
    one notification of type [follow] for [b]; the second answers
    [following: false] and leaves [follows] exactly as it was at first,
    the notification staying.  Nothing asks [a] and [b] to differ. *)
Theorem follow_toggle_twice cfg a b w :
  getSupabase cfg = true ->
  falsy a = false -> falsy b = false ->
  faults w = [] ->
  List.filter (edge_of (str a) (str b)) (follows w) = [] ->
  Forall (fun f => f_id f <> pretty (next_id w)) (follows w) ->
  (Server.follow_toggle cfg a b w).1 = json (BFollowing true)
  /\ follows (Server.follow_toggle cfg a b w).2
     = (follows w ++ [mkFollow (pretty (next_id w)) (str a) (str b)])%list
  /\ notifications (Server.follow_toggle cfg a b w).2
     = (notifications w ++ [follow_notification (str a) (str b) w])%list
  /\ (Server.follow_toggle cfg a b (Server.follow_toggle cfg a b w).2).1
     = json (BFollowing false)
  /\ follows (Server.follow_toggle cfg a b
                (Server.follow_toggle cfg a b w).2).2 = follows w
  /\ notifications (Server.follow_toggle cfg a b
                      (Server.follow_toggle cfg a b w).2).2
     = (notifications w ++ [follow_notification (str a) (str b) w])%list.
Proof.
  intros Hcfg Ha Hb Hf He Hfresh.
  rewrite (follow_toggle_on cfg a b w) by done. cbn [fst snd].
  split; [done|]. split; [done|]. split; [done|].
  rewrite (follow_toggle_off cfg a b _
             (mkFollow (pretty (next_id w)) (str a) (str b)));
    try done.
  - cbn [fst snd follows notifications set_follows bump_id
         set_notifications f_id].
    split; [done|]. split; [|done].
    rewrite List.filter_app, filter_fresh_id by done. simpl.
    rewrite bool_decide_true by done. simpl. apply app_nil_r.
  - cbn [follows set_follows bump_id set_notifications].
    rewrite List.filter_app, He. simpl. unfold edge_of. simpl.
    by rewrite !bool_decide_true.
Qed.

(** A run of X11: "u1" follows "u2", then unfollows. *)
Lemma follow_toggle_twice_witness :
  (Server.follow_toggle cfg0 (Some "u1") (Some "u2") world0).1
  = json (BFollowing true)
  /\ follows (Server.follow_toggle cfg0 (Some "u1") (Some "u2") world0).2
     = (follows world0 ++ [mkFollow (pretty (next_id world0)) "u1" "u2"])%list
  /\ notifications
       (Server.follow_toggle cfg0 (Some "u1") (Some "u2") world0).2
     = (notifications world0 ++ [follow_notification "u1" "u2" world0])%list
  /\ (Server.follow_toggle cfg0 (Some "u1") (Some "u2")
        (Server.follow_toggle cfg0 (Some "u1") (Some "u2") world0).2).1
     = json (BFollowing false)
  /\ follows (Server.follow_toggle cfg0 (Some "u1") (Some "u2")
                (Server.follow_toggle cfg0 (Some "u1") (Some "u2")
                   world0).2).2 = follows world0
  /\ notifications (Server.follow_toggle cfg0 (Some "u1") (Some "u2")
                      (Server.follow_toggle cfg0 (Some "u1") (Some "u2")
                         world0).2).2
     = (notifications world0 ++ [follow_notification "u1" "u2" world0])%list.
Proof.
  apply (follow_toggle_twice cfg0 (Some "u1") (Some "u2") world0);
    try reflexivity.
  constructor.
Defined.

Lemma get_follows_run cfg id w :
  getSupabase cfg = true ->
  faults w = [] ->
  (Rest.get_follows cfg id w).1
  = Rest.reply
      (Rest.PFollows
         (following_id
            <$> List.filter (fun f => bool_decide (follower_id f = id))
                            (follows w))
         (follower_id
            <$> List.filter (fun f => bool_decide (following_id f = id))
                            (follows w))).
Proof.
  intros Hcfg Hf. unfold Rest.get_follows. rewrite Hcfg. cbn [negb].
  unfold bind. rewrite (store_call_no_fault _ w Hf).
  rewrite (store_call_no_fault _ w Hf). reflexivity.
Qed.

(** X12.  Once (a, b) has been toggled on, the follows of [a] list [b]
    as followed and the follows of [b] list [a] as follower.  The follows
    route itself never reports a failure: configured, it answers 200 in
    every state of the store, a query that failed counting as an empty
    list. *)
Theorem follow_shows_in_both_lists cfg a b w :
  getSupabase cfg = true ->
  falsy a = false -> falsy b = false ->
  faults w = [] ->
  List.filter (edge_of (str a) (str b)) (follows w) = [] ->
  (exists following followers,
     (Rest.get_follows cfg (str a) (Server.follow_toggle cfg a b w).2).1
     = Rest.reply (Rest.PFollows following followers)
     /\ str b ∈ following)
  /\ (exists following followers,
        (Rest.get_follows cfg (str b) (Server.follow_toggle cfg a b w).2).1
        = Rest.reply (Rest.PFollows following followers)
        /\ str a ∈ followers)
  /\ forall id w', Rest.code (Rest.get_follows cfg id w').1 = 200%nat.
Proof.
  intros Hcfg Ha Hb Hf He.
  rewrite (follow_toggle_on cfg a b w) by done. cbn [snd].
  split; [|split].
  - eexists _, _. split; [by apply get_follows_run|].
    cbn [follows set_follows bump_id set_notifications].
    rewrite List.filter_app, fmap_app, elem_of_app. right.
    simpl. rewrite bool_decide_true by done. by left.
  - eexists _, _. split; [by apply get_follows_run|].
    cbn [follows set_follows bump_id set_notifications].
    rewrite List.filter_app, fmap_app, elem_of_app. right.
    simpl. rewrite bool_decide_true by done. by left.
  - intros id w'. unfold Rest.get_follows. rewrite Hcfg. cbn [negb].
    unfold bind. run_store_call; run_store_call; reflexivity.
Qed.

(** A run of X12: "u1" follows "u2". *)
Lemma follow_shows_in_both_lists_witness :
  (exists following followers,
     (Rest.get_follows cfg0 "u1"
        (Server.follow_toggle cfg0 (Some "u1") (Some "u2") world0).2).1
     = Rest.reply (Rest.PFollows following followers)
     /\ "u2" ∈ following)
  /\ (exists following followers,
        (Rest.get_follows cfg0 "u2"
           (Server.follow_toggle cfg0 (Some "u1") (Some "u2") world0).2).1
        = Rest.reply (Rest.PFollows following followers)
        /\ "u1" ∈ followers).
Proof.
  pose proof (follow_shows_in_both_lists cfg0 (Some "u1") (Some "u2") world0
                eq_refl eq_refl eq_refl eq_refl eq_refl) as (H1 & H2 & _).
  exact (conj H1 H2).
Defined.

(** ** Notifications *)

Lemma list_notifications_run cfg userId w :
  getSupabase cfg = true ->
  next_fault w = None ->
  Rest.list_notifications cfg userId w
  = (Rest.reply (Rest.PNotifications (take 50 (latest_first (inbox userId w)))),
     popped w).
Proof.
  intros Hcfg Hf. unfold Rest.list_notifications. rewrite Hcfg. cbn [negb].
  unfold bind. rewrite (store_call_run _ _ Hf).
  unfold inbox. by rewrite popped_notifications.
Qed.

Lemma latest_first_strongly_sorted ns :
  StronglySorted (fun a b => n_created_at b <= n_created_at a)
                 (latest_first ns).
Proof.
  apply Sorted_StronglySorted.
  - intros x y z. lia.
  - apply (sort_desc_sorted n_created_at).
Qed.

(** X13.  The notification list of a recipient, the store answering,
    holds at most 50 notifications, all stored and all addressed to the
    recipient, latest first; it holds every notification of the recipient
    when there are at most 50, and otherwise the latest ones: one that is
    left out is no later than any that is listed. *)
Theorem list_notifications_latest_fifty cfg userId w :
  getSupabase cfg = true ->
  next_fault w = None ->
  exists ns,
    (Rest.list_notifications cfg userId w).1
    = Rest.reply (Rest.PNotifications ns)
    /\ (List.length ns <= 50)%nat
    /\ (forall n, n ∈ ns -> n ∈ notifications w /\ n_user_id n = userId)
    /\ StronglySorted (fun a b => n_created_at b <= n_created_at a) ns
    /\ ((List.length (inbox userId w) <= 50)%nat -> ns ≡ₚ inbox userId w)
    /\ forall a b, a ∈ ns -> b ∈ inbox userId w -> b ∉ ns ->
                   n_created_at b <= n_created_at a.
Proof.
  intros Hcfg Hf. rewrite list_notifications_run by done. cbn [fst].
  set (S := latest_first (inbox userId w)).
  assert (HS : S ≡ₚ inbox userId w) by apply sort_by_perm.
  pose proof (latest_first_strongly_sorted (inbox userId w)) as Hs.
  fold S in Hs. rewrite <- (take_drop 50 S) in Hs.
  eexists. split; [reflexivity|]. split; [rewrite length_take; lia|].
  split; [|split; [|split]].
  - intros n Hn. apply (subseteq_take 50) in Hn. rewrite HS in Hn.
    unfold inbox in Hn.
    apply list_elem_of_In, filter_In in Hn as [Hin Hu].
    split; [by apply list_elem_of_In|]. by apply bool_decide_eq_true in Hu.
  - by apply StronglySorted_app_1_l in Hs.
  - intros Hle. rewrite take_ge; [done|]. by rewrite HS.
  - intros a b Ha Hb Hnb. rewrite <- HS in Hb.
    rewrite <- (take_drop 50 S) in Hb.
    apply elem_of_app in Hb as [Hb|Hb]; [done|].
    apply (StronglySorted_app_1_elem_of _ _ _ a b Hs Ha Hb).
Qed.

(** A run of X13: the notifications of "u2". *)
Lemma list_notifications_latest_fifty_witness :
  exists ns,
    (Rest.list_notifications cfg0 "u2" world_followed).1
    = Rest.reply (Rest.PNotifications ns)
    /\ (List.length ns <= 50)%nat
    /\ (forall n, n ∈ ns ->
          n ∈ notifications world_followed /\ n_user_id n = "u2")
    /\ StronglySorted (fun a b => n_created_at b <= n_created_at a) ns
    /\ ((List.length (inbox "u2" world_followed) <= 50)%nat ->
        ns ≡ₚ inbox "u2" world_followed)
    /\ forall a b, a ∈ ns -> b ∈ inbox "u2" world_followed -> b ∉ ns ->
                   n_created_at b <= n_created_at a.
Proof.
  apply (list_notifications_latest_fifty cfg0 "u2" world_followed);
    reflexivity.
Defined.

Lemma all_read_twice userId ns :
  all_read userId (all_read userId ns) = all_read userId ns.
Proof.
  unfold all_read. rewrite <- list_fmap_compose.
  apply list_fmap_ext. intros _ n _. simpl.
  destruct (bool_decide (n_user_id n = userId)) eqn:E; simpl;
    by rewrite E.
Qed.

Lemma read_notifications_run cfg userId w :
  getSupabase cfg = true ->
  next_fault w = None ->
  Rest.read_notifications cfg userId w
  = (json BSuccess,
     set_notifications (all_read userId (notifications w)) (popped w)).
Proof.
  intros Hcfg Hf. unfold Rest.read_notifications. rewrite Hcfg. cbn [negb].
  unfold bind. rewrite (store_call_run _ _ Hf).
  by rewrite popped_notifications.
Qed.

(** X14.  Marking a recipient's notifications read answers success in
    every state of the store.  When the update runs, every notification
    of the recipient is as before but read, every other one is as before,
    the list route then shows the recipient only read notifications, and
    marking again changes nothing. *)
Theorem read_notifications_marks_inbox cfg userId w :
  getSupabase cfg = true ->
  (Rest.read_notifications cfg userId w).1 = json BSuccess
  /\ (next_fault w = None ->
      notifications (Rest.read_notifications cfg userId w).2
      = all_read userId (notifications w)
      /\ Forall2 (fun n n' =>
                    (n_user_id n = userId -> n' = Rest.mark_read n)
                    /\ (n_user_id n <> userId -> n' = n))
                 (notifications w)
                 (notifications (Rest.read_notifications cfg userId w).2)
      /\ (next_fault (popped w) = None ->
          (exists ns,
             (Rest.list_notifications cfg userId
                (Rest.read_notifications cfg userId w).2).1
             = Rest.reply (Rest.PNotifications ns)
             /\ Forall (fun n => n_read n = true) ns)
          /\ notifications
               (Rest.read_notifications cfg userId
                  (Rest.read_notifications cfg userId w).2).2
             = notifications (Rest.read_notifications cfg userId w).2)).
Proof.
  intros Hcfg. split.
  - unfold Rest.read_notifications. rewrite Hcfg. cbn [negb]. unfold bind.
    run_store_call; reflexivity.
  - intros Hf. rewrite (read_notifications_run cfg userId w Hcfg Hf).
    cbn [snd notifications set_notifications]. split; [done|]. split.
    + unfold all_read. apply Forall2_fmap_r, Forall_Forall2_diag, Forall_forall.
      intros n _. simpl. case_bool_decide; split; intros; done.
    + intros Hf2. split.
      * rewrite list_notifications_run by done. cbn [fst].
        eexists. split; [reflexivity|].
        apply Forall_forall. intros n Hn.
        apply (subseteq_take 50) in Hn. unfold latest_first in Hn.
        rewrite sort_by_perm in Hn. unfold inbox in Hn.
        apply list_elem_of_In, filter_In in Hn as [Hin Hu].
        cbn [notifications set_notifications] in Hin.
        apply bool_decide_eq_true in Hu.
        apply list_elem_of_In in Hin. unfold all_read in Hin.
        apply list_elem_of_fmap in Hin as (n0 & -> & _).
        destruct (bool_decide (n_user_id n0 = userId)) eqn:E; [done|].
        apply bool_decide_eq_false in E. done.
      * rewrite read_notifications_run by done.
        cbn [snd notifications set_notifications]. apply all_read_twice.
Qed.

(** A run of X14: "u2" marks the notifications read. *)
Lemma read_notifications_marks_inbox_witness :
  (Rest.read_notifications cfg0 "u2" world_followed).1 = json BSuccess
  /\ (next_fault world_followed = None ->
      notifications (Rest.read_notifications cfg0 "u2" world_followed).2
      = all_read "u2" (notifications world_followed)).
Proof.
  pose proof (read_notifications_marks_inbox cfg0 "u2" world_followed
                eq_refl) as [H1 H2].
  split; [exact H1|]. intros Hf. exact (proj1 (H2 Hf)).
Defined.

(** X15.  Creating a notification needs a recipient and a title: without
    either the answer is 400 and nothing is stored.  With both, the store
    answering, the notification is stored unread, its type defaulting to
    [event], its body to the empty string and its payload to the empty
    object; it is the answer, and the recipient's list shows it as long
    as the recipient had fewer than 50. *)
Theorem create_notification_defaults cfg user_id type title body payload w :
  getSupabase cfg = true ->
  (falsy user_id || falsy title = true ->
   Rest.create_notification cfg user_id type title body payload w
   = (Rest.refuse 400 "user_id and title required", w))
  /\ (falsy user_id = false -> falsy title = false ->
      next_fault w = None ->
      exists n,
        (Rest.create_notification cfg user_id type title body payload w).1
        = Rest.reply (Rest.PNotification n)
        /\ notifications
             (Rest.create_notification cfg user_id type title body payload
                w).2
           = (notifications w ++ [n])%list
        /\ n_user_id n = str user_id /\ n_title n = str title
        /\ n_type n = (if falsy type then "event" else str type)
        /\ n_body n = (if falsy body then "" else str body)
        /\ n_data n = default [] payload
        /\ n_read n = false
        /\ (next_fault (popped w) = None ->
            (List.length (inbox (str user_id) w) < 50)%nat ->
            exists ns,
              (Rest.list_notifications cfg (str user_id)
                 (Rest.create_notification cfg user_id type title body
                    payload w).2).1
              = Rest.reply (Rest.PNotifications ns)
              /\ n ∈ ns)).
Proof.
  intros Hcfg. split.
  - intros H. unfold Rest.create_notification. rewrite Hcfg, H. done.
  - intros Hu Ht Hf.
    assert (Hrun :
      Rest.create_notification cfg user_id type title body payload w
      = (Rest.reply (Rest.PNotification
           (mkNotification (pretty (next_id w)) (str user_id)
              (if falsy type then "event" else str type) (str title)
              (if falsy body then "" else str body) (default [] payload)
              false (db_now w))),
         bump_id
           (set_notifications
              (notifications w ++
               [mkNotification (pretty (next_id w)) (str user_id)
                  (if falsy type then "event" else str type) (str title)
                  (if falsy body then "" else str body) (default [] payload)
                  false (db_now w)])
              (popped w)))).
    { unfold Rest.create_notification. rewrite Hcfg, Hu, Ht. cbn [negb orb].
      unfold bind. rewrite (store_call_run _ _ Hf).
      cbn -[popped pretty].
      by rewrite popped_notifications, popped_next_id, popped_db_now. }
    rewrite Hrun. cbn [fst snd notifications bump_id set_notifications].
    eexists. split; [reflexivity|]. repeat (split; [reflexivity|]).
    intros Hf2 Hlen.
    rewrite list_notifications_run; [|done|exact Hf2]. cbn [fst].
    eexists. split; [reflexivity|].
    unfold inbox. cbn [notifications bump_id set_notifications].
    rewrite List.filter_app. simpl. rewrite bool_decide_true by done.
    rewrite take_ge.
    + unfold latest_first. rewrite sort_by_perm.
      apply elem_of_app. right. by left.
    + unfold latest_first. rewrite sort_by_perm, length_app. simpl.
      unfold inbox in Hlen. lia.
Qed.

(** A run of X15: an invitation for "u2". *)
Lemma create_notification_defaults_witness :
  exists n,
    (Rest.create_notification cfg0 (Some "u2") None (Some "Come along")
        None None world_followed).1
    = Rest.reply (Rest.PNotification n)
    /\ n_type n = "event" /\ n_body n = "" /\ n_data n = []
    /\ n_read n = false.
Proof.
  destruct (proj2 (create_notification_defaults cfg0 (Some "u2") None
                     (Some "Come along") None None world_followed eq_refl)
              eq_refl eq_refl eq_refl)
    as (n & H1 & _ & _ & _ & H2 & H3 & H4 & H5 & _).
  exists n. repeat split; assumption.
Defined.

(** ** RSVP: what is refused *)

(** X16.  In the REST service an RSVP without a user id (absent or
    empty) is refused with 400 by both handlers, and an RSVP on an id that
    no single event has is refused with 404; in both cases nothing is
    written.  The socket service has no test on the user id: it answers
    404 in the second case, but a request without user id on an existing
    event stores an entry without user id. *)
Theorem rsvp_refusals cfg id u n w :
  getSupabase cfg = true ->
  (falsy u = true ->
   Server.rsvp cfg id u n w = (fail 400 "userId required", w)
   /\ Server.rsvp_enhanced cfg id u n w = (fail 400 "userId required", w))
  /\ ((forall e, List.filter (has_id id) (events w) <> [e]) ->
      (falsy u = false ->
       (Server.rsvp cfg id u n w).1 = fail 404 "Event not found"
       /\ events (Server.rsvp cfg id u n w).2 = events w
       /\ notifications (Server.rsvp cfg id u n w).2 = notifications w)
      /\ (Socket.rsvp id u n w).1 = fail 404 "Event not found"
      /\ events (Socket.rsvp id u n w).2 = events w
      /\ emitted (Socket.rsvp id u n w).2 = emitted w)
  /\ (forall e,
        List.filter (has_id id) (events w) = [e] ->
        next_fault w = None -> next_fault (popped w) = None ->
        u = None -> None ∉ ids (default [] (rsvps e)) ->
        (Socket.rsvp id u n w).1
        = json (BEvent (Server.with_rsvps
                          (default [] (rsvps e) ++ [mkRsvp None n]) e))
        /\ event_rsvps id (Socket.rsvp id u n w).2
           = (default [] (rsvps e) ++ [mkRsvp None n])%list).
Proof.
  intros Hcfg. split; [|split].
  - intros Hu. unfold Server.rsvp, Server.rsvp_enhanced.
    by rewrite Hcfg, Hu.
  - intros Hnone. split; [intros Hu; split; [|split]|split; [|split]].
    + destruct (rsvp_run cfg id u n w) as [_ [(e & He & _)|[Hs _]]];
        [by destruct (Hnone e)|].
      revert Hs. unfold Server.rsvp. rewrite Hcfg, Hu. cbn [negb].
      unfold bind.
      destruct (Server.events_single id w) as [f w1] eqn:E1.
      apply events_single_run in E1 as [-> [(e & -> & He)|(msg & ->)]];
        [by destruct (Hnone e) | done].
    + destruct (rsvp_run cfg id u n w) as [_ [(e & He & _)|[_ Hev]]];
        [by destruct (Hnone e) | done].
    + apply (rsvp_run cfg id u n w).
    + unfold Socket.rsvp, bind.
      destruct (Server.events_single id w) as [f w1] eqn:E1.
      apply events_single_run in E1 as [-> [(e & -> & He)|(msg & ->)]];
        [by destruct (Hnone e) | done].
    + destruct (socket_rsvp_events id u n w) as [H|(e & He & _)];
        [done | by destruct (Hnone e)].
    + unfold Socket.rsvp, bind.
      destruct (Server.events_single id w) as [f w1] eqn:E1.
      apply events_single_run in E1 as [-> [(e & -> & He)|(msg & ->)]];
        [by destruct (Hnone e) | simpl; apply popped_emitted].
  - intros e He Hf1 Hf2 -> Hnew.
    apply already_None_iff in Hnew.
    unfold Socket.rsvp, bind, Server.events_single.
    rewrite (store_call_run _ _ Hf1).
    rewrite popped_events. fold (has_id id). rewrite He.
    cbn [single ok error data].
    unfold Server.events_update_rsvps.
    rewrite (store_call_run _ _ Hf2).
    rewrite !popped_events. fold (has_id id). rewrite He.
    cbn [error data ok]. unfold Server.toggle_rsvps. rewrite Hnew.
    cbn -[popped]. split; [done|].
    unfold event_rsvps. cbn -[popped]. rewrite ?popped_events.
    fold (put_rsvps id (default [] (rsvps e) ++ [mkRsvp None n]) (events w)).
    by rewrite put_rsvps_filter, He.
Qed.

(** A run of X16: a request without user id on the picnic. *)
Lemma rsvp_refusals_witness :
  Server.rsvp cfg0 "e1" None (Some "Ann") world0
  = (fail 400 "userId required", world0)
  /\ event_rsvps "e1" (Socket.rsvp "e1" None (Some "Ann") world0).2
     = [mkRsvp (Some "u1") (Some "Bob"); mkRsvp None (Some "Ann")].
Proof.
  pose proof (rsvp_refusals cfg0 "e1" None (Some "Ann") world0 eq_refl)
    as (H1 & _ & H3).
  split; [exact (proj1 (H1 eq_refl))|].
  refine (proj2 (H3 picnic eq_refl eq_refl eq_refl eq_refl _)).
  intros H. apply list_elem_of_singleton in H. discriminate H.
Defined.

(** ** The socket service's sign-up as a login *)

(** X17.  In the socket service, a sign-up request that carries no email
    or no password and whose username matches exactly one stored account
    is not refused: it is answered 200 with that account (less its hash),
    marked online, no password having been asked; no account is created. *)
Theorem socket_signup_hands_over_account bh enc fold lc req w r :
  falsy (Server.c_username req) = false ->
  falsy (Server.c_email req) || falsy (Server.c_password req) = true ->
  faults w = [] ->
  List.filter (col_ilike fold "username" (str (Server.c_username req))) (users w)
    = [r] ->
  (Socket.signup bh enc fold lc req w).1
  = json (BUser (<["online" := JBool true]> (Socket.safe r)))
  /\ users (Socket.signup bh enc fold lc req w).2
     = match r !! "id" with
       | Some v => set_online v true (users w)
       | None => users w
       end
  /\ List.length (users (Socket.signup bh enc fold lc req w).2)
     = List.length (users w).
Proof.
  intros Hu Hep Hf Hr.
  assert (Hrun :
    Socket.signup bh enc fold lc req w
    = (json (BUser (<["online" := JBool true]> (Socket.safe r))),
       set_users
         (match r !! "id" with
          | Some v => set_online v true (users w)
          | None => users w
          end) w)).
  { unfold Socket.signup. rewrite Hu.
    replace (negb (falsy (Server.c_email req))
             && negb (falsy (Server.c_password req))) with false
      by (destruct (falsy (Server.c_email req)),
                   (falsy (Server.c_password req)); done).
    unfold bind, Socket.users_ilike_maybeSingle, Socket.users_set_online.
    rewrite (store_call_no_fault _ w Hf). rewrite Hr.
    cbn [maybeSingle data ok].
    rewrite (store_call_no_fault _ w Hf).
    destruct (r !! "id") as [v|]; cbn [col_eq_opt]; [reflexivity|].
    by rewrite list_fmap_id. }
  rewrite Hrun. cbn [fst snd users set_users].
  split; [done|]. split; [done|].
  destruct (r !! "id"); [|done]. unfold set_online. apply length_fmap.
Qed.

(** A run of X17: someone asks for the username "Alice". *)
Lemma socket_signup_hands_over_account_witness :
  (Socket.signup toy_sha toy_enc lower lower
     (Server.mkCredentials (Some "Alice") None None None) members).1
  = json (BUser (<["online" := JBool true]> (Socket.safe alice_row)))
  /\ users (Socket.signup toy_sha toy_enc lower lower
              (Server.mkCredentials (Some "Alice") None None None)
              members).2
     = match alice_row !! "id" with
       | Some v => set_online v true (users members)
       | None => users members
       end
  /\ List.length
       (users (Socket.signup toy_sha toy_enc lower lower
                 (Server.mkCredentials (Some "Alice") None None None)
                 members).2)
     = List.length (users members).
Proof.
  apply (socket_signup_hands_over_account toy_sha toy_enc lower lower
           (Server.mkCredentials (Some "Alice") None None None) members
           alice_row); vm_compute; reflexivity.
Defined.

(** ** What a profile update writes *)

(** X18.  A profile update whose body names none of the four editable
    columns is refused with 400 and writes nothing.  Otherwise, when
    exactly one user has the id and the store answers, each editable
    column the body names takes the body's value in that user's row, the
    rows of the other users are as they were, and the answer is the
    updated row cut down to the profile columns.  No look-up precedes the
    write: a username already taken is written all the same. *)
Theorem update_user_writes_named_columns cfg id (body : row) w :
  getSupabase cfg = true ->
  (project editable body = ∅ ->
   Server.update_user cfg id body w = (fail 400 "Nothing to update", w))
  /\ (forall r,
        project editable body <> ∅ ->
        faults w = [] ->
        List.filter (col_eq "id" (JStr id)) (users w) = [r] ->
        (Server.update_user cfg id body w).1
        = json (BUser (project Server.profile_cols
                               (project editable body ∪ r)))
        /\ users (Server.update_user cfg id body w).2
           = (fun r => if col_eq "id" (JStr id) r
                       then project editable body ∪ r else r) <$> users w
        /\ (project editable body ∪ r)
             ∈ users (Server.update_user cfg id body w).2
        /\ forall col v, col ∈ editable -> body !! col = Some v ->
                         (project editable body ∪ r) !! col = Some v).
Proof.
  intros Hcfg. split.
  - intros He. unfold Server.update_user. rewrite Hcfg. cbn [negb].
    fold editable. by rewrite He, bool_decide_true.
  - intros r Hne Hf Hr.
    assert (Hrun :
      Server.update_user cfg id body w
      = (json (BUser (project Server.profile_cols
                              (project editable body ∪ r))),
         set_users
           ((fun r => if col_eq "id" (JStr id) r
                      then project editable body ∪ r else r) <$> users w)
           w)).
    { unfold Server.update_user. rewrite Hcfg. cbn [negb].
      fold editable. rewrite bool_decide_false by done.
      unfold bind, Server.users_update_single.
      rewrite (store_call_no_fault _ w Hf). by rewrite Hr. }
    rewrite Hrun. cbn [fst snd users set_users].
    split; [done|]. split; [done|]. split.
    + apply list_elem_of_fmap. exists r. split.
      * assert (Hin : In r (List.filter (col_eq "id" (JStr id)) (users w)))
          by (rewrite Hr; by left).
        apply filter_In in Hin as [_ ->]. done.
      * eapply filter_single_elem, Hr.
    + intros col v Hcol Hv. apply lookup_union_Some_l.
      by rewrite project_lookup_in.
Qed.

(** A run of X18: alice changes her bio. *)
Lemma update_user_writes_named_columns_witness :
  (Server.update_user cfg0 "1" (<["bio" := JStr "hello"]> ∅) members).1
  = json (BUser (project Server.profile_cols
                         (project editable (<["bio" := JStr "hello"]> ∅)
                          ∪ alice_row)))
  /\ (project editable (<["bio" := JStr "hello"]> ∅) ∪ alice_row)
       !! "bio" = Some (JStr "hello").
Proof.
  destruct (proj2 (update_user_writes_named_columns cfg0 "1"
                     (<["bio" := JStr "hello"]> ∅) members eq_refl)
              alice_row)
    as (H1 & _ & _ & H4).
  - intros H. apply (f_equal (fun m : row => m !! "bio")) in H.
    vm_compute in H. discriminate H.
  - reflexivity.
  - vm_compute. reflexivity.
  - split; [exact H1|].
    apply (H4 "bio" (JStr "hello")); [|vm_compute; reflexivity].
    apply list_elem_of_In. simpl. auto.
Defined.

(** ** The presence map of the socket service *)

Lemma uid_of_nonempty user uid : uid_of user = Some uid -> uid <> "".
Proof.
  assert (Hstr : forall o, falsy o = false -> str o <> "").
  { intros [s|] Ho; simpl in *; [|done]. by apply bool_decide_eq_false in Ho. }
  destruct user as [[i1 i2 n]|]; [|done]. unfold uid_of. simpl.
  destruct (falsy i1) eqn:E1.
  - destruct (falsy i2) eqn:E2; simpl; [done|].
    intros [= <-]. by apply Hstr.
  - simpl. intros [= <-]. by apply Hstr.
Qed.

Lemma map_get_set_eq k v m : Live.map_get k (Live.map_set k v m) = Some v.
Proof.
  unfold Live.map_get. induction m as [|[k' v'] m IH]; simpl.
  - by rewrite bool_decide_true.
  - case_bool_decide as E; simpl.
    + by rewrite bool_decide_true.
    + rewrite bool_decide_false by done. exact IH.
Qed.

Lemma map_get_set_ne k k' v m :
  k <> k' -> Live.map_get k' (Live.map_set k v m) = Live.map_get k' m.
Proof.
  intros Hne. unfold Live.map_get.
  induction m as [|[k0 v0] m IH]; simpl.
  - by rewrite bool_decide_false.
  - case_bool_decide as E; simpl.
    + subst k0. by rewrite !bool_decide_false.
    + case_bool_decide; [done | exact IH].
Qed.

Lemma keys_map_set k v m :
  forall x, x ∈ keys (Live.map_set k v m) <-> x = k \/ x ∈ keys m.
Proof.
  unfold keys. induction m as [|[k' v'] m IH]; intros x; simpl.
  - rewrite list_elem_of_singleton, elem_of_nil. tauto.
  - case_bool_decide as E; simpl; rewrite !elem_of_cons.
    + subst. tauto.
    + rewrite IH. tauto.
Qed.

Lemma map_set_NoDup k v m : NoDup (keys m) -> NoDup (keys (Live.map_set k v m)).
Proof.
  unfold keys. induction m as [|[k' v'] m IH]; simpl; intros Hnd.
  - apply NoDup_singleton.
  - apply NoDup_cons in Hnd as [Hk Hm].
    case_bool_decide as E; simpl; apply NoDup_cons.
    + subst. done.
    + split; [|by apply IH].
      intros Hin. apply (keys_map_set k v m k') in Hin as [->|Hin]; done.
Qed.

Lemma map_set_fresh k v m :
  k ∉ keys m -> Live.map_set k v m = (m ++ [(k, v)])%list.
Proof.
  unfold keys. induction m as [|[k' v'] m IH]; simpl; [done|].
  rewrite not_elem_of_cons. intros [Hne Hm].
  rewrite bool_decide_false by done. by rewrite IH.
Qed.

Lemma map_delete_fresh k m : k ∉ keys m -> Live.map_delete k m = m.
Proof.
  unfold keys, Live.map_delete. induction m as [|[k' v'] m IH]; simpl; [done|].
  rewrite not_elem_of_cons. intros [Hne Hm].
  rewrite bool_decide_false by done. simpl. by rewrite IH.
Qed.

Lemma map_delete_sub k m x : x ∈ Live.map_delete k m -> x ∈ m /\ x.1 <> k.
Proof.
  unfold Live.map_delete. rewrite !list_elem_of_In, filter_In.
  rewrite negb_true_iff, bool_decide_eq_false. done.
Qed.

Lemma map_delete_NoDup k m : NoDup (keys m) -> NoDup (keys (Live.map_delete k m)).
Proof.
  unfold keys, Live.map_delete. induction m as [|[k' v'] m IH]; simpl;
    [done|].
  rewrite NoDup_cons. intros [Hk Hm].
  destruct (bool_decide (k' = k)); simpl; [by apply IH|].
  apply NoDup_cons. split; [|by apply IH].
  rewrite list_elem_of_fmap. intros ([k0 v0] & Hx & Hin). simpl in Hx.
  subst k0. apply (map_delete_sub k m) in Hin as [Hin _].
  apply Hk. apply list_elem_of_fmap. by exists (k', v0).
Qed.

Lemma getUserIdBySocket_None sid m :
  Live.getUserIdBySocket sid m = None <-> sid ∉ sockets m.
Proof.
  unfold Live.getUserIdBySocket, sockets.
  induction m as [|[k v] m IH]; simpl.
  - split; [intros _ H; inversion H | done].
  - rewrite not_elem_of_cons. case_bool_decide as E; simpl.
    + split; [done | intros [H _]; by subst].
    + rewrite IH. split; [by split | by intros [_ H]].
Qed.

Lemma getUserIdBySocket_app sid m1 m2 :
  sid ∉ sockets m1 ->
  Live.getUserIdBySocket sid (m1 ++ m2) = Live.getUserIdBySocket sid m2.
Proof.
  unfold Live.getUserIdBySocket, sockets.
  induction m1 as [|[k v] m1 IH]; simpl; [done|].
  rewrite not_elem_of_cons. intros [Hne Hm].
  rewrite bool_decide_false by done. by apply IH.
Qed.

Lemma popped_set_users us w :
  popped (set_users us w) = set_users us (popped w).
Proof. unfold popped. simpl. by destruct (faults w). Qed.

Lemma set_online_and_list_run b uid w :
  next_fault w = None -> next_fault (popped w) = None ->
  Live.set_online_and_list b uid w
  = (set_online (JStr uid) b (users w),
     set_users (set_online (JStr uid) b (users w)) (popped (popped w))).
Proof.
  intros Hf1 Hf2. unfold Live.set_online_and_list, bind.
  rewrite users_update_run by done.
  rewrite store_call_run by done. cbn -[popped].
  unfold ret. by rewrite popped_set_users.
Qed.

Lemma registerUser_skip sid user h :
  uid_of user = None -> Live.registerUser sid user h = h.
Proof.
  unfold uid_of, Live.registerUser. destruct user as [u|]; [|done].
  destruct (falsy (Live.who__id u) && falsy (Live.who_id u)); done.
Qed.

Lemma registerUser_map sid user uid h :
  uid_of user = Some uid ->
  Live.onlineUsers (Live.registerUser sid user h)
  = Live.map_set uid sid (Live.onlineUsers h).
Proof.
  unfold uid_of, Live.registerUser. destruct user as [u|]; [|done].
  destruct (falsy (Live.who__id u) && falsy (Live.who_id u)); [done|].
  intros [= <-]. by destruct (Live.set_online_and_list _ _ _).
Qed.

Lemma registerUser_run sid user uid h :
  uid_of user = Some uid ->
  next_fault (Live.world h) = None ->
  next_fault (popped (Live.world h)) = None ->
  Live.registerUser sid user h
  = Live.mkHub
      (set_users (set_online (JStr uid) true (users (Live.world h)))
                 (popped (popped (Live.world h))))
      (Live.map_set uid sid (Live.onlineUsers h))
      (Live.sent h
       ++ [Live.UsersOnline
             (set_online (JStr uid) true (users (Live.world h)));
           Live.Joined (match user with
                        | Some u => Live.who_username u
                        | None => None
                        end)]).
Proof.
  unfold uid_of, Live.registerUser. destruct user as [u|]; [|done].
  destruct (falsy (Live.who__id u) && falsy (Live.who_id u)); [done|].
  intros [= <-] Hf1 Hf2. by rewrite set_online_and_list_run.
Qed.

Lemma disconnect_map sid h :
  Live.onlineUsers (Live.disconnect sid h)
  = match Live.getUserIdBySocket sid (Live.onlineUsers h) with
    | Some uid =>
        if bool_decide (uid = "") then Live.onlineUsers h
        else Live.map_delete uid (Live.onlineUsers h)
    | None => Live.onlineUsers h
    end.
Proof.
  unfold Live.disconnect.
  destruct (Live.getUserIdBySocket sid (Live.onlineUsers h)) as [uid|];
    [|done].
  simpl. destruct (bool_decide (uid = "")); [done|].
  by destruct (Live.set_online_and_list _ _ _).
Qed.

Lemma disconnect_unknown sid h :
  sid ∉ sockets (Live.onlineUsers h) -> Live.disconnect sid h = h.
Proof.
  intros H. apply getUserIdBySocket_None in H.
  unfold Live.disconnect. by rewrite H.
Qed.

Lemma map_set_Forall (P : string * string -> Prop) k v m :
  P (k, v) -> Forall P m -> Forall P (Live.map_set k v m).
Proof.
  intros Hk. induction 1 as [|[k' v'] m Hx Hm IH]; simpl.
  - by constructor.
  - destruct (bool_decide (k' = k)); constructor; done.
Qed.

Lemma map_delete_Forall (P : string * string -> Prop) k m :
  Forall P m -> Forall P (Live.map_delete k m).
Proof.
  rewrite !Forall_forall. intros H x Hx.
  apply map_delete_sub in Hx as [Hx _]. by apply H.
Qed.

(** X19.  The presence map stays a map with non-empty user ids as keys:
    if it holds one entry per user id and no empty user id, it still does
    after any socket event ([registerUser], [sendMessage], [typing],
    [stopTyping], [disconnect]), whatever the event carries and whatever
    the store answers. *)
Theorem presence_map_stays_a_map h :
  presence_ok h ->
  (forall sid user, presence_ok (Live.registerUser sid user h))
  /\ (forall sid from to text,
        presence_ok (Live.sendMessage sid from to text h))
  /\ (forall sid to, presence_ok (Live.typing sid to h))
  /\ (forall sid to, presence_ok (Live.stopTyping sid to h))
  /\ (forall sid, presence_ok (Live.disconnect sid h)).
Proof.
  intros [Hnd Hne]. repeat split.
  - destruct (uid_of user) as [uid|] eqn:E.
    + rewrite (registerUser_map sid user uid h E). by apply map_set_NoDup.
    + by rewrite registerUser_skip.
  - destruct (uid_of user) as [uid|] eqn:E.
    + rewrite (registerUser_map sid user uid h E).
      apply map_set_Forall; [|done]. simpl. by eapply uid_of_nonempty.
    + by rewrite registerUser_skip.
  - unfold Live.sendMessage.
    destruct (Rest.messages_insert _ _ _ _) as [[[m|] [e|]] w']; done.
  - unfold Live.sendMessage.
    destruct (Rest.messages_insert _ _ _ _) as [[[m|] [e|]] w']; done.
  - unfold Live.typing, Live.relay. destruct to as [t|]; [|done].
    destruct (Live.map_get t _) as [rid|]; [|done].
    by destruct (falsy (Some rid)).
  - unfold Live.typing, Live.relay. destruct to as [t|]; [|done].
    destruct (Live.map_get t _) as [rid|]; [|done].
    by destruct (falsy (Some rid)).
  - unfold Live.stopTyping, Live.relay. destruct to as [t|]; [|done].
    destruct (Live.map_get t _) as [rid|]; [|done].
    by destruct (falsy (Some rid)).
  - unfold Live.stopTyping, Live.relay. destruct to as [t|]; [|done].
    destruct (Live.map_get t _) as [rid|]; [|done].
    by destruct (falsy (Some rid)).
  - rewrite disconnect_map.
    destruct (Live.getUserIdBySocket sid _) as [uid|]; [|done].
    destruct (bool_decide (uid = "")); [done|]. by apply map_delete_NoDup.
  - rewrite disconnect_map.
    destruct (Live.getUserIdBySocket sid _) as [uid|]; [|done].
    destruct (bool_decide (uid = "")); [done|]. by apply map_delete_Forall.
Qed.

Lemma hub0_ok : presence_ok hub0.
Proof. split; constructor. Qed.

(** A run of X19: Bob registers on socket "s1". *)
Lemma presence_map_stays_a_map_witness :
  presence_ok hub0
  /\ presence_ok (Live.registerUser "s1" (Some bob_who) hub0).
Proof.
  split; [exact hub0_ok|].
  apply (presence_map_stays_a_map hub0 hub0_ok).
Defined.

Lemma no_faults w : faults w = [] -> next_fault w = None /\ popped w = w.
Proof. intros H. unfold next_fault, popped. by rewrite H. Qed.

Lemma disconnect_run sid uid h :
  Live.getUserIdBySocket sid (Live.onlineUsers h) = Some uid ->
  uid <> "" ->
  next_fault (Live.world h) = None ->
  next_fault (popped (Live.world h)) = None ->
  Live.disconnect sid h
  = Live.mkHub
      (set_users (set_online (JStr uid) false (users (Live.world h)))
                 (popped (popped (Live.world h))))
      (Live.map_delete uid (Live.onlineUsers h))
      (Live.sent h
       ++ [Live.UsersOnline
             (set_online (JStr uid) false (users (Live.world h)))]).
Proof.
  intros Hg Hne Hf1 Hf2. unfold Live.disconnect. rewrite Hg.
  simpl. rewrite bool_decide_false by done.
  by rewrite set_online_and_list_run.
Qed.

Lemma map_delete_added k v m :
  k ∉ keys m -> Live.map_delete k (m ++ [(k, v)]) = m.
Proof.
  intros H. unfold Live.map_delete. rewrite List.filter_app.
  fold (Live.map_delete k m). rewrite map_delete_fresh by done.
  simpl. rewrite bool_decide_true by done. apply app_nil_r.
Qed.

Lemma getUserIdBySocket_added sid k m :
  sid ∉ sockets m ->
  Live.getUserIdBySocket sid (m ++ [(k, sid)]) = Some k.
Proof.
  intros H. rewrite getUserIdBySocket_app by done.
  unfold Live.getUserIdBySocket. simpl. by rewrite bool_decide_true.
Qed.

(** X20.  Registering on a socket with a user id ([_id], or else [id])
    maps that user to the socket and leaves every other user's entry as it
    was; when the store answers, the user's stored online flag is set, the
    whole users table is broadcast and the arrival announced.  A
    registration without user id changes nothing at all. *)
Theorem register_maps_user_to_socket sid user uid h :
  uid_of user = Some uid ->
  Live.map_get uid (Live.onlineUsers (Live.registerUser sid user h))
  = Some sid
  /\ (forall k, k <> uid ->
        Live.map_get k (Live.onlineUsers (Live.registerUser sid user h))
        = Live.map_get k (Live.onlineUsers h))
  /\ (next_fault (Live.world h) = None ->
      next_fault (popped (Live.world h)) = None ->
      users (Live.world (Live.registerUser sid user h))
      = set_online (JStr uid) true (users (Live.world h))
      /\ exists name,
           Live.sent (Live.registerUser sid user h)
           = (Live.sent h
              ++ [Live.UsersOnline
                    (set_online (JStr uid) true (users (Live.world h)));
                  Live.Joined name])%list)
  /\ forall other, uid_of other = None ->
                   Live.registerUser sid other h = h.
Proof.
  intros Hu. rewrite (registerUser_map sid user uid h Hu).
  split; [apply map_get_set_eq|]. split; [|split].
  - intros k Hk. by apply map_get_set_ne.
  - intros Hf1 Hf2. rewrite (registerUser_run sid user uid h) by done.
    simpl. split; [done|]. eauto.
  - intros other. apply registerUser_skip.
Qed.

(** A run of X20: Ann registers on "s2"; her [_id] is her user id. *)
Lemma register_maps_user_to_socket_witness :
  Live.map_get "u2"
    (Live.onlineUsers (Live.registerUser "s2" (Some ann_who) hub0))
  = Some "s2".
Proof.
  exact (proj1 (register_maps_user_to_socket "s2" (Some ann_who) "u2" hub0
                  eq_refl)).
Defined.

(** X21.  Registering and then disconnecting gives the presence map
    back: if the user had no entry and the socket none, the map after the
    disconnect is the map before the registration; with the store
    answering, the user's stored online flag ends false and the users
    table has been broadcast twice. *)
Theorem register_then_disconnect sid user uid h :
  uid_of user = Some uid ->
  uid ∉ keys (Live.onlineUsers h) ->
  sid ∉ sockets (Live.onlineUsers h) ->
  Live.onlineUsers (Live.disconnect sid (Live.registerUser sid user h))
  = Live.onlineUsers h
  /\ (faults (Live.world h) = [] ->
      users (Live.world (Live.disconnect sid (Live.registerUser sid user h)))
      = set_online (JStr uid) false (users (Live.world h))
      /\ exists name,
           Live.sent (Live.disconnect sid (Live.registerUser sid user h))
           = (Live.sent h
              ++ [Live.UsersOnline
                    (set_online (JStr uid) true (users (Live.world h)));
                  Live.Joined name;
                  Live.UsersOnline
                    (set_online (JStr uid) false (users (Live.world h)))])%list).
Proof.
  intros Hu Hk Hs.
  pose proof (uid_of_nonempty user uid Hu) as Hne.
  split.
  - rewrite disconnect_map, (registerUser_map sid user uid h Hu).
    rewrite map_set_fresh by done.
    rewrite getUserIdBySocket_added by done.
    rewrite bool_decide_false by done. by apply map_delete_added.
  - intros Hf. destruct (no_faults _ Hf) as [Hnf Hpop].
    rewrite (registerUser_run sid user uid h) by (rewrite ?Hpop; done).
    rewrite Hpop, Hpop.
    rewrite (disconnect_run sid uid).
    + simpl. rewrite set_online_twice. split; [done|].
      eexists. by rewrite <- app_assoc.
    + simpl. rewrite map_set_fresh by done.
      by apply getUserIdBySocket_added.
    + done.
    + simpl. unfold next_fault. simpl. by rewrite Hf.
    + simpl. rewrite popped_set_users, Hpop.
      unfold next_fault. simpl. by rewrite Hf.
Qed.

(** A run of X21: Bob registers on "s1" and disconnects. *)
Lemma register_then_disconnect_witness :
  Live.onlineUsers
    (Live.disconnect "s1" (Live.registerUser "s1" (Some bob_who) hub0))
  = Live.onlineUsers hub0.
Proof.
  refine (proj1 (register_then_disconnect "s1" (Some bob_who) "u1" hub0
                   eq_refl _ _));
    intros H; inversion H.
Defined.

Lemma map_set_entries k v m x :
  NoDup (keys m) ->
  x ∈ Live.map_set k v m -> x = (k, v) \/ (x ∈ m /\ x.1 <> k).
Proof.
  unfold keys. induction m as [|[k' v'] m IH]; simpl; intros Hnd.
  - rewrite list_elem_of_singleton. auto.
  - apply NoDup_cons in Hnd as [Hk Hm].
    case_bool_decide as E; rewrite !elem_of_cons.
    + intros [->|H]; [by left|]. subst k'.
      right. split; [by right|]. intros Hx. apply Hk.
      apply list_elem_of_fmap. by exists x.
    + intros [->|H]; [right; split; [by left | done]|].
      destruct (IH Hm H) as [->|[Hin Hne]]; [by left|].
      right. split; [by right | done].
Qed.

Lemma sockets_elem sid m :
  sid ∈ sockets m <-> exists x, x ∈ m /\ x.2 = sid.
Proof.
  unfold sockets. rewrite list_elem_of_fmap.
  split; intros (x & H1 & H2); exists x; done.
Qed.

(** X22.  A user who registers again on a new socket is moved, not
    doubled, and is then out of reach of the old socket's disconnect: if
    the old socket carried no other user, its disconnect finds nothing and
    changes nothing, neither the map, nor the store, nor what was sent. *)
Theorem reconnect_survives_old_disconnect old new user uid h :
  uid_of user = Some uid ->
  NoDup (keys (Live.onlineUsers h)) ->
  old <> new ->
  (forall x, x ∈ Live.onlineUsers h -> x.2 = old -> x.1 = uid) ->
  Live.map_get uid (Live.onlineUsers (Live.registerUser new user h))
  = Some new
  /\ (uid ∈ keys (Live.onlineUsers h) ->
      List.length (Live.onlineUsers (Live.registerUser new user h))
      = List.length (Live.onlineUsers h))
  /\ Live.disconnect old (Live.registerUser new user h)
     = Live.registerUser new user h.
Proof.
  intros Hu Hnd Hon Hold.
  split; [|split].
  - rewrite (registerUser_map new user uid h Hu). apply map_get_set_eq.
  - rewrite (registerUser_map new user uid h Hu).
    generalize (Live.onlineUsers h). unfold keys.
    induction l as [|[k v] l IH]; simpl; [intros H; inversion H|].
    case_bool_decide as E; simpl; [done|].
    rewrite elem_of_cons. intros [->|H]; [done|]. by rewrite IH.
  - apply disconnect_unknown.
    rewrite (registerUser_map new user uid h Hu).
    rewrite sockets_elem. intros (x & Hx & Hs).
    apply (map_set_entries _ _ _ _ Hnd) in Hx as [->|[Hx Hne]].
    + simpl in Hs. by subst.
    + apply Hne. by apply Hold.
Qed.

(** A run of X22: Bob comes back on "s9"; "s1" disconnects late. *)
Lemma reconnect_survives_old_disconnect_witness :
  Live.map_get "u1"
    (Live.onlineUsers (Live.registerUser "s9" (Some bob_who) hub_bob))
  = Some "s9"
  /\ Live.disconnect "s1" (Live.registerUser "s9" (Some bob_who) hub_bob)
     = Live.registerUser "s9" (Some bob_who) hub_bob.
Proof.
  assert (H : forall x, x ∈ Live.onlineUsers hub_bob -> x.2 = "s1"
                        -> x.1 = "u1").
  { intros x Hx _. apply list_elem_of_singleton in Hx. by subst. }
  assert (Hnd : NoDup (keys (Live.onlineUsers hub_bob))).
  { apply NoDup_singleton. }
  assert (Hne : "s1" <> "s9") by discriminate.
  pose proof (reconnect_survives_old_disconnect "s1" "s9" (Some bob_who)
                "u1" hub_bob eq_refl Hnd Hne H) as (H1 & _ & H3).
  exact (conj H1 H3).
Defined.

(** X23.  One socket, two users: when a socket registers a second user
    id, its disconnect takes out only the user registered first.  The
    second stays in the map, bound to the closed socket, until a second
    disconnect of that socket, which never comes. *)
Theorem shared_socket_leaves_second_user sid u1 u2 uid1 uid2 h :
  uid_of u1 = Some uid1 ->
  uid_of u2 = Some uid2 ->
  uid1 <> uid2 ->
  uid1 ∉ keys (Live.onlineUsers h) ->
  uid2 ∉ keys (Live.onlineUsers h) ->
  sid ∉ sockets (Live.onlineUsers h) ->
  Live.onlineUsers
    (Live.disconnect sid
       (Live.registerUser sid u2 (Live.registerUser sid u1 h)))
  = (Live.onlineUsers h ++ [(uid2, sid)])%list
  /\ Live.map_get uid2
       (Live.onlineUsers
          (Live.disconnect sid
             (Live.registerUser sid u2 (Live.registerUser sid u1 h))))
     = Some sid
  /\ Live.onlineUsers
       (Live.disconnect sid
          (Live.disconnect sid
             (Live.registerUser sid u2 (Live.registerUser sid u1 h))))
     = Live.onlineUsers h.
Proof.
  intros H1 H2 Hne Hk1 Hk2 Hs.
  pose proof (uid_of_nonempty u1 uid1 H1) as Hn1.
  pose proof (uid_of_nonempty u2 uid2 H2) as Hn2.
  assert (Hmap :
    Live.onlineUsers (Live.registerUser sid u2 (Live.registerUser sid u1 h))
    = (Live.onlineUsers h ++ [(uid1, sid); (uid2, sid)])%list).
  { rewrite (registerUser_map sid u2 uid2 _ H2),
      (registerUser_map sid u1 uid1 h H1).
    rewrite (map_set_fresh uid1) by done.
    rewrite map_set_fresh.
    - by rewrite <- app_assoc.
    - unfold keys. rewrite fmap_app, elem_of_app. simpl.
      rewrite list_elem_of_singleton. intros [H|H]; [done | congruence]. }
  assert (Hafter :
    Live.onlineUsers
      (Live.disconnect sid
         (Live.registerUser sid u2 (Live.registerUser sid u1 h)))
    = (Live.onlineUsers h ++ [(uid2, sid)])%list).
  { rewrite disconnect_map, Hmap.
    rewrite getUserIdBySocket_app by done.
    unfold Live.getUserIdBySocket. simpl. rewrite bool_decide_true by done.
    simpl. rewrite bool_decide_false by done.
    unfold Live.map_delete. rewrite List.filter_app.
    fold (Live.map_delete uid1 (Live.onlineUsers h)).
    rewrite map_delete_fresh by done. simpl.
    rewrite bool_decide_true by done.
    rewrite (bool_decide_false (uid2 = uid1)) by congruence. done. }
  split; [exact Hafter|]. split.
  - rewrite Hafter. rewrite <- (map_set_fresh uid2 sid) by done.
    apply map_get_set_eq.
  - rewrite disconnect_map, Hafter.
    rewrite getUserIdBySocket_added by done.
    rewrite bool_decide_false by done. by apply map_delete_added.
Qed.

(** A run of X23: Bob and Ann register on the same socket. *)
Lemma shared_socket_leaves_second_user_witness :
  Live.onlineUsers
    (Live.disconnect "s1"
       (Live.registerUser "s1" (Some ann_who)
          (Live.registerUser "s1" (Some bob_who) hub0)))
  = [("u2", "s1")].
Proof.
  refine (proj1 (shared_socket_leaves_second_user "s1" (Some bob_who)
                   (Some ann_who) "u1" "u2" hub0 eq_refl eq_refl _ _ _ _));
    first [discriminate | intros H; inversion H].
Defined.

Lemma map_get_None k m : Live.map_get k m = None <-> k ∉ keys m.
Proof.
  unfold Live.map_get, keys. induction m as [|[k' v'] m IH]; simpl.
  - split; [intros _ H; inversion H | done].
  - rewrite not_elem_of_cons. case_bool_decide as E; simpl.
    + split; [done | intros [H _]; by subst].
    + rewrite IH. split; [by split | by intros [_ H]].
Qed.

Lemma relay_found signal sid t rid h :
  Live.map_get t (Live.onlineUsers h) = Some rid ->
  rid <> "" ->
  Live.relay signal sid (Some t) h
  = Live.mkHub (Live.world h) (Live.onlineUsers h)
      (Live.sent h
       ++ [signal rid (Live.getUserIdBySocket sid (Live.onlineUsers h))]).
Proof.
  intros Hg Hne. unfold Live.relay. rewrite Hg. simpl.
  by rewrite bool_decide_false.
Qed.

Lemma relay_lost signal sid to h :
  match to with
  | Some t => t ∉ keys (Live.onlineUsers h)
  | None => True
  end ->
  Live.relay signal sid to h = h.
Proof.
  destruct to as [t|]; [|done]. intros H. apply map_get_None in H.
  unfold Live.relay. by rewrite H.
Qed.

(** X24.  Typing signals reach a registered recipient, and only one.
    With a recipient registered on one socket and a sender on another,
    [typing] and [stopTyping] from the sender's socket emit one signal, to
    the recipient's socket, carrying the sender's user id; from a socket
    that registered no one the signal carries no sender; towards someone
    not registered, or once the recipient has disconnected, nothing is
    emitted.  In no case is the store or the map touched. *)
Theorem typing_reaches_registered_recipient rid sid ru su r s h :
  uid_of ru = Some r ->
  uid_of su = Some s ->
  r <> s -> rid <> sid -> rid <> "" ->
  r ∉ keys (Live.onlineUsers h) ->
  s ∉ keys (Live.onlineUsers h) ->
  rid ∉ sockets (Live.onlineUsers h) ->
  sid ∉ sockets (Live.onlineUsers h) ->
  Live.typing sid (Some r)
    (Live.registerUser sid su (Live.registerUser rid ru h))
  = Live.mkHub
      (Live.world (Live.registerUser sid su (Live.registerUser rid ru h)))
      (Live.onlineUsers h ++ [(r, rid); (s, sid)])
      (Live.sent (Live.registerUser sid su (Live.registerUser rid ru h))
       ++ [Live.TypingStart rid (Some s)])
  /\ Live.stopTyping sid (Some r)
       (Live.registerUser sid su (Live.registerUser rid ru h))
     = Live.mkHub
         (Live.world (Live.registerUser sid su (Live.registerUser rid ru h)))
         (Live.onlineUsers h ++ [(r, rid); (s, sid)])
         (Live.sent (Live.registerUser sid su (Live.registerUser rid ru h))
          ++ [Live.TypingStop rid (Some s)])
  /\ (forall stranger,
        stranger ∉ sockets (Live.onlineUsers h) ->
        stranger <> rid -> stranger <> sid ->
        Live.sent
          (Live.typing stranger (Some r)
             (Live.registerUser sid su (Live.registerUser rid ru h)))
        = (Live.sent (Live.registerUser sid su (Live.registerUser rid ru h))
           ++ [Live.TypingStart rid None])%list)
  /\ (forall to,
        match to with
        | Some t => (t ∉ keys (Live.onlineUsers h)) /\ t <> r /\ t <> s
        | None => True
        end ->
        Live.typing sid to
          (Live.registerUser sid su (Live.registerUser rid ru h))
        = Live.registerUser sid su (Live.registerUser rid ru h))
  /\ Live.typing sid (Some r)
       (Live.disconnect rid
          (Live.registerUser sid su (Live.registerUser rid ru h)))
     = Live.disconnect rid
         (Live.registerUser sid su (Live.registerUser rid ru h)).
Proof.
  intros Hr Hs Hrs Hsock Hrid Hkr Hks Hsr Hss.
  pose proof (uid_of_nonempty ru r Hr) as Hnr.
  set (h2 := Live.registerUser sid su (Live.registerUser rid ru h)).
  assert (Hmap : Live.onlineUsers h2
                 = (Live.onlineUsers h ++ [(r, rid); (s, sid)])%list).
  { unfold h2.
    rewrite (registerUser_map sid su s _ Hs),
      (registerUser_map rid ru r h Hr).
    rewrite (map_set_fresh r) by done. rewrite map_set_fresh.
    - by rewrite <- app_assoc.
    - unfold keys. rewrite fmap_app, elem_of_app. simpl.
      rewrite list_elem_of_singleton. intros [H|H]; [done | congruence]. }
  assert (Hget : Live.map_get r (Live.onlineUsers h2) = Some rid).
  { unfold h2. rewrite (registerUser_map sid su s _ Hs).
    rewrite map_get_set_ne by congruence.
    rewrite (registerUser_map rid ru r h Hr). apply map_get_set_eq. }
  assert (Hwho : forall x, x ∉ sockets (Live.onlineUsers h) -> x <> rid ->
            Live.getUserIdBySocket x (Live.onlineUsers h2)
            = if bool_decide (sid = x) then Some s else None).
  { intros x Hx Hxr. rewrite Hmap, getUserIdBySocket_app by done.
    unfold Live.getUserIdBySocket. simpl.
    rewrite (bool_decide_false (rid = x)) by congruence.
    by destruct (bool_decide (sid = x)). }
  split; [|split; [|split; [|split]]].
  - unfold Live.typing. rewrite (relay_found _ sid r rid h2 Hget Hrid).
    rewrite (Hwho sid) by (done || congruence).
    rewrite bool_decide_true by done. by rewrite Hmap.
  - unfold Live.stopTyping. rewrite (relay_found _ sid r rid h2 Hget Hrid).
    rewrite (Hwho sid) by (done || congruence).
    rewrite bool_decide_true by done. by rewrite Hmap.
  - intros x Hx Hxr Hxs. unfold Live.typing.
    rewrite (relay_found _ x r rid h2 Hget Hrid). simpl.
    rewrite (Hwho x) by done. by rewrite bool_decide_false by congruence.
  - intros to Hto. unfold Live.typing. apply relay_lost.
    destruct to as [t|]; [|done]. destruct Hto as (Ht & Htr & Hts).
    rewrite Hmap. unfold keys. rewrite fmap_app, elem_of_app. simpl.
    rewrite !elem_of_cons, elem_of_nil. intuition.
  - unfold Live.typing. apply relay_lost.
    rewrite disconnect_map, Hmap.
    rewrite getUserIdBySocket_app by done.
    unfold Live.getUserIdBySocket. simpl. rewrite bool_decide_true by done.
    simpl. rewrite bool_decide_false by done.
    unfold Live.map_delete. rewrite List.filter_app.
    fold (Live.map_delete r (Live.onlineUsers h)).
    rewrite map_delete_fresh by done. simpl.
    rewrite bool_decide_true by done.
    rewrite (bool_decide_false (s = r)) by congruence. simpl.
    unfold keys. rewrite fmap_app, elem_of_app. simpl.
    rewrite list_elem_of_singleton. intros [H|H]; [done | congruence].
Qed.

(** A run of X24: Ann, on "s2", types to Bob, on "s1". *)
Lemma typing_reaches_registered_recipient_witness :
  Live.typing "s2" (Some "u1")
    (Live.registerUser "s2" (Some ann_who)
       (Live.registerUser "s1" (Some bob_who) hub0))
  = Live.mkHub
      (Live.world (Live.registerUser "s2" (Some ann_who)
                     (Live.registerUser "s1" (Some bob_who) hub0)))
      (Live.onlineUsers hub0 ++ [("u1", "s1"); ("u2", "s2")])
      (Live.sent (Live.registerUser "s2" (Some ann_who)
                    (Live.registerUser "s1" (Some bob_who) hub0))
       ++ [Live.TypingStart "s1" (Some "u2")]).
Proof.
  refine (proj1 (typing_reaches_registered_recipient "s1" "s2"
                   (Some bob_who) (Some ann_who) "u1" "u2" hub0
                   eq_refl eq_refl _ _ _ _ _ _ _));
    first [discriminate | intros H'; inversion H'].
Defined.

(** X25.  A message sent over the socket.  If the insert fails, nothing
    is stored and nothing is emitted, to no one: the sender is not told.
    If it succeeds, the message is stored and echoed to the sender's
    socket; it is emitted to the recipient's socket as well exactly when
    the recipient is registered, so a sender writing to a user registered
    on the sender's own socket is sent the message twice.  The presence
    map is never touched. *)
Theorem socket_message_delivery sid from to text h :
  Live.onlineUsers (Live.sendMessage sid from to text h) = Live.onlineUsers h
  /\ (next_fault (Live.world h) <> None ->
      messages (Live.world (Live.sendMessage sid from to text h))
      = messages (Live.world h)
      /\ Live.sent (Live.sendMessage sid from to text h) = Live.sent h)
  /\ (next_fault (Live.world h) = None ->
      messages (Live.world (Live.sendMessage sid from to text h))
      = (messages (Live.world h)
         ++ [mkMessage (pretty (next_id (Live.world h))) from to text
                       (db_now (Live.world h))])%list
      /\ (to ∉ keys (Live.onlineUsers h) ->
          Live.sent (Live.sendMessage sid from to text h)
          = (Live.sent h
             ++ [Live.NewMessage sid
                   (mkMessage (pretty (next_id (Live.world h))) from to text
                              (db_now (Live.world h)))])%list)
      /\ (forall rid,
            Live.map_get to (Live.onlineUsers h) = Some rid -> rid <> "" ->
            Live.sent (Live.sendMessage sid from to text h)
            = (Live.sent h
               ++ [Live.NewMessage rid
                     (mkMessage (pretty (next_id (Live.world h))) from to
                                text (db_now (Live.world h)));
                   Live.NewMessage sid
                     (mkMessage (pretty (next_id (Live.world h))) from to
                                text (db_now (Live.world h)))])%list)).
Proof.
  split; [|split].
  - unfold Live.sendMessage.
    destruct (Rest.messages_insert _ _ _ _) as [[[m|] [e|]] w']; done.
  - intros Hf. destruct (next_fault (Live.world h)) as [msg|] eqn:E; [|done].
    unfold Live.sendMessage, Rest.messages_insert.
    rewrite (store_call_fault _ _ msg E). simpl.
    by rewrite popped_messages.
  - intros Hf. unfold Live.sendMessage, Rest.messages_insert.
    rewrite (store_call_run _ _ Hf). cbn -[popped pretty].
    rewrite popped_messages, popped_next_id, popped_db_now.
    split; [done|]. split.
    + intros Hto. apply map_get_None in Hto. by rewrite Hto.
    + intros rid Hg Hne. rewrite Hg. simpl.
      by rewrite bool_decide_false.
Qed.

(** Bob, alone on "s1", writes to himself: the socket is sent the message
    twice. *)
Example socket_message_to_self :
  Live.sent (Live.sendMessage "s1" "u1" "u1" "note" hub_bob)
  = (Live.sent hub_bob
     ++ [Live.NewMessage "s1" (mkMessage "1" "u1" "u1" "note" 5000);
         Live.NewMessage "s1" (mkMessage "1" "u1" "u1" "note" 5000)])%list.
Proof. vm_compute. reflexivity. Qed.
